(** * TruePic image analyzer: a shallow embedding of [lib/imageAnalyzer.ts]

    The heuristic scoring engine of the repository (class [ImageAnalyzer]):
    five signal detectors over a decoded [ImageData] and a [File], the
    aggregation of their results into two scores and a verdict, and the
    decorative heat map.

    Modelling conventions.
    - A JavaScript [number] is an exact real or [NaN] (type [number]).
      Binary64 rounding error is not modelled, and neither are the
      infinities: every division of the program whose divisor can be zero
      has a zero dividend there (a sum over an empty array), which is [NaN]
      in JavaScript too.
    - Variables that hold array indices and loop counters are integers
      ([Z], [nat]); [Math.floor] of a real is taken with [Zfloor].
    - A [Uint8ClampedArray] is a [list byte]; reading outside it yields
      [undefined] ([None]), which arithmetic turns into [NaN].
    - [Math.random()] reads the next value of a sequence supplied by the
      environment; the position in that sequence is threaded as state. *)

From Stdlib Require Import Reals Lra Lia ZArith List Bool String Ascii.
From Stdlib Require Import Strings.Byte.
From Stdlib Require Import DecimalString ListSet.
Import ListNotations.

Set Implicit Arguments.

Local Open Scope string_scope.
Local Open Scope R_scope.

(** ** JavaScript numbers *)

Inductive number : Type :=
| NaN : number
| Num : R -> number.

Declare Scope num_scope.
Delimit Scope num_scope with num.
Bind Scope num_scope with number.

Definition lift1 (f : R -> R) (a : number) : number :=
  match a with
  | Num x => Num (f x)
  | NaN => NaN
  end.

Definition lift2 (f : R -> R -> R) (a b : number) : number :=
  match a, b with
  | Num x, Num y => Num (f x y)
  | _, _ => NaN
  end.

Definition nadd : number -> number -> number := lift2 Rplus.
Definition nsub : number -> number -> number := lift2 Rminus.
Definition nmul : number -> number -> number := lift2 Rmult.

(** [a / b]: a zero divisor gives [NaN] (see the conventions above). *)
Definition ndiv (a b : number) : number :=
  match a, b with
  | Num x, Num y => if Req_dec_T y 0 then NaN else Num (x / y)
  | _, _ => NaN
  end.

(** [a > b] and [a < b]: false as soon as one side is [NaN]. *)
Definition ngt (a b : number) : bool :=
  match a, b with
  | Num x, Num y => if Rlt_dec y x then true else false
  | _, _ => false
  end.

Definition nlt (a b : number) : bool := ngt b a.

Infix "+" := nadd : num_scope.
Infix "-" := nsub : num_scope.
Infix "*" := nmul : num_scope.
Infix "/" := ndiv : num_scope.
Infix ">?" := ngt (at level 70, no associativity) : num_scope.
Infix "<?" := nlt (at level 70, no associativity) : num_scope.

(** Integers as numbers. *)
Definition ofZ (z : Z) : number := Num (IZR z).
Definition ofNat (n : nat) : number := ofZ (Z.of_nat n).

Module Math.

Definition abs : number -> number := lift1 Rabs.

Definition max : number -> number -> number := lift2 Rmax.

Definition min : number -> number -> number := lift2 Rmin.

(** [Math.sqrt]: [NaN] on a negative argument. *)
Definition sqrt (a : number) : number :=
  match a with
  | Num x => if Rlt_dec x 0 then NaN else Num (R_sqrt.sqrt x)
  | NaN => NaN
  end.

(** [Math.pow(a, n)] for a literal exponent [n]. *)
Definition pow (a : number) (n : nat) : number :=
  match n with
  | O => Num 1
  | _ => lift1 (fun x => (x ^ n)%R) a
  end.

(** [Math.floor], as an integer; [None] stands for [NaN]. *)
Definition floor (a : number) : option Z :=
  match a with
  | Num x => Some (Zfloor x)
  | NaN => None
  end.

(** [Math.round]: the nearest integer, a tie going up. *)
Definition round_R (x : R) : Z := Zfloor (x + / 2).

Definition round (a : number) : number :=
  match a with
  | Num x => ofZ (round_R x)
  | NaN => NaN
  end.

End Math.

(** [String(n)] for the numbers the program prints, which are integers. *)
Definition string_of_Z (z : Z) : string := NilZero.string_of_int (Z.to_int z).

Definition number_toString (a : number) : string :=
  match a with
  | Num x => string_of_Z (Zfloor x)
  | NaN => "NaN"
  end.

(** ** Typed arrays *)

Definition byteZ (b : byte) : Z := Z.of_N (Byte.to_N b).

(** [data[i]]: [None] is [undefined]. *)
Definition get (data : list byte) (i : Z) : option byte :=
  if (i <? 0)%Z then None else nth_error data (Z.to_nat i).

(** An array element in an arithmetic context. *)
Definition toNumber (v : option byte) : number :=
  match v with
  | Some b => ofZ (byteZ b)
  | None => NaN
  end.

(** [v || 0]. *)
Definition orZero (v : option byte) : number :=
  match v with
  | Some b => ofZ (byteZ b)
  | None => Num 0
  end.

Definition array_length (data : list byte) : Z := Z.of_nat (List.length data).

(** The values [lo, lo + step, ...] below [hi]: the indices visited by
    [for (let i = lo; i < hi; i += step)]. *)
Definition range (lo hi step : Z) : list Z :=
  map (fun k => (lo + step * Z.of_nat k)%Z)
      (seq 0 (Z.to_nat ((hi - lo + step - 1) / step))).

(** ** The data model *)

Record ImageData : Type := {
  width : Z;
  height : Z;
  data : list byte
}.

Record File : Type := {
  name : string;
  type : string;
  size : Z;
  lastModified : Z
}.

(** What the canvas hands out: positive dimensions and four channel bytes
    per pixel. *)
Definition well_formed (img : ImageData) : Prop :=
  (0 < width img)%Z /\ (0 < height img)%Z /\
  array_length (data img) = (4 * (width img * height img))%Z.

Record RGB : Type := { r : number; g : number; b : number }.

Record PixelAnomalies : Type := {
  pa_detected : bool;
  severity : number;
  pa_description : string
}.

Record LightingShadows : Type := {
  consistent : bool;
  ls_score : number;
  ls_description : string
}.

Record AIArtifacts : Type := {
  ai_detected : bool;
  confidence : number;
  ai_description : string
}.

Record Metadata : Type := {
  authentic : bool;
  flags : list string;
  md_description : string
}.

Record SemanticLogic : Type := {
  logical : bool;
  sl_score : number;
  sl_description : string
}.

Record Region : Type := {
  x : R;
  y : R;
  rwidth : R;
  rheight : R;
  intensity : R
}.

(** ** The random source *)

(** A computation that may call [Math.random()]: it is given the sequence
    of values the calls return and the number of calls made so far. *)
Definition Rand (A : Type) : Type := (nat -> R) -> nat -> A * nat.

Definition ret {A} (a : A) : Rand A := fun _ k => (a, k).

Definition bind {A B} (c : Rand A) (f : A -> Rand B) : Rand B :=
  fun rnd k => let (a, k') := c rnd k in f a rnd k'.

Definition Math_random : Rand R := fun rnd k => (rnd k, S k).

Notation "x <- c ;; f" := (bind c (fun x => f))
  (at level 61, c at next level, right associativity).

(** [for (let i = 0; i < n; i++) acc = body(acc)]. *)
Fixpoint repeat_loop {A} (n : nat) (body : A -> Rand A) (acc : A) : Rand A :=
  match n with
  | O => ret acc
  | S n' => acc' <- body acc ;; repeat_loop n' body acc'
  end.

(** ** Pixel anomaly detector *)

Definition getNeighborAverage (data : list byte) (index width : Z) : RGB :=
  let neighbors :=
    filter (fun i => (0 <=? i)%Z && (i <? array_length data)%Z)
           [ (index - width * 4)%Z; (index + width * 4)%Z;
             (index - 4)%Z; (index + 4)%Z ] in
  let sum :=
    fold_left
      (fun (acc : RGB) i =>
         {| r := (r acc + orZero (get data i))%num;
            g := (g acc + orZero (get data (i + 1)))%num;
            b := (b acc + orZero (get data (i + 2)))%num |})
      neighbors {| r := Num 0; g := Num 0; b := Num 0 |} in
  let count := ofNat (List.length neighbors) in
  {| r := (r sum / count)%num; g := (g sum / count)%num; b := (b sum / count)%num |}.

(** [Math.floor(Math.random() * (data.length / 4)) * 4], the offset of a
    random pixel, drawn the same way by both sampling detectors. *)
Definition randomPixelIndex (data : list byte) : Rand Z :=
  u <- Math_random ;;
  ret (Zfloor (u * (IZR (array_length data) / 4)) * 4)%Z.

(** The sum of the three channel differences between the pixel at [index]
    and the average of its neighbours: the expression that
    [analyzePixelAnomalies] calls [diff] and [detectAIArtifacts] calls
    [smoothness]. *)
Definition neighborDiff (img : ImageData) (index : Z) : number :=
  let d := data img in
  let r0 := toNumber (get d index) in
  let g0 := toNumber (get d (index + 1)) in
  let b0 := toNumber (get d (index + 2)) in
  let avgNeighbor := getNeighborAverage d index (width img) in
  (Math.abs (r0 - r avgNeighbor) + Math.abs (g0 - g avgNeighbor)
   + Math.abs (b0 - b avgNeighbor))%num.

Definition sampleSize : nat := 1000.

Definition analyzePixelAnomalies (img : ImageData) : Rand PixelAnomalies :=
  anomalyCount <-
    repeat_loop sampleSize
      (fun anomalyCount =>
         randomIndex <- randomPixelIndex (data img) ;;
         let diff := neighborDiff img randomIndex in
         ret (if (diff >? Num 100)%num then S anomalyCount else anomalyCount))
      O ;;
  let severity := (ofNat anomalyCount / ofNat sampleSize * Num 100)%num in
  let detected := (severity >? Num 15)%num in
  ret {| pa_detected := detected;
         severity := Math.round severity;
         pa_description :=
           if detected
           then string_of_Z (Z.of_nat anomalyCount)
                ++ " pixel discontinuities detected indicating potential manipulation"
           else "No significant pixel anomalies detected" |}.

(** ** Lighting and shadow detector *)

Definition analyzeLightingAndShadows (img : ImageData) : LightingShadows :=
  let d := data img in
  let brightness :=
    map (fun i =>
           let r := toNumber (get d i) in
           let g := toNumber (get d (i + 1)) in
           let b := toNumber (get d (i + 2)) in
           ((r + g + b) / Num 3)%num)
        (range 0 (array_length d) 4) in
  let length := ofNat (List.length brightness) in
  let mean := (fold_left (fun a b => a + b) brightness (Num 0) / length)%num in
  let variance :=
    (fold_left (fun sum val => sum + Math.pow (val - mean) 2) brightness (Num 0)
     / length)%num in
  let stdDev := Math.sqrt variance in
  let normalizedStdDev := (stdDev / Num 255)%num in
  let consistencyScore :=
    Math.max (Num 0) (Num 100 - normalizedStdDev * Num 200) in
  let consistent := (consistencyScore >? Num 40)%num in
  {| consistent := consistent;
     ls_score := Math.round consistencyScore;
     ls_description :=
       if consistent
       then "Lighting and shadow patterns appear natural and consistent"
       else "Unusual lighting variations detected suggesting possible compositing" |}.

(** ** AI artifact detector *)

Definition sampleRows : nat := 50.

Definition detectAIArtifacts (img : ImageData) : Rand AIArtifacts :=
  let d := data img in
  let width := width img in
  let height := height img in
  symmetryScore <-
    repeat_loop sampleRows
      (fun symmetryScore =>
         u <- Math_random ;;
         let y := Zfloor (u * IZR height) in
         let leftIndex := (y * width * 4)%Z in
         let rightIndex := ((y * width + width - 1) * 4)%Z in
         let leftColor :=
           [ toNumber (get d leftIndex); toNumber (get d (leftIndex + 1));
             toNumber (get d (leftIndex + 2)) ] in
         let rightColor :=
           [ toNumber (get d rightIndex); toNumber (get d (rightIndex + 1));
             toNumber (get d (rightIndex + 2)) ] in
         let diff :=
           fold_left (fun sum vr => (sum + Math.abs (fst vr - snd vr))%num)
                     (combine leftColor rightColor) (Num 0) in
         ret (if (diff <? Num 30)%num then S symmetryScore else symmetryScore))
      O ;;
  smoothnessScore <-
    repeat_loop 1000
      (fun smoothnessScore =>
         randomIndex <- randomPixelIndex d ;;
         let smoothness := neighborDiff img randomIndex in
         ret (if (smoothness <? Num 20)%num
              then S smoothnessScore else smoothnessScore))
      O ;;
  let symmetryPercent := (ofNat symmetryScore / ofNat sampleRows * Num 100)%num in
  let smoothnessPercent := (ofNat smoothnessScore / Num 1000 * Num 100)%num in
  let aiConfidence :=
    (symmetryPercent * Num 0.3 + smoothnessPercent * Num 0.7)%num in
  let detected := (aiConfidence >? Num 60)%num in
  ret {| ai_detected := detected;
         confidence := Math.round aiConfidence;
         ai_description :=
           if detected
           then "High symmetry and smoothness patterns typical of GAN/diffusion models detected"
           else "No significant AI generation artifacts found" |}.

(** ** Metadata detector *)

(** File names are modelled as ASCII strings. *)
Definition lower_ascii (c : ascii) : ascii :=
  let n := nat_of_ascii c in
  if (65 <=? n)%nat && (n <=? 90)%nat then ascii_of_nat (n + 32) else c.

Fixpoint toLowerCase (s : string) : string :=
  match s with
  | EmptyString => EmptyString
  | String c s' => String (lower_ascii c) (toLowerCase s')
  end.

Definition startsWith (s p : string) : bool := String.prefix p s.

Fixpoint includes (s p : string) : bool :=
  String.prefix p s ||
  match s with
  | EmptyString => false
  | String _ s' => includes s' p
  end.

(** [flags.push(f)] *)
Definition push (flags : list string) (f : string) : list string :=
  (flags ++ [f])%list.

Definition analyzeMetadata (file : File) : Metadata :=
  let flags := [] in
  let flags :=
    if negb (String.eqb (type file) "") && negb (startsWith (type file) "image/")
    then push flags "Invalid MIME type" else flags in
  let flags :=
    if (size file <? 1000)%Z
    then push flags "Suspiciously small file size" else flags in
  let flags :=
    if (size file >? 50 * 1024 * 1024)%Z
    then push flags "Unusually large file size" else flags in
  let flags :=
    if (lastModified file =? 0)%Z
    then push flags "Missing modification timestamp" else flags in
  let fileName := toLowerCase (name file) in
  let flags :=
    if includes fileName "screenshot" || includes fileName "screen shot"
    then push flags "Screenshot detected" else flags in
  let flags :=
    if includes fileName "ai" || includes fileName "generated"
       || includes fileName "midjourney" || includes fileName "dalle"
    then push flags "AI-related filename" else flags in
  let authentic := (List.length flags =? 0)%nat in
  {| authentic := authentic;
     flags := flags;
     md_description :=
       if authentic
       then "File metadata appears legitimate"
       else "Metadata concerns: " ++ String.concat ", " flags |}.

(** ** Semantic logic detector *)

Definition floor_toString (v : option Z) : string :=
  match v with
  | Some z => string_of_Z z
  | None => "NaN"
  end.

Definition analyzeSemanticLogic (img : ImageData) : SemanticLogic :=
  let d := data img in
  let colorDiversity :=
    fold_left
      (fun (colors : set string) i =>
         let r := Math.floor (toNumber (get d i) / Num 32) in
         let g := Math.floor (toNumber (get d (i + 1)) / Num 32) in
         let b := Math.floor (toNumber (get d (i + 2)) / Num 32) in
         set_add string_dec
                 (floor_toString r ++ "-" ++ floor_toString g ++ "-"
                  ++ floor_toString b)
                 colors)
      (range 0 (Z.min 10000 (array_length d)) 40)
      (empty_set string) in
  let diversityScore :=
    Math.min (Num 100)
             (ofNat (List.length colorDiversity) / Num 250 * Num 100) in
  let logical := (diversityScore >? Num 30)%num in
  {| logical := logical;
     sl_score := Math.round diversityScore;
     sl_description :=
       if logical
       then "Color distribution and composition appear natural"
       else "Limited color diversity may indicate synthetic generation" |}.

(** ** Heat map *)

Definition generateHeatmap (img : ImageData) (pixelAnomalies aiArtifacts : number)
  : Rand (list Region) :=
  let numRegions := Math.floor ((pixelAnomalies + aiArtifacts) / Num 20) in
  let iterations :=
    match numRegions with
    | Some n => Z.to_nat (Z.min n 8)
    | None => O
    end in
  repeat_loop iterations
    (fun regions =>
       u1 <- Math_random ;;
       u2 <- Math_random ;;
       u3 <- Math_random ;;
       u4 <- Math_random ;;
       u5 <- Math_random ;;
       ret (regions ++
            [ {| x := u1 * 0.8;
                 y := u2 * 0.8;
                 rwidth := 0.1 + u3 * 0.15;
                 rheight := 0.1 + u4 * 0.15;
                 intensity := 0.3 + u5 * 0.7 |} ])%list)
    [].

(** ** The analysis result *)

Inductive ResultType : Type := real | edited | ai_generated.

Record DetectionDetails : Type := {
  pixelAnomalies : PixelAnomalies;
  lightingShadows : LightingShadows;
  aiArtifacts : AIArtifacts;
  metadata : Metadata;
  semanticLogic : SemanticLogic
}.

Record MetadataAnalysis : Type := {
  hasExif : bool;
  cameraModel : option string;
  software : option string;
  dateTime : option string;
  ma_flags : list string
}.

Record AnalysisResult : Type := {
  resultType : ResultType;
  manipulationScore : number;
  trustScore : number;
  explanation : string;
  detectionDetails : DetectionDetails;
  heatmapData : list Region;  (* heatmapData.regions *)
  metadataAnalysis : MetadataAnalysis;
  processingTimeMs : number
}.

(** ** The browser *)

Inductive Error : Type :=
| JsError (message : string)
| RangeError (message : string).

Inductive result (A : Type) : Type :=
| Ok (a : A)
| Err (e : Error).

Arguments Ok {A} a.
Arguments Err {A} e.

(** What [analyzeImage] takes from its host: the values of successive
    [Math.random()] calls, whether the canvas gives a 2D context, the
    decoded pixels of a file ([None] when the image fails to load), the two
    readings of [performance.now()], and the text of [toISOString] for a
    time value in range. *)
Record Browser : Type := {
  random : nat -> R;
  getContext : bool;
  decode : File -> option ImageData;
  startTime : R;
  endTime : R;
  isoString : Z -> string
}.

(** [new Date(t).toISOString()]: a [RangeError] outside the range of time
    values, 8.64e15 ms either side of the epoch. *)
Definition Date_toISOString (env : Browser) (t : Z) : result string :=
  if (Z.abs t <=? 8640000000000000)%Z
  then Ok (isoString env t)
  else Err (RangeError "Invalid time value").

Definition loadImageData (env : Browser) (file : File) : result ImageData :=
  if negb (getContext env)
  then Err (JsError "Could not get canvas context")
  else match decode env file with
       | Some imageData => Ok imageData
       | None => Err (JsError "Failed to load image")
       end.

(** ** Aggregation *)

(** The five detectors, in the order [Promise.all] starts them. *)
Definition runDetectors (file : File) (img : ImageData) : Rand DetectionDetails :=
  pixelAnomalies <- analyzePixelAnomalies img ;;
  let lightingShadows := analyzeLightingAndShadows img in
  aiArtifacts <- detectAIArtifacts img ;;
  let metadata := analyzeMetadata file in
  let semanticLogic := analyzeSemanticLogic img in
  ret {| pixelAnomalies := pixelAnomalies;
         lightingShadows := lightingShadows;
         aiArtifacts := aiArtifacts;
         metadata := metadata;
         semanticLogic := semanticLogic |}.

(** The rest of [analyzeImage], from [const manipulationScore] to the
    returned object. *)
Definition aggregate (details : DetectionDetails) (heatmap : list Region)
    (dateTime : string) (processingTime : number) : AnalysisResult :=
  let pixelAnomalies := pixelAnomalies details in
  let lightingShadows := lightingShadows details in
  let aiArtifacts := aiArtifacts details in
  let metadata := metadata details in
  let semanticLogic := semanticLogic details in
  let manipulationScore :=
    Math.round
      (severity pixelAnomalies * Num 0.25
       + (Num 100 - ls_score lightingShadows) * Num 0.2
       + confidence aiArtifacts * Num 0.35
       + ofNat (List.length (flags metadata)) * Num 5
       + (Num 100 - sl_score semanticLogic) * Num 0.2)%num in
  let trustScore := Math.max (Num 0) (Num 100 - manipulationScore) in
  let '(resultType, explanation) :=
    if ai_detected aiArtifacts && (confidence aiArtifacts >? Num 70)%num
    then (ai_generated,
          "This image appears to be AI-generated. "
          ++ ai_description aiArtifacts
          ++ ". The analysis detected "
          ++ (if pa_detected pixelAnomalies
              then "artificial pixel patterns" else "synthetic characteristics")
          ++ " with a manipulation score of "
          ++ number_toString manipulationScore ++ "%.")
    else if (manipulationScore >? Num 50)%num
    then (edited,
          "This image shows signs of editing. "
          ++ (if pa_detected pixelAnomalies
              then pa_description pixelAnomalies ++ ". " else "")
          ++ (if negb (consistent lightingShadows)
              then ls_description lightingShadows ++ ". " else "")
          ++ (if (0 <? List.length (flags metadata))%nat
              then md_description metadata else ""))
    else (real,
          "This image appears authentic. No significant manipulation detected. Lighting and shadows are consistent, pixel patterns are natural, and metadata checks passed.") in
  {| resultType := resultType;
     manipulationScore := Math.min (Num 100) (Math.max (Num 0) manipulationScore);
     trustScore := Math.min (Num 100) (Math.max (Num 0) trustScore);
     explanation := explanation;
     detectionDetails := details;
     heatmapData := heatmap;
     metadataAnalysis :=
       {| hasExif := true;
          cameraModel := None;
          software := None;
          dateTime := Some dateTime;
          ma_flags := flags metadata |};
     processingTimeMs := processingTime |}.

(** The part of [analyzeImage] that consumes random values: the detectors,
    then the heat map built inside the returned object. *)
Definition runPipeline (file : File) (img : ImageData)
  : Rand (DetectionDetails * list Region) :=
  details <- runDetectors file img ;;
  heatmap <- generateHeatmap img (severity (pixelAnomalies details))
                             (confidence (aiArtifacts details)) ;;
  ret (details, heatmap).

Definition analyzeImage (env : Browser) (file : File) : result AnalysisResult :=
  match loadImageData env file with
  | Err e => Err e
  | Ok imageData =>
      let '(details, heatmap) := fst (runPipeline file imageData (random env) O) in
      let processingTime := Math.round (Num (endTime env - startTime env)) in
      match Date_toISOString env (lastModified file) with
      | Err e => Err e
      | Ok dateTime => Ok (aggregate details heatmap dateTime processingTime)
      end
  end.

(** * Specifications *)

(** The definitions of this part follow the wording of the specification;
    the properties below compare them with the code above. *)

(** ** Numbers in range, runs that return *)

Definition is_num (a : number) : Prop :=
  match a with
  | Num _ => True
  | NaN => False
  end.

(** [lo <= a <= hi], which [NaN] never satisfies. *)
Definition between (lo hi : R) (a : number) : Prop :=
  match a with
  | Num v => lo <= v <= hi
  | NaN => False
  end.

(** The run of [analyzeImage] on [file] gets a canvas context, decodes the
    file to [img], and finds the modification time inside the range of
    time values: the three things the run needs in order to return. *)
Definition completes (env : Browser) (file : File) (img : ImageData) : Prop :=
  getContext env = true
  /\ decode env file = Some img
  /\ (Z.abs (lastModified file) <= 8640000000000000)%Z.

(** What [Math.random()] can return. *)
Definition random_source (rnd : nat -> R) : Prop := forall i : nat, 0 <= rnd i < 1.

(** ** Lighting: population statistics of the per-pixel brightness *)

(** The buffer as a sequence of RGBA pixels. *)
Fixpoint pixels (data : list byte) : list (byte * byte * byte * byte) :=
  match data with
  | r :: g :: b :: a :: rest => (r, g, b, a) :: pixels rest
  | _ => []
  end.

(** The unweighted mean of the three colour channels. *)
Definition pixel_brightness (p : byte * byte * byte * byte) : R :=
  let '(r, g, b, _) := p in
  (IZR (byteZ r) + IZR (byteZ g) + IZR (byteZ b)) / 3.

Definition Rsum (l : list R) : R := fold_right Rplus 0 l.

Definition population_mean (l : list R) : R := Rsum l / INR (List.length l).

Definition population_variance (l : list R) : R :=
  Rsum (map (fun v => (v - population_mean l) ^ 2) l) / INR (List.length l).

Definition spec_consistencyScore (img : ImageData) : R :=
  let brightness := map pixel_brightness (pixels (data img)) in
  Rmax 0 (100 - R_sqrt.sqrt (population_variance brightness) / 255 * 200).

(** The body of the brightness loop of [analyzeLightingAndShadows]. *)
Definition brightness_at (d : list byte) (i : Z) : number :=
  ((toNumber (get d i) + toNumber (get d (i + 1)) + toNumber (get d (i + 2)))
   / Num 3)%num.

(** ** Aggregation: the weighted score and the verdict *)

Definition weightedScore (d : DetectionDetails) : number :=
  Math.round
    (severity (pixelAnomalies d) * Num 0.25
     + (Num 100 - ls_score (lightingShadows d)) * Num 0.2
     + confidence (aiArtifacts d) * Num 0.35
     + ofNat (List.length (flags (metadata d))) * Num 5
     + (Num 100 - sl_score (semanticLogic d)) * Num 0.2)%num.

Definition clamp (a : number) : number :=
  Math.min (Num 100) (Math.max (Num 0) a).

Definition verdict (d : DetectionDetails) : ResultType :=
  if ai_detected (aiArtifacts d) && (confidence (aiArtifacts d) >? Num 70)%num
  then ai_generated
  else if (weightedScore d >? Num 50)%num then edited
  else real.

(** ** Metadata: the six rules, in order *)

Definition flag_if (condition : bool) (flag : string) : list string :=
  if condition then [flag] else [].

Definition rule_flags (file : File) : list string :=
  let fileName := toLowerCase (name file) in
  (flag_if (negb (String.eqb (type file) "")
            && negb (String.prefix "image/" (type file)))
           "Invalid MIME type"
   ++ flag_if (size file <? 1000)%Z "Suspiciously small file size"
   ++ flag_if (50 * 1024 * 1024 <? size file)%Z "Unusually large file size"
   ++ flag_if (lastModified file =? 0)%Z "Missing modification timestamp"
   ++ flag_if (includes fileName "screenshot" || includes fileName "screen shot")
              "Screenshot detected"
   ++ flag_if (includes fileName "ai" || includes fileName "generated"
               || includes fileName "midjourney" || includes fileName "dalle")
              "AI-related filename")%list.

(** ** Neighbours in the image plane *)

(** The pixels directly above, below, left and right of the pixel at
    byte offset [index] that lie inside a [w] by [h] image. *)
Definition neighbors2D (w h index : Z) : list Z :=
  let p := (index / 4)%Z in
  let px := (p mod w)%Z in
  let py := (p / w)%Z in
  ((if (0 <? py)%Z then [(index - w * 4)%Z] else [])
   ++ (if (py + 1 <? h)%Z then [(index + w * 4)%Z] else [])
   ++ (if (0 <? px)%Z then [(index - 4)%Z] else [])
   ++ (if (px + 1 <? w)%Z then [(index + 4)%Z] else []))%list.

(** The per-channel mean over those neighbours. *)
Definition neighborAverage2D (img : ImageData) (index : Z) : RGB :=
  let d := data img in
  let ns := neighbors2D (width img) (height img) index in
  let total (channel : Z) :=
    fold_right (fun i acc => (toNumber (get d (i + channel)) + acc)%num) (Num 0) ns in
  let count := ofNat (List.length ns) in
  {| r := (total 0%Z / count)%num;
     g := (total 1%Z / count)%num;
     b := (total 2%Z / count)%num |}.

(** The value [data[i + c] || 0] as a real. *)
Definition channel (d : list byte) (i c : Z) : R :=
  match get d (i + c) with
  | Some v => IZR (byteZ v)
  | None => 0
  end.

(** ** Heat map regions *)

Definition in_unit_interval (v : R) : Prop := 0 <= v <= 1.

Definition region_in_unit_intervals (reg : Region) : Prop :=
  in_unit_interval (x reg) /\ in_unit_interval (y reg)
  /\ in_unit_interval (rwidth reg) /\ in_unit_interval (rheight reg)
  /\ in_unit_interval (intensity reg).

(** The region built from five consecutive random values. *)
Definition region_of (u1 u2 u3 u4 u5 : R) : Region :=
  {| x := u1 * 0.8;
     y := u2 * 0.8;
     rwidth := 0.1 + u3 * 0.15;
     rheight := 0.1 + u4 * 0.15;
     intensity := 0.3 + u5 * 0.7 |}.

(** ** Sample inputs *)

(** Two pixels side by side, black and mid-gray (152), both opaque. *)
Definition two_tone : ImageData :=
  {| width := 2; height := 1;
     data := [x00; x00; x00; xff; x98; x98; x98; xff] |}.

(** A 2 by 2 image: black, white in the first row; gray (90), black in the
    second. *)
Definition four_pixels : ImageData :=
  {| width := 2; height := 2;
     data := [ x00; x00; x00; xff;   xff; xff; xff; xff;
               x5a; x5a; x5a; xff;   x00; x00; x00; xff ] |}.

(** A single opaque pixel. *)
Definition one_pixel : ImageData :=
  {| width := 1; height := 1; data := [x0a; x14; x1e; xff] |}.

Definition vacation_jpg : File :=
  {| name := "vacation.jpg"; type := "image/jpeg"; size := 500000;
     lastModified := 1700000000000 |}.

(** A file without a modification time. *)
Definition untimed_png : File :=
  {| name := "scan.png"; type := "image/png"; size := 2000; lastModified := 0 |}.

(** A random source stuck at one value. *)
Definition constant_source (c : R) : nat -> R := fun _ => c.

(** A browser whose random source always returns 0 and whose decoder
    yields the given image for every file. *)
Definition browser_of (img : ImageData) : Browser :=
  {| random := constant_source 0;
     getContext := true;
     decode := fun _ => Some img;
     startTime := 0;
     endTime := 12;
     isoString := fun t => string_of_Z t |}.


(** ** Images of one colour *)

(** Every pixel of the image has the colour [(cr, cg, cb)]; the alpha
    channel is free. *)
Definition uniform (img : ImageData) (cr cg cb : byte) : Prop :=
  Forall (fun p : byte * byte * byte * byte =>
            let '(r, g, b, _) := p in r = cr /\ g = cg /\ b = cb)
         (pixels (data img)).

(** Two mid-gray pixels side by side. *)
Definition gray_pair : ImageData :=
  {| width := 2; height := 1;
     data := [x80; x80; x80; xff; x80; x80; x80; xff] |}.

(** Three pixels in one row. *)
Definition three_in_a_row : ImageData :=
  {| width := 3; height := 1;
     data := [ x0a; x14; x1e; xff;   x28; x32; x3c; xff;   x46; x50; x5a; xff ] |}.

(** ** The colours sampled by the semantic detector *)

(** The key that the loop of [analyzeSemanticLogic] adds for offset [i]. *)
Definition colorKey (d : list byte) (i : Z) : string :=
  floor_toString (Math.floor (toNumber (get d i) / Num 32)) ++ "-"
  ++ floor_toString (Math.floor (toNumber (get d (i + 1)) / Num 32)) ++ "-"
  ++ floor_toString (Math.floor (toNumber (get d (i + 2)) / Num 32)).

(** The set of colour keys after the loop. *)
Definition sampledColors (d : list byte) : set string :=
  fold_left (fun colors i => set_add string_dec (colorKey d i) colors)
            (range 0 (Z.min 10000 (array_length d)) 40) (empty_set string).

(** ** What the detectors read *)

(** The colours of the pixels of a buffer, without the alpha channel. *)
Definition colours (d : list byte) : list (byte * byte * byte) :=
  map (fun p : byte * byte * byte * byte => let '(r, g, b, _) := p in (r, g, b))
      (pixels d).

(** Two mid-gray pixels, the first one fully transparent. *)
Definition gray_pair_transparent : ImageData :=
  {| width := 2; height := 1;
     data := [x80; x80; x80; x00; x80; x80; x80; xff] |}.
(** ** The calls of [Math.random()] *)

(** The heat map regions made from [n] groups of five consecutive random
    values, starting at call number [k]. *)
Definition regions_from (rnd : nat -> R) (k n : nat) : list Region :=
  map (fun j => region_of (rnd (k + 5 * j)%nat) (rnd (k + 5 * j + 1)%nat)
                          (rnd (k + 5 * j + 2)%nat) (rnd (k + 5 * j + 3)%nat)
                          (rnd (k + 5 * j + 4)%nat))
      (seq 0 n).

(** [Math.min(Math.floor((pixelAnomalies + aiArtifacts) / 20), 8)] for two
    numbers. *)
Definition regionCount (severity confidence : R) : nat :=
  Z.to_nat (Z.min (Zfloor ((severity + confidence) / 20)) 8).

(** ** Analysis of an image behind a URL *)

(** What [response.blob()] yields, as far as the analyzer uses it. *)
Record Blob : Type := {
  blob_type : string;
  blob_size : Z
}.

(** What [analyzeFromUrl] takes from its host besides the browser of
    [analyzeImage]: the outcome of [fetch(url)] followed by
    [response.blob()], an error standing for a rejected promise, and the
    reading of the clock that [new File] stores as [lastModified]. *)
Record Network : Type := {
  fetch : string -> result Blob;
  Date_now : Z
}.

(** [new File([blob], 'image.jpg', { type: blob.type })] *)
Definition fileOfBlob (net : Network) (blob : Blob) : File :=
  {| name := "image.jpg";
     type := blob_type blob;
     size := blob_size blob;
     lastModified := Date_now net |}.

Definition analyzeFromUrl (env : Browser) (net : Network) (url : string)
  : result AnalysisResult :=
  match fetch net url with
  | Err e => Err e
  | Ok blob => analyzeImage env (fileOfBlob net blob)
  end.

(** A network that serves a JPEG of 50000 bytes at every URL, at a time
    after the epoch. *)
Definition jpeg_server : Network :=
  {| fetch := fun _ => Ok {| blob_type := "image/jpeg"; blob_size := 50000 |};
     Date_now := 1700000000000 |}.

(** ** The batch dialog *)

(** [BatchFile['status']] *)
Inductive BatchStatus : Type :=
| pending | analyzing | completed | failed.

(** [BatchFile]; the fields are [id], [file], [status] and [result]. *)
Record BatchFile : Type := {
  bf_id : string;
  bf_file : File;
  bf_status : BatchStatus;
  bf_result : option (ResultType * number * number)
}.

(** The state of the [BatchAnalyzer] component. *)
Record BatchState : Type := {
  files : list BatchFile;
  isAnalyzing : bool
}.

(** An entry that no analysis has written to. *)
Definition untouched (f : BatchFile) : Prop :=
  bf_status f = pending /\ bf_result f = None.

Definition initialBatchState : BatchState :=
  {| files := []; isAnalyzing := false |}.

Section BatchAnalyzer.

(** [x.toString(36).substr(2, 9)] *)
Variable toString36 : R -> string.

(** [Array.from(newFiles).map(file => ({ id: ..., file, status: 'pending' }))] *)
Fixpoint batchFiles (newFiles : list File) : Rand (list BatchFile) :=
  match newFiles with
  | [] => ret []
  | file :: rest =>
      u <- Math_random ;;
      tail <- batchFiles rest ;;
      ret ({| bf_id := toString36 u; bf_file := file; bf_status := pending;
              bf_result := None |} :: tail)
  end.

Definition handleFilesAdd (newFiles : option (list File)) (st : BatchState)
  : Rand BatchState :=
  match newFiles with
  | None => ret st
  | Some newFiles =>
      added <- batchFiles newFiles ;;
      ret {| files := (files st ++ added)%list; isAnalyzing := isAnalyzing st |}
  end.

Definition removeFile (id : string) (st : BatchState) : BatchState :=
  {| files := filter (fun f => negb (String.eqb (bf_id f) id)) (files st);
     isAnalyzing := isAnalyzing st |}.

(** The [Clear All] button. *)
Definition clearAll (st : BatchState) : BatchState :=
  {| files := []; isAnalyzing := isAnalyzing st |}.

(** [handleAnalyze] up to the call of [onBatchAnalyze]: the files handed
    over, if any, and the state while the analysis runs. *)
Definition handleAnalyze (st : BatchState) : option (list File) * BatchState :=
  if (List.length (files st) =? 0)%nat
  then (None, st)
  else (Some (map bf_file (files st)),
        {| files := files st; isAnalyzing := true |}).

(** The [finally] block of [handleAnalyze]. *)
Definition handleAnalyzeDone (st : BatchState) : BatchState :=
  {| files := files st; isAnalyzing := false |}.

(** What a user of the dialog can make happen. *)
Inductive BatchEvent : Type :=
| FilesAdded (newFiles : option (list File))
| FileRemoved (id : string)
| AllCleared
| AnalyzeClicked
| AnalyzeDone.

Definition batchStep (e : BatchEvent) (st : BatchState) : Rand BatchState :=
  match e with
  | FilesAdded newFiles => handleFilesAdd newFiles st
  | FileRemoved id => ret (removeFile id st)
  | AllCleared => ret (clearAll st)
  | AnalyzeClicked => ret (snd (handleAnalyze st))
  | AnalyzeDone => ret (handleAnalyzeDone st)
  end.

Fixpoint batchRun (events : list BatchEvent) (st : BatchState) : Rand BatchState :=
  match events with
  | [] => ret st
  | e :: rest => st' <- batchStep e st ;; batchRun rest st'
  end.

End BatchAnalyzer.

(** ** Further sample inputs *)

(** A file whose name has the letters "ai" in it. *)
Definition mountain_jpg : File :=
  {| name := "Mountain.JPG"; type := "image/jpeg"; size := 500000;
     lastModified := 1700000000000 |}.

(** A row of 2501 pixels: 2500 mid-gray ones, then one of gray level [c]. *)
Definition strip_ending (c : byte) : ImageData :=
  {| width := 2501; height := 1;
     data := (repeat x80 (Z.to_nat 10000) ++ [c; c; c; xff])%list |}.

(** * Properties *)

(** ** Numbers *)

Lemma between_is_num lo hi a : between lo hi a -> is_num a.
Proof. destruct a; simpl; tauto. Qed.

Lemma ndiv_Num (u v : R) : v <> 0 -> (Num u / Num v)%num = Num (u / v).
Proof.
  intros Hv. unfold ndiv. destruct (Req_dec_T v 0) as [E | _]; [contradiction | reflexivity].
Qed.

Lemma ndiv_zero (u : R) : (Num u / Num 0)%num = NaN.
Proof.
  unfold ndiv. destruct (Req_dec_T 0 0) as [_ | N]; [reflexivity | now elim N].
Qed.

Lemma ndiv_is_num (a : number) (n : nat) :
  is_num a -> (0 < n)%nat -> is_num (a / ofNat n)%num.
Proof.
  destruct a as [| u]; [easy |]. intros _ Hn.
  unfold ofNat, ofZ. rewrite <- INR_IZR_INZ.
  rewrite ndiv_Num; [exact I |]. apply not_0_INR. lia.
Qed.

Lemma ngt_Num (u v : R) : (Num u >? Num v)%num = true <-> v < u.
Proof.
  unfold ngt. destruct (Rlt_dec v u); split; intros; try easy.
Qed.

Lemma ngt_Num_false (u v : R) : (Num u >? Num v)%num = false <-> u <= v.
Proof.
  unfold ngt. destruct (Rlt_dec v u); split; intros; try easy; lra.
Qed.

Lemma ngt_NaN_l a : (NaN >? a)%num = false.
Proof. reflexivity. Qed.

Lemma ngt_NaN_r a : (a >? NaN)%num = false.
Proof. destruct a; reflexivity. Qed.

Lemma round_R_eq (u : R) (z : Z) :
  IZR z - / 2 <= u < IZR z + / 2 -> Math.round_R u = z.
Proof.
  intros H. unfold Math.round_R. apply Zfloor_eq. lra.
Qed.

Lemma round_R_between (lo hi : Z) (u : R) :
  IZR lo <= u <= IZR hi -> (lo <= Math.round_R u <= hi)%Z.
Proof.
  intros [Hlo Hhi]. unfold Math.round_R.
  pose proof (Zfloor_bound (u + / 2)) as [B1 B2].
  split.
  - apply Zfloor_lub. lra.
  - apply Z.lt_succ_r. apply lt_IZR. rewrite succ_IZR. lra.
Qed.

Lemma round_between (lo hi : Z) (a : number) :
  between (IZR lo) (IZR hi) a -> between (IZR lo) (IZR hi) (Math.round a).
Proof.
  destruct a as [| u]; simpl; [tauto |].
  intros H. apply (round_R_between lo hi) in H.
  destruct H as [H1 H2]. split; apply IZR_le; assumption.
Qed.

(** Case analysis on every [Rmax] and [Rmin] of the goal, innermost first. *)
Ltac no_minmax t :=
  lazymatch t with
  | context [Rmax _ _] => fail
  | context [Rmin _ _] => fail
  | _ => idtac
  end.

Ltac case_minmax :=
  repeat match goal with
         | |- context [Rmax ?p ?q] =>
             no_minmax p; no_minmax q;
             let M := fresh "M" in
             let E := fresh "E" in
             remember (Rmax p q) as M eqn:E;
             assert (p <= M /\ q <= M /\ (M = p \/ M = q))
               by (subst M; unfold Rmax; destruct (Rle_dec p q); lra);
             clear E
         | |- context [Rmin ?p ?q] =>
             no_minmax p; no_minmax q;
             let M := fresh "M" in
             let E := fresh "E" in
             remember (Rmin p q) as M eqn:E;
             assert (M <= p /\ M <= q /\ (M = p \/ M = q))
               by (subst M; unfold Rmin; destruct (Rle_dec p q); lra);
             clear E
         end.

Lemma clamp_between (a : number) :
  is_num a -> between 0 100 (Math.min (Num 100) (Math.max (Num 0) a)).
Proof.
  destruct a as [| u]; simpl; [tauto |]. intros _.
  case_minmax. lra.
Qed.

Lemma clamp_complement (a : number) :
  is_num a ->
  (clamp a + clamp (Math.max (Num 0) (Num 100 - a)))%num = Num 100.
Proof.
  destruct a as [| u]; simpl; [tauto |]. intros _. f_equal.
  case_minmax. lra.
Qed.

(** The trust score is computed from the score before clamping; computed
    from the clamped score it would be the same. *)
Lemma trust_of_clamped (a : number) :
  clamp (Math.max (Num 0) (Num 100 - a))
  = clamp (Math.max (Num 0) (Num 100 - clamp a)).
Proof.
  destruct a as [| u]; [reflexivity |].
  unfold clamp. cbn [Math.min Math.max nsub lift2]. f_equal.
  case_minmax.
  repeat match goal with
         | H : _ /\ _ |- _ => destruct H
         | H : _ \/ _ |- _ => destruct H
         end; lra.
Qed.

(** ** Loops over the random source *)

Lemma repeat_loop_invariant {A} (P : nat -> A -> Prop) (body : A -> Rand A)
    (rnd : nat -> R) :
  (forall i a k, P i a -> P (S i) (fst (body a rnd k))) ->
  forall n i a k, P i a -> P (i + n)%nat (fst (repeat_loop n body a rnd k)).
Proof.
  intros Hstep n. induction n as [| n IH]; intros i a k Ha; simpl.
  - now rewrite Nat.add_0_r.
  - unfold bind. specialize (Hstep i a k Ha).
    destruct (body a rnd k) as [a' k']. simpl in Hstep.
    rewrite <- Nat.add_succ_comm. now apply IH.
Qed.

(** A loop whose body adds at most one to a counter ends at most [n]
    above where it started. *)
Lemma repeat_loop_counter (body : nat -> Rand nat) (rnd : nat -> R) :
  (forall c k, (fst (body c rnd k) <= S c)%nat) ->
  forall n k, (fst (repeat_loop n body O rnd k) <= n)%nat.
Proof.
  intros Hbody n k.
  apply (repeat_loop_invariant (fun i c => (c <= i)%nat) body rnd) with (i := O);
    [| lia].
  intros i a k0 Hi. specialize (Hbody a k0). lia.
Qed.

(** ** Ranges of the sampled detectors *)

Lemma percent_between (c n : nat) :
  (c <= n)%nat -> (0 < n)%nat ->
  (ofNat c / ofNat n * Num 100)%num = Num (INR c / INR n * 100)
  /\ 0 <= INR c / INR n * 100 <= 100.
Proof.
  intros Hc Hn. unfold ofNat, ofZ. rewrite <- !INR_IZR_INZ.
  assert (0 < INR n) by (apply lt_0_INR; lia).
  assert (0 <= INR c) by apply pos_INR.
  assert (INR c <= INR n) by (apply le_INR; lia).
  rewrite ndiv_Num by lra. split; [reflexivity |].
  assert (Hinv : 0 < / INR n) by (apply Rinv_0_lt_compat; lra).
  assert (Hone : INR n * / INR n = 1) by (apply Rinv_r; lra).
  unfold Rdiv. split; nra.
Qed.

Lemma anomalyCount_le (img : ImageData) (rnd : nat -> R) (k : nat) :
  (fst (repeat_loop sampleSize
          (fun anomalyCount =>
             randomIndex <- randomPixelIndex (data img) ;;
             let diff := neighborDiff img randomIndex in
             ret (if (diff >? Num 100)%num then S anomalyCount else anomalyCount))
          O rnd k) <= sampleSize)%nat.
Proof.
  apply repeat_loop_counter. intros c k0.
  unfold bind, randomPixelIndex, Math_random, ret; simpl.
  match goal with |- context [if ?c then _ else _] => destruct c end;
    simpl; lia.
Qed.

Lemma severity_between (img : ImageData) (rnd : nat -> R) (k : nat) :
  between 0 100 (severity (fst (analyzePixelAnomalies img rnd k))).
Proof.
  unfold analyzePixelAnomalies.
  pose proof (anomalyCount_le img rnd k) as Hc.
  unfold bind at 1.
  destruct (repeat_loop sampleSize _ O rnd k) as [c k'].
  cbn [fst] in Hc. unfold ret. cbn [fst severity].
  destruct (@percent_between c sampleSize Hc) as [E B];
    [unfold sampleSize; lia |].
  rewrite E. apply (round_between 0 100). exact B.
Qed.

Lemma confidence_between (img : ImageData) (rnd : nat -> R) (k : nat) :
  between 0 100 (confidence (fst (detectAIArtifacts img rnd k))).
Proof.
  unfold detectAIArtifacts.
  unfold bind at 1.
  match goal with
  | |- context [repeat_loop sampleRows ?body O rnd k] =>
      pose proof (@repeat_loop_counter body rnd) as Hsym;
      destruct (repeat_loop sampleRows body O rnd k) as [sym k1] eqn:Esym
  end.
  assert (Hs : (sym <= sampleRows)%nat).
  { change sym with (fst (sym, k1)). rewrite <- Esym. apply Hsym.
    intros c k0. unfold bind, Math_random, ret; simpl.
    match goal with |- context [if ?c then _ else _] => destruct c end;
      simpl; lia. }
  clear Hsym Esym.
  unfold bind at 1.
  match goal with
  | |- context [repeat_loop 1000 ?body O rnd k1] =>
      pose proof (@repeat_loop_counter body rnd) as Hsm;
      destruct (repeat_loop 1000 body O rnd k1) as [sm k2] eqn:Esm
  end.
  assert (Hm : (sm <= 1000)%nat).
  { change sm with (fst (sm, k2)). rewrite <- Esm. apply Hsm.
    intros c k0. unfold bind, randomPixelIndex, Math_random, ret; simpl.
    match goal with |- context [if ?c then _ else _] => destruct c end;
      simpl; lia. }
  clear Hsm Esm.
  unfold ret. cbn [fst confidence].
  destruct (@percent_between sym sampleRows Hs) as [E1 B1];
    [unfold sampleRows; lia |].
  change (Num 1000) with (ofNat 1000).
  destruct (@percent_between sm 1000 Hm) as [E2 B2]; [lia |].
  rewrite E1, E2. clear E1 E2.
  generalize dependent (INR sym / INR sampleRows * 100).
  generalize dependent (INR sm / INR 1000 * 100).
  intros u Bu v Bv. apply (round_between 0 100). cbn. lra.
Qed.

(** The offsets drawn by [randomPixelIndex] are pixel offsets inside the
    buffer. *)
Lemma sampled_index_in_buffer (d : list byte) (n : nat) (u : R) :
  List.length d = (4 * n)%nat -> (0 < n)%nat -> 0 <= u < 1 ->
  let index := (Zfloor (u * (IZR (array_length d) / 4)) * 4)%Z in
  (0 <= index)%Z /\ (index + 4 <= array_length d)%Z /\ (index mod 4 = 0)%Z.
Proof.
  intros Hlen Hn Hu index. unfold index, array_length. rewrite Hlen.
  replace (IZR (Z.of_nat (4 * n)) / 4) with (IZR (Z.of_nat n)).
  2:{ rewrite Nat2Z.inj_mul, mult_IZR. simpl (Z.of_nat 4). field. }
  assert (HnR : 1 <= IZR (Z.of_nat n)) by (apply IZR_le; lia).
  set (q := Zfloor (u * IZR (Z.of_nat n))).
  assert (Hq0 : (0 <= q)%Z) by (apply Zfloor_lub; simpl; nra).
  assert (Hq1 : (q < Z.of_nat n)%Z).
  { apply lt_IZR. pose proof (Zfloor_bound (u * IZR (Z.of_nat n))) as [B _].
    fold q in B. nra. }
  repeat split; try lia. apply Z_mod_mult.
Qed.

(** ** The lighting detector computes the population statistics *)

Lemma range_0_4 (n : nat) :
  range 0 (4 * Z.of_nat n) 4 = map (fun k => (4 * Z.of_nat k)%Z) (seq 0 n).
Proof.
  unfold range.
  replace ((4 * Z.of_nat n - 0 + 4 - 1) / 4)%Z with (Z.of_nat n).
  - rewrite Nat2Z.id. apply map_ext. intros k. lia.
  - apply Z.div_unique with (r := 3%Z); lia.
Qed.

Lemma get_skip4 (a0 a1 a2 a3 : byte) (rest : list byte) (i : Z) :
  (0 <= i)%Z -> get (a0 :: a1 :: a2 :: a3 :: rest) (i + 4) = get rest i.
Proof.
  intros Hi. unfold get.
  destruct (Z.ltb_spec (i + 4) 0); [lia |].
  destruct (Z.ltb_spec i 0); [lia |].
  replace (Z.to_nat (i + 4)) with (S (S (S (S (Z.to_nat i))))) by lia.
  reflexivity.
Qed.

Lemma brightness_pixels (n : nat) :
  forall d : list byte,
    List.length d = (4 * n)%nat ->
    map (brightness_at d) (map (fun k => (4 * Z.of_nat k)%Z) (seq 0 n))
    = map (fun p => Num (pixel_brightness p)) (pixels d).
Proof.
  induction n as [| n IH]; intros d Hlen.
  - destruct d; [reflexivity | discriminate].
  - destruct d as [| a0 [| a1 [| a2 [| a3 rest]]]]; simpl in Hlen; try lia.
    cbn [seq map pixels]. rewrite <- seq_shift.
    f_equal.
    + unfold brightness_at, pixel_brightness.
      change (4 * Z.of_nat 0)%Z with 0%Z.
      change (get (a0 :: a1 :: a2 :: a3 :: rest) 0) with (Some a0).
      change (get (a0 :: a1 :: a2 :: a3 :: rest) (0 + 1)) with (Some a1).
      change (get (a0 :: a1 :: a2 :: a3 :: rest) (0 + 2)) with (Some a2).
      unfold toNumber, ofZ, nadd, lift2.
      rewrite ndiv_Num by lra. reflexivity.
    + rewrite <- (IH rest) by lia.
      rewrite !map_map. apply map_ext. intros k.
      unfold brightness_at.
      replace (4 * Z.of_nat (S k))%Z with (4 * Z.of_nat k + 4)%Z by lia.
      replace (4 * Z.of_nat k + 4 + 1)%Z with (4 * Z.of_nat k + 1 + 4)%Z by lia.
      replace (4 * Z.of_nat k + 4 + 2)%Z with (4 * Z.of_nat k + 2 + 4)%Z by lia.
      rewrite !get_skip4 by lia. reflexivity.
Qed.

Lemma fold_left_squares_Num (m : R) (l : list R) (a : R) :
  fold_left (fun sum val => (sum + Math.pow (val - Num m) 2)%num) (map Num l) (Num a)
  = Num (a + Rsum (map (fun v => (v - m) ^ 2) l)).
Proof.
  revert a. induction l as [| v l IH]; intros a; cbn [map fold_left Rsum fold_right].
  - f_equal. lra.
  - cbn [nsub nadd lift2 lift1 Math.pow]. rewrite IH. f_equal.
    unfold Rsum. lra.
Qed.

Lemma fold_left_sum_Num (l : list R) (a : R) :
  fold_left (fun u v => (u + v)%num) (map Num l) (Num a) = Num (a + Rsum l).
Proof.
  revert a. induction l as [| v l IH]; intros a; simpl.
  - f_equal. lra.
  - rewrite IH. f_equal. lra.
Qed.

Lemma Rsum_nonneg (l : list R) : Forall (fun v => 0 <= v) l -> 0 <= Rsum l.
Proof.
  induction 1 as [| v l Hv _ IH]; simpl; lra.
Qed.

Lemma population_variance_nonneg (l : list R) :
  l <> [] -> 0 <= population_variance l.
Proof.
  intros Hl. unfold population_variance.
  assert (Hn : 0 < INR (List.length l)).
  { apply lt_0_INR. destruct l; [contradiction | simpl; lia]. }
  assert (Hs : 0 <= Rsum (map (fun v => (v - population_mean l) ^ 2) l)).
  { apply Rsum_nonneg. apply Forall_forall. intros u Hu.
    apply in_map_iff in Hu. destruct Hu as [v [<- _]]. apply pow2_ge_0. }
  apply Rinv_0_lt_compat in Hn. unfold Rdiv. nra.
Qed.

Lemma pixels_length (n : nat) :
  forall d : list byte, List.length d = (4 * n)%nat -> List.length (pixels d) = n.
Proof.
  induction n as [| n IH]; intros d Hlen.
  - destruct d; [reflexivity | discriminate].
  - destruct d as [| a0 [| a1 [| a2 [| a3 rest]]]]; simpl in Hlen; try lia.
    simpl. f_equal. apply IH. lia.
Qed.

Section WellFormedImage.

Variable img : ImageData.
Hypothesis Hwf : well_formed img.

(** The pixel count of a well-formed image. *)
Lemma well_formed_length :
  exists n : nat, (0 < n)%nat /\ List.length (data img) = (4 * n)%nat
                  /\ Z.of_nat n = (width img * height img)%Z.
Proof.
  destruct Hwf as (Hw & Hh & Hlen). unfold array_length in Hlen.
  exists (Z.to_nat (width img * height img)).
  assert (0 < width img * height img)%Z by lia.
  repeat split; lia.
Qed.

(** The lighting detector returns the specified score, rounded, and
    compares the score itself with 40. *)
Lemma analyzeLightingAndShadows_spec :
  let cs := spec_consistencyScore img in
  consistent (analyzeLightingAndShadows img) = (if Rlt_dec 40 cs then true else false)
  /\ ls_score (analyzeLightingAndShadows img) = ofZ (Math.round_R cs)
  /\ 0 <= cs <= 100.
Proof.
  intros cs.
  destruct well_formed_length as (n & Hn & Hlen & _).
  assert (Hcs : 0 <= cs <= 100).
  { unfold cs, spec_consistencyScore.
    set (v := population_variance _).
    pose proof (sqrt_pos v). unfold Rmax.
    destruct (Rle_dec 0 _); lra. }
  unfold analyzeLightingAndShadows.
  change (fun i : Z => ((toNumber (get (data img) i)
                         + toNumber (get (data img) (i + 1))
                         + toNumber (get (data img) (i + 2))) / Num 3)%num)
    with (brightness_at (data img)).
  unfold array_length. rewrite Hlen.
  replace (Z.of_nat (4 * n)) with (4 * Z.of_nat n)%Z by lia.
  rewrite range_0_4, (@brightness_pixels n _ Hlen), <- map_map.
  set (bs := map pixel_brightness (pixels (data img))).
  assert (Hbs : List.length bs = n).
  { unfold bs. rewrite length_map. now apply (@pixels_length n). }
  assert (Hne : bs <> []) by (destruct bs; [simpl in Hbs; lia | discriminate]).
  rewrite length_map, Hbs.
  assert (HnR : INR n <> 0) by (apply not_0_INR; lia).
  (* the mean *)
  rewrite fold_left_sum_Num, Rplus_0_l.
  unfold ofNat, ofZ. rewrite <- INR_IZR_INZ.
  rewrite ndiv_Num by exact HnR.
  replace (Rsum bs / INR n) with (population_mean bs)
    by (unfold population_mean; now rewrite Hbs).
  (* the variance *)
  replace (fold_left
             (fun sum val => (sum + Math.pow (val - Num (population_mean bs)) 2)%num)
             (map Num bs) (Num 0))
    with (Num (Rsum (map (fun v => (v - population_mean bs) ^ 2) bs))).
  2:{ rewrite fold_left_squares_Num. f_equal. lra. }
  rewrite ndiv_Num by exact HnR.
  replace (Rsum (map (fun v => (v - population_mean bs) ^ 2) bs) / INR n)
    with (population_variance bs)
    by (unfold population_variance; now rewrite Hbs).
  pose proof (population_variance_nonneg Hne) as Hv.
  unfold Math.sqrt.
  destruct (Rlt_dec (population_variance bs) 0) as [Hneg | _]; [lra |].
  rewrite ndiv_Num by lra.
  cbn [nmul nsub lift2 Math.max consistent ls_score Math.round ngt].
  fold cs in Hcs |- *.
  change (Rmax 0 (100 - R_sqrt.sqrt (population_variance bs) / 255 * 200)) with cs.
  repeat split; try reflexivity; lra.
Qed.

End WellFormedImage.

(** Without pixels the brightness sequence is empty, its sum 0 is divided
    by a length of 0, and the lighting score is [NaN]: the results above
    need the image to be well-formed. *)
Lemma empty_buffer_lighting :
  ls_score (analyzeLightingAndShadows {| width := 0; height := 0; data := [] |})
  = NaN.
Proof.
  unfold analyzeLightingAndShadows.
  replace (range 0 (array_length (data {| width := 0; height := 0; data := [] |})) 4)
    with (@nil Z) by (vm_compute; reflexivity).
  cbn [map fold_left List.length].
  change (ofNat 0) with (Num 0).
  rewrite ndiv_zero. reflexivity.
Qed.




(** ** Range of the colour diversity score *)

Lemma sl_score_between (img : ImageData) :
  between 0 100 (sl_score (analyzeSemanticLogic img)).
Proof.
  unfold analyzeSemanticLogic. cbn [sl_score].
  set (colors := fold_left _ _ _).
  unfold ofNat, ofZ. rewrite <- INR_IZR_INZ.
  pose proof (pos_INR (List.length colors)) as Hpos.
  rewrite ndiv_Num by lra.
  cbn [nmul lift2 Math.min].
  apply (round_between 0 100). cbn [between].
  unfold Rmin. destruct (Rle_dec 100 _); lra.
Qed.

(** ** Metadata *)

Lemma prefix_app (p s : string) :
  String.prefix p s = true <-> exists post, s = p ++ post.
Proof.
  revert s. induction p as [| c p IH]; intros s.
  - split; [intros _; now exists s | intros _; now destruct s].
  - destruct s as [| c' s]; simpl.
    + split; [discriminate | intros [post H]; discriminate].
    + destruct (Ascii.ascii_dec c c') as [-> | Hc].
      * rewrite IH. split; intros [post H]; exists post.
        -- now rewrite H.
        -- now injection H.
      * split; [discriminate |].
        intros [post H]. injection H as H1 _. congruence.
Qed.

(** [includes] finds exactly the strings that contain the pattern. *)
Lemma includes_spec (s p : string) :
  includes s p = true <-> exists pre post, s = pre ++ p ++ post.
Proof.
  induction s as [| c s IH].
  - cbn [includes]. rewrite orb_false_r, prefix_app. split.
    + intros [post H]. now exists "", post.
    + intros [pre [post H]].
      destruct pre; [now exists post | discriminate].
  - cbn [includes]. rewrite orb_true_iff, prefix_app, IH. split.
    + intros [[post H] | [pre [post H]]].
      * now exists "", post.
      * exists (String c pre), post. simpl. now rewrite H.
    + intros [pre [post H]]. destruct pre as [| c' pre].
      * left. now exists post.
      * right. simpl in H. injection H as _ H. now exists pre, post.
Qed.

Lemma analyzeMetadata_flags (file : File) :
  flags (analyzeMetadata file) = rule_flags file.
Proof.
  unfold analyzeMetadata, rule_flags, startsWith, flag_if, push.
  cbn [flags]. rewrite Z.gtb_ltb.
  destruct (negb (String.eqb (type file) "") && _);
    destruct (size file <? 1000)%Z;
    destruct (50 * 1024 * 1024 <? size file)%Z;
    destruct (lastModified file =? 0)%Z;
    destruct (_ || includes _ "screen shot");
    destruct (_ || includes _ "dalle");
    reflexivity.
Qed.

Lemma analyzeMetadata_authentic (file : File) :
  authentic (analyzeMetadata file) = true <-> flags (analyzeMetadata file) = [].
Proof.
  unfold analyzeMetadata. cbn [authentic flags].
  rewrite Nat.eqb_eq. apply length_zero_iff_nil.
Qed.

Lemma missing_timestamp_flagged (file : File) :
  lastModified file = 0%Z ->
  In "Missing modification timestamp" (flags (analyzeMetadata file)).
Proof.
  intros H0. rewrite analyzeMetadata_flags. unfold rule_flags.
  rewrite H0. cbn [Z.eqb flag_if].
  do 3 (apply in_or_app; right). apply in_or_app; left. now left.
Qed.

(** ** Neighbour averages on the sample images *)

Lemma RGB_eq (r1 g1 b1 r2 g2 b2 : R) :
  r1 = r2 -> g1 = g2 -> b1 = b2 ->
  {| r := Num r1; g := Num g1; b := Num b1 |}
  = {| r := Num r2; g := Num g2; b := Num b2 |}.
Proof. now intros -> -> ->. Qed.

(** Evaluation of array reads and byte values on concrete buffers. *)
Ltac eval_reads :=
  repeat match goal with
         | |- context [get ?d ?i] =>
             let v := eval vm_compute in (get d i) in
             change (get d i) with v
         end;
  cbn [orZero toNumber];
  repeat match goal with
         | |- context [byteZ ?c] =>
             let v := eval vm_compute in (byteZ c) in
             change (byteZ c) with v
         end;
  repeat match goal with
         | |- context [ofNat ?n] =>
             let v := eval vm_compute in (Z.of_nat n) in
             change (ofNat n) with (Num (IZR v))
         end;
  unfold ofZ.

Lemma four_pixels_well_formed : well_formed four_pixels.
Proof. unfold well_formed. cbn. lia. Qed.

Lemma one_pixel_well_formed : well_formed one_pixel.
Proof. unfold well_formed. cbn. lia. Qed.

Lemma getNeighborAverage_four_pixels_8 :
  getNeighborAverage (data four_pixels) 8 (width four_pixels)
  = {| r := Num 85; g := Num 85; b := Num 85 |}.
Proof.
  unfold getNeighborAverage.
  replace (filter _ _) with [0%Z; 4%Z; 12%Z] by (vm_compute; reflexivity).
  cbn [fold_left r g b data four_pixels List.length].
  eval_reads. cbn [nadd lift2].
  rewrite !ndiv_Num by lra.
  apply RGB_eq; lra.
Qed.

Lemma getNeighborAverage_four_pixels_4 :
  getNeighborAverage (data four_pixels) 4 (width four_pixels)
  = {| r := Num 30; g := Num 30; b := Num 30 |}.
Proof.
  unfold getNeighborAverage.
  replace (filter _ _) with [12%Z; 0%Z; 8%Z] by (vm_compute; reflexivity).
  cbn [fold_left r g b data four_pixels List.length].
  eval_reads. cbn [nadd lift2].
  rewrite !ndiv_Num by lra.
  apply RGB_eq; lra.
Qed.

Lemma neighborAverage2D_four_pixels (index : Z) :
  index = 8%Z \/ index = 4%Z ->
  neighborAverage2D four_pixels index = {| r := Num 0; g := Num 0; b := Num 0 |}.
Proof.
  intros [-> | ->]; unfold neighborAverage2D.
  - replace (neighbors2D _ _ _) with [0%Z; 12%Z] by (vm_compute; reflexivity).
    cbn [fold_right data four_pixels List.length Z.add Pos.add].
    eval_reads. cbn [nadd lift2].
    rewrite !ndiv_Num by lra.
    apply RGB_eq; lra.
  - replace (neighbors2D _ _ _) with [12%Z; 0%Z] by (vm_compute; reflexivity).
    cbn [fold_right data four_pixels List.length Z.add Pos.add].
    eval_reads. cbn [nadd lift2].
    rewrite !ndiv_Num by lra.
    apply RGB_eq; lra.
Qed.

(** The gray pixel of [four_pixels] differs from the average the code
    computes for it by 5 in each channel. *)
Lemma neighborDiff_four_pixels_8 : neighborDiff four_pixels 8 = Num 15.
Proof.
  unfold neighborDiff. rewrite getNeighborAverage_four_pixels_8.
  cbn [r g b data four_pixels]. eval_reads.
  cbn [nsub nadd lift2 lift1 Math.abs]. f_equal.
  replace (90 - 85) with 5 by lra.
  rewrite Rabs_pos_eq by lra. lra.
Qed.

(** ** Divisors of the neighbour average *)

Lemma neighbors_nonempty (d : list byte) (index w : Z) :
  (8 <= array_length d)%Z ->
  (0 <= index)%Z -> (index + 4 <= array_length d)%Z ->
  filter (fun i => (0 <=? i)%Z && (i <? array_length d)%Z)
         [ (index - w * 4)%Z; (index + w * 4)%Z; (index - 4)%Z; (index + 4)%Z ]
  <> [].
Proof.
  intros Hlen H0 H4 Hnil.
  assert (Hin : forall i,
             In i [ (index - w * 4)%Z; (index + w * 4)%Z; (index - 4)%Z; (index + 4)%Z ] ->
             (0 <=? i)%Z && (i <? array_length d)%Z = true -> False).
  { intros i Hi Hb.
    assert (In i (filter (fun i => (0 <=? i)%Z && (i <? array_length d)%Z)
                         [ (index - w * 4)%Z; (index + w * 4)%Z; (index - 4)%Z;
                           (index + 4)%Z ]))
      by (apply filter_In; split; assumption).
    rewrite Hnil in H. contradiction. }
  destruct (Z.lt_ge_cases (index + 4) (array_length d)) as [Hlt | Hge].
  - apply (Hin (index + 4)%Z); [simpl; tauto |].
    apply andb_true_iff. split; [apply Z.leb_le | apply Z.ltb_lt]; lia.
  - apply (Hin (index - 4)%Z); [simpl; tauto |].
    apply andb_true_iff. split; [apply Z.leb_le | apply Z.ltb_lt]; lia.
Qed.

Lemma neighbor_sum_is_num (d : list byte) (ns : list Z) :
  forall acc : RGB,
    is_num (r acc) /\ is_num (g acc) /\ is_num (b acc) ->
    let sum :=
      fold_left
        (fun (acc : RGB) i =>
           {| r := (r acc + orZero (get d i))%num;
              g := (g acc + orZero (get d (i + 1)))%num;
              b := (b acc + orZero (get d (i + 2)))%num |})
        ns acc in
    is_num (r sum) /\ is_num (g sum) /\ is_num (b sum).
Proof.
  induction ns as [| i ns IH]; intros acc Hacc; cbn [fold_left].
  - exact Hacc.
  - apply IH. cbn [r g b].
    destruct acc as [[| ar] [| ag] [| ab]]; cbn in Hacc; try tauto.
    cbn [r g b]. unfold orZero.
    destruct (get d i), (get d (i + 1)), (get d (i + 2)); cbn; tauto.
Qed.

Lemma getNeighborAverage_is_num (d : list byte) (index w : Z) :
  (8 <= array_length d)%Z ->
  (0 <= index)%Z -> (index + 4 <= array_length d)%Z ->
  let avg := getNeighborAverage d index w in
  is_num (r avg) /\ is_num (g avg) /\ is_num (b avg).
Proof.
  intros Hlen H0 H4. unfold getNeighborAverage.
  pose proof (@neighbors_nonempty d index w Hlen H0 H4) as Hne.
  set (ns := filter _ _) in *.
  assert (Hn : (0 < List.length ns)%nat)
    by (destruct ns; [contradiction | simpl; lia]).
  destruct (@neighbor_sum_is_num d ns {| r := Num 0; g := Num 0; b := Num 0 |})
    as (Hr & Hg & Hb); [cbn; tauto |].
  cbn [r g b]. repeat split; apply ndiv_is_num; assumption.
Qed.

(** ** Away from the row ends the neighbour average is the planar one *)

Lemma filter4 {A} (f : A -> bool) (a1 a2 a3 a4 : A) :
  filter f [a1; a2; a3; a4]
  = ((if f a1 then [a1] else []) ++ (if f a2 then [a2] else [])
     ++ (if f a3 then [a3] else []) ++ (if f a4 then [a4] else []))%list.
Proof. simpl. destruct (f a1), (f a2), (f a3), (f a4); reflexivity. Qed.

Ltac compare_cases :=
  repeat match goal with
         | |- context [(?u <=? ?v)%Z] => destruct (Z.leb_spec u v)
         | |- context [(?u <? ?v)%Z] => destruct (Z.ltb_spec u v)
         end;
  cbn [andb]; try reflexivity; exfalso; nia.

Lemma neighbors_inside_row (w h p : Z) :
  (0 < w)%Z -> (0 < h)%Z -> (0 <= p < w * h)%Z ->
  (0 < p mod w)%Z -> (p mod w + 1 < w)%Z ->
  filter (fun i => (0 <=? i)%Z && (i <? 4 * (w * h))%Z)
         [ (4 * p - w * 4)%Z; (4 * p + w * 4)%Z; (4 * p - 4)%Z; (4 * p + 4)%Z ]
  = neighbors2D w h (4 * p).
Proof.
  intros Hw Hh Hp Hl Hr. rewrite filter4. unfold neighbors2D.
  replace (4 * p / 4)%Z with p
    by (rewrite Z.mul_comm, Z.div_mul; [reflexivity | lia]).
  pose proof (Z.div_mod p w ltac:(lia)) as Hdm.
  pose proof (Z.mod_pos_bound p w Hw) as Hmod.
  set (px := (p mod w)%Z) in *. set (py := (p / w)%Z) in *.
  assert (Hpy : (0 <= py < h)%Z) by nia.
  assert (E1 : ((0 <=? 4 * p - w * 4) && (4 * p - w * 4 <? 4 * (w * h)))%Z
               = (0 <? py)%Z) by compare_cases.
  assert (E2 : ((0 <=? 4 * p + w * 4) && (4 * p + w * 4 <? 4 * (w * h)))%Z
               = (py + 1 <? h)%Z) by compare_cases.
  assert (E3 : ((0 <=? 4 * p - 4) && (4 * p - 4 <? 4 * (w * h)))%Z
               = (0 <? px)%Z) by compare_cases.
  assert (E4 : ((0 <=? 4 * p + 4) && (4 * p + 4 <? 4 * (w * h)))%Z
               = (px + 1 <? w)%Z) by compare_cases.
  now rewrite E1, E2, E3, E4.
Qed.

Lemma orZero_channel (d : list byte) (i c : Z) :
  orZero (get d (i + c)) = Num (channel d i c).
Proof. unfold orZero, channel, ofZ. now destruct (get d (i + c)). Qed.

Lemma toNumber_channel (d : list byte) (i c : Z) :
  (0 <= i + c < array_length d)%Z ->
  toNumber (get d (i + c)) = Num (channel d i c).
Proof.
  intros Hi. unfold toNumber, channel, ofZ, get.
  destruct (Z.ltb_spec (i + c) 0); [lia |].
  destruct (nth_error d (Z.to_nat (i + c))) eqn:E; [reflexivity |].
  apply nth_error_None in E. unfold array_length in Hi. lia.
Qed.

Lemma neighbor_sum_channels (d : list byte) (ns : list Z) :
  forall ar ag ab : R,
    fold_left
      (fun (acc : RGB) i =>
         {| r := (r acc + orZero (get d i))%num;
            g := (g acc + orZero (get d (i + 1)))%num;
            b := (b acc + orZero (get d (i + 2)))%num |})
      ns {| r := Num ar; g := Num ag; b := Num ab |}
    = {| r := Num (ar + Rsum (map (fun i => channel d i 0) ns));
         g := Num (ag + Rsum (map (fun i => channel d i 1) ns));
         b := Num (ab + Rsum (map (fun i => channel d i 2) ns)) |}.
Proof.
  induction ns as [| i ns IH]; intros ar ag ab; cbn [fold_left map].
  - apply RGB_eq; unfold Rsum; cbn [fold_right]; lra.
  - cbn [r g b]. rewrite <- (Z.add_0_r i) at 1.
    rewrite !orZero_channel. cbn [nadd lift2]. rewrite IH.
    apply RGB_eq; unfold Rsum; cbn [fold_right]; lra.
Qed.

Lemma planar_total_channel (d : list byte) (c : Z) (ns : list Z) :
  Forall (fun i => (0 <= i + c < array_length d)%Z) ns ->
  fold_right (fun i acc => (toNumber (get d (i + c)) + acc)%num) (Num 0) ns
  = Num (Rsum (map (fun i => channel d i c) ns)).
Proof.
  induction 1 as [| i ns Hi _ IH]; cbn [fold_right map].
  - reflexivity.
  - rewrite IH, toNumber_channel by exact Hi. reflexivity.
Qed.

(** X17. For a pixel with a pixel on either side in its row, the average
    that [getNeighborAverage] returns is the mean over its neighbours in
    the image plane. *)
Lemma getNeighborAverage_inside_row (img : ImageData) (p : Z) :
  well_formed img ->
  (0 <= p < width img * height img)%Z ->
  (0 < p mod width img)%Z -> (p mod width img + 1 < width img)%Z ->
  getNeighborAverage (data img) (4 * p) (width img) = neighborAverage2D img (4 * p).
Proof.
  intros (Hw & Hh & Hlen) Hp Hl Hr.
  unfold getNeighborAverage, neighborAverage2D.
  rewrite Hlen, (neighbors_inside_row Hw Hh Hp Hl Hr).
  pose proof (neighbors_inside_row Hw Hh Hp Hl Hr) as Hns.
  set (ns := neighbors2D (width img) (height img) (4 * p)) in *.
  assert (Hin : forall c, (0 <= c < 4)%Z ->
                  Forall (fun i => (0 <= i + c < array_length (data img))%Z) ns).
  { intros c Hc. rewrite <- Hns. apply Forall_forall. intros i Hi.
    apply filter_In in Hi. destruct Hi as [Hi Hb].
    apply andb_true_iff in Hb. destruct Hb as [B1%Z.leb_le B2%Z.ltb_lt].
    rewrite Hlen. set (wh := (width img * height img)%Z) in *.
    cbn [In] in Hi. destruct Hi as [<- | [<- | [<- | [<- | []]]]]; lia. }
  rewrite neighbor_sum_channels.
  rewrite !planar_total_channel by (apply Hin; lia).
  cbn [r g b]. rewrite !Rplus_0_l. reflexivity.
Qed.

(** ** The heat map *)

Lemma heatmap_step (regions : list Region) (rnd : nat -> R) (k : nat) :
  (u1 <- Math_random ;;
   u2 <- Math_random ;;
   u3 <- Math_random ;;
   u4 <- Math_random ;;
   u5 <- Math_random ;;
   ret (regions ++
        [ {| x := u1 * 0.8;
             y := u2 * 0.8;
             rwidth := 0.1 + u3 * 0.15;
             rheight := 0.1 + u4 * 0.15;
             intensity := 0.3 + u5 * 0.7 |} ])%list) rnd k
  = ((regions ++ [ region_of (rnd k) (rnd (S k)) (rnd (S (S k)))
                             (rnd (S (S (S k)))) (rnd (S (S (S (S k))))) ])%list,
     S (S (S (S (S k))))).
Proof. reflexivity. Qed.

Lemma region_of_bounds (u1 u2 u3 u4 u5 : R) :
  0 <= u1 < 1 -> 0 <= u2 < 1 -> 0 <= u3 < 1 -> 0 <= u4 < 1 -> 0 <= u5 < 1 ->
  region_in_unit_intervals (region_of u1 u2 u3 u4 u5).
Proof.
  intros. unfold region_in_unit_intervals, in_unit_interval, region_of.
  cbn [x y rwidth rheight intensity]. lra.
Qed.

Lemma generateHeatmap_length (img : ImageData) (pa ai : number) (rnd : nat -> R)
    (k : nat) :
  (List.length (fst (generateHeatmap img pa ai rnd k)) <= 8)%nat.
Proof.
  unfold generateHeatmap.
  set (iterations := match Math.floor _ with Some n => _ | None => O end).
  assert (Hi : (iterations <= 8)%nat)
    by (unfold iterations; destruct (Math.floor _); lia).
  match goal with
  | |- context [repeat_loop iterations ?body [] rnd k] =>
      pose proof (@repeat_loop_invariant _
                    (fun i regs => List.length regs = i) body rnd) as Hinv
  end.
  rewrite (Hinv) with (i := O) (n := iterations); [exact Hi | | reflexivity].
  intros i regs k0 Hlen. rewrite heatmap_step. cbn [fst].
  rewrite length_app. simpl. lia.
Qed.

Lemma generateHeatmap_bounds (img : ImageData) (pa ai : number) (rnd : nat -> R)
    (k : nat) :
  random_source rnd ->
  Forall region_in_unit_intervals (fst (generateHeatmap img pa ai rnd k)).
Proof.
  intros Hrnd. unfold generateHeatmap.
  set (iterations := match Math.floor _ with Some n => _ | None => O end).
  match goal with
  | |- context [repeat_loop iterations ?body [] rnd k] =>
      apply (@repeat_loop_invariant _
               (fun _ regs => Forall region_in_unit_intervals regs) body rnd)
        with (i := O)
  end; [| constructor].
  intros _ regs k0 Hregs. rewrite heatmap_step. cbn [fst].
  apply Forall_app. split; [exact Hregs |].
  constructor; [| constructor]. apply region_of_bounds; apply Hrnd.
Qed.

(** One region is generated for a severity of 20 and a confidence of 0. *)
Lemma generateHeatmap_one (img : ImageData) (rnd : nat -> R) :
  fst (generateHeatmap img (Num 20) (Num 0) rnd O)
  = [ region_of (rnd 0%nat) (rnd 1%nat) (rnd 2%nat) (rnd 3%nat) (rnd 4%nat) ].
Proof.
  unfold generateHeatmap. cbn [nadd lift2].
  rewrite ndiv_Num by lra. cbn [Math.floor].
  rewrite (@Zfloor_eq 1) by (simpl; lra).
  reflexivity.
Qed.

(** ** Aggregation *)

Lemma aggregate_fields (d : DetectionDetails) (h : list Region) (dt : string)
    (pt : number) :
  let res := aggregate d h dt pt in
  resultType res = verdict d
  /\ manipulationScore res = clamp (weightedScore d)
  /\ trustScore res = clamp (Math.max (Num 0) (Num 100 - weightedScore d))
  /\ detectionDetails res = d
  /\ heatmapData res = h
  /\ metadataAnalysis res
     = {| hasExif := true; cameraModel := None; software := None;
          dateTime := Some dt; ma_flags := flags (metadata d) |}
  /\ processingTimeMs res = pt.
Proof.
  unfold aggregate, verdict, clamp. fold (weightedScore d).
  destruct (ai_detected (aiArtifacts d) && (confidence (aiArtifacts d) >? Num 70)%num).
  - cbn. repeat split.
  - destruct (weightedScore d >? Num 50)%num; cbn; repeat split.
Qed.

Lemma weightedScore_is_num (d : DetectionDetails) :
  is_num (severity (pixelAnomalies d)) ->
  is_num (ls_score (lightingShadows d)) ->
  is_num (confidence (aiArtifacts d)) ->
  is_num (sl_score (semanticLogic d)) ->
  is_num (weightedScore d).
Proof.
  unfold weightedScore.
  destruct (severity _), (ls_score _), (confidence _), (sl_score _);
    simpl; tauto.
Qed.

(** ** The detectors inside the pipeline *)

Lemma runDetectors_eq (file : File) (img : ImageData) (rnd : nat -> R) (k : nat) :
  fst (runDetectors file img rnd k)
  = {| pixelAnomalies := fst (analyzePixelAnomalies img rnd k);
       lightingShadows := analyzeLightingAndShadows img;
       aiArtifacts :=
         fst (detectAIArtifacts img rnd (snd (analyzePixelAnomalies img rnd k)));
       metadata := analyzeMetadata file;
       semanticLogic := analyzeSemanticLogic img |}.
Proof.
  unfold runDetectors, bind.
  destruct (analyzePixelAnomalies img rnd k) as [pa k1]. cbn [fst snd].
  destruct (detectAIArtifacts img rnd k1) as [ai k2].
  reflexivity.
Qed.

Lemma runPipeline_details (file : File) (img : ImageData) (rnd : nat -> R) (k : nat) :
  fst (fst (runPipeline file img rnd k)) = fst (runDetectors file img rnd k).
Proof.
  unfold runPipeline, bind.
  destruct (runDetectors file img rnd k) as [d k1].
  destruct (generateHeatmap img _ _ rnd k1) as [h k2].
  reflexivity.
Qed.

Lemma runPipeline_heatmap (file : File) (img : ImageData) (rnd : nat -> R) (k : nat) :
  snd (fst (runPipeline file img rnd k))
  = let dk := runDetectors file img rnd k in
    fst (generateHeatmap img (severity (pixelAnomalies (fst dk)))
                         (confidence (aiArtifacts (fst dk))) rnd (snd dk)).
Proof.
  unfold runPipeline, bind.
  destruct (runDetectors file img rnd k) as [d k1]. cbn [fst snd].
  destruct (generateHeatmap img _ _ rnd k1) as [h k2].
  reflexivity.
Qed.

(** The detector results of a run on a well-formed image are numbers
    between 0 and 100. *)
Lemma runDetectors_between (file : File) (img : ImageData) (rnd : nat -> R)
    (k : nat) :
  well_formed img ->
  let d := fst (runDetectors file img rnd k) in
  between 0 100 (severity (pixelAnomalies d))
  /\ between 0 100 (ls_score (lightingShadows d))
  /\ between 0 100 (confidence (aiArtifacts d))
  /\ between 0 100 (sl_score (semanticLogic d)).
Proof.
  intros Hwf d. unfold d. rewrite runDetectors_eq.
  cbn [pixelAnomalies lightingShadows aiArtifacts semanticLogic].
  split; [apply severity_between |].
  split; [| split; [apply confidence_between | apply sl_score_between]].
  destruct (analyzeLightingAndShadows_spec Hwf) as (_ & E & B). rewrite E.
  destruct (@round_R_between 0 100 _ B) as [B1 B2].
  cbn [between ofZ]. split; apply IZR_le; assumption.
Qed.

(** ** Whole runs *)

Lemma analyzeImage_Ok (env : Browser) (file : File) (img : ImageData) :
  completes env file img ->
  analyzeImage env file
  = Ok (aggregate (fst (fst (runPipeline file img (random env) O)))
                  (snd (fst (runPipeline file img (random env) O)))
                  (isoString env (lastModified file))
                  (Math.round (Num (endTime env - startTime env)))).
Proof.
  intros (Hctx & Hdec & Ht).
  unfold analyzeImage, loadImageData, Date_toISOString.
  rewrite Hctx, Hdec. cbn [negb].
  destruct (Z.leb_spec (Z.abs (lastModified file)) 8640000000000000); [| lia].
  destruct (fst (runPipeline file img (random env) O)) as [d h].
  reflexivity.
Qed.

(** Conversely, a returned result comes from such a run. *)
Lemma analyzeImage_inv (env : Browser) (file : File) (res : AnalysisResult) :
  analyzeImage env file = Ok res -> exists img : ImageData, completes env file img.
Proof.
  unfold analyzeImage, loadImageData, Date_toISOString, completes.
  destruct (getContext env); cbn [negb]; [| discriminate].
  destruct (decode env file) as [img |]; [| discriminate].
  destruct (fst (runPipeline file img (random env) O)) as [d h].
  destruct (Z.leb_spec (Z.abs (lastModified file)) 8640000000000000);
    [| discriminate].
  intros _. exists img. auto.
Qed.

(** A modification time outside the range of time values makes the run
    throw after the detectors have run. *)
Lemma analyzeImage_invalid_time (env : Browser) (file : File) (img : ImageData) :
  getContext env = true -> decode env file = Some img ->
  (8640000000000000 < Z.abs (lastModified file))%Z ->
  analyzeImage env file = Err (RangeError "Invalid time value").
Proof.
  intros Hctx Hdec Ht.
  unfold analyzeImage, loadImageData, Date_toISOString.
  rewrite Hctx, Hdec. cbn [negb].
  destruct (Z.leb_spec (Z.abs (lastModified file)) 8640000000000000); [lia |].
  destruct (fst (runPipeline file img (random env) O)) as [d h].
  reflexivity.
Qed.

Lemma analyzeImage_details (env : Browser) (file : File) (img : ImageData) :
  completes env file img ->
  exists (h : list Region) (pt : number),
    analyzeImage env file
    = Ok (aggregate (fst (runDetectors file img (random env) O)) h
                    (isoString env (lastModified file)) pt)
    /\ h = fst (generateHeatmap img
                  (severity (pixelAnomalies (fst (runDetectors file img (random env) O))))
                  (confidence (aiArtifacts (fst (runDetectors file img (random env) O))))
                  (random env) (snd (runDetectors file img (random env) O))).
Proof.
  intros Hrun.
  rewrite (analyzeImage_Ok Hrun), runPipeline_details, runPipeline_heatmap.
  eexists; eexists; split; reflexivity.
Qed.

(** * The claims *)



(** C3. For every well-formed image (positive width and height, four bytes
    per pixel) and every outcome of the random source, the analysis returns
    a result in which the pixel anomaly severity, the lighting score, the
    AI confidence and the semantic score lie between 0 and 100, and so do
    the final manipulation and trust scores. *)
Theorem C3_scores_in_range (env : Browser) (file : File) (img : ImageData) :
  completes env file img ->
  well_formed img ->
  exists res : AnalysisResult,
    analyzeImage env file = Ok res
    /\ between 0 100 (severity (pixelAnomalies (detectionDetails res)))
    /\ between 0 100 (ls_score (lightingShadows (detectionDetails res)))
    /\ between 0 100 (confidence (aiArtifacts (detectionDetails res)))
    /\ between 0 100 (sl_score (semanticLogic (detectionDetails res)))
    /\ between 0 100 (manipulationScore res)
    /\ between 0 100 (trustScore res).
Proof.
  intros Hrun Hwf.
  destruct (analyzeImage_details Hrun) as (h & pt & Hres & _).
  eexists. split; [exact Hres |].
  destruct (aggregate_fields (fst (runDetectors file img (random env) O)) h
                             (isoString env (lastModified file)) pt)
    as (_ & Hm & Htr & Hd & _).
  rewrite Hm, Htr, Hd.
  destruct (@runDetectors_between file img (random env) O Hwf)
    as (B1 & B2 & B3 & B4).
  repeat (split; [assumption |]).
  assert (Hw : is_num (weightedScore (fst (runDetectors file img (random env) O)))).
  { apply weightedScore_is_num; eapply between_is_num; eassumption. }
  split; apply clamp_between; [exact Hw |].
  destruct (weightedScore _); [elim Hw | exact I].
Qed.

(** C3 holds of the two-pixel image [two_tone] decoded from [vacation_jpg]
    by a browser whose random source is stuck at 0. *)
Lemma C3_scores_in_range_witness :
  (completes (browser_of two_tone) vacation_jpg two_tone /\ well_formed two_tone)
  /\ exists res : AnalysisResult,
       analyzeImage (browser_of two_tone) vacation_jpg = Ok res
       /\ between 0 100 (severity (pixelAnomalies (detectionDetails res)))
       /\ between 0 100 (ls_score (lightingShadows (detectionDetails res)))
       /\ between 0 100 (confidence (aiArtifacts (detectionDetails res)))
       /\ between 0 100 (sl_score (semanticLogic (detectionDetails res)))
       /\ between 0 100 (manipulationScore res)
       /\ between 0 100 (trustScore res).
Proof.
  assert (Hrun : completes (browser_of two_tone) vacation_jpg two_tone)
    by (repeat split; cbn; lia).
  assert (Hwf : well_formed two_tone) by (unfold well_formed; cbn; lia).
  split; [split; assumption |].
  exact (C3_scores_in_range Hrun Hwf).
Defined.

(** C4 (the code departs from the claim). On the 2 by 2 image
    [four_pixels] the neighbour average of the pixel in the left column of
    the second row (byte offset 8) counts the white pixel that ends the
    first row as its left neighbour, and the average of the pixel in the
    right column of the first row (offset 4) counts the pixel that starts
    the second row as its right neighbour: [getNeighborAverage] keeps every
    offset that falls inside the flat buffer. The mean over the neighbours
    in the image plane is 0 in both places. For the gray pixel at offset 8
    the detectors therefore see a difference of 15 from its neighbours, not
    the 270 that separate it from the two black pixels next to it. *)
Theorem C4_neighbor_average_wraps_rows :
  well_formed four_pixels
  /\ filter (fun i => (0 <=? i)%Z && (i <? array_length (data four_pixels))%Z)
            [ (8 - 2 * 4)%Z; (8 + 2 * 4)%Z; (8 - 4)%Z; (8 + 4)%Z ]
     = [0%Z; 4%Z; 12%Z]
  /\ neighbors2D 2 2 8 = [0%Z; 12%Z]
  /\ getNeighborAverage (data four_pixels) 8 (width four_pixels)
     = {| r := Num 85; g := Num 85; b := Num 85 |}
  /\ neighborAverage2D four_pixels 8 = {| r := Num 0; g := Num 0; b := Num 0 |}
  /\ neighborDiff four_pixels 8 = Num 15
  /\ getNeighborAverage (data four_pixels) 4 (width four_pixels)
     = {| r := Num 30; g := Num 30; b := Num 30 |}
  /\ neighborAverage2D four_pixels 4 = {| r := Num 0; g := Num 0; b := Num 0 |}.
Proof.
  split; [apply four_pixels_well_formed |].
  split; [vm_compute; reflexivity |].
  split; [vm_compute; reflexivity |].
  split; [apply getNeighborAverage_four_pixels_8 |].
  split; [apply neighborAverage2D_four_pixels; now left |].
  split; [apply neighborDiff_four_pixels_8 |].
  split; [apply getNeighborAverage_four_pixels_4 |].
  apply neighborAverage2D_four_pixels; now right.
Qed.




(** C6. The metadata detector depends on the file facts alone and applies
    its six rules independently in the documented order, each appending
    exactly its flag: the flags are the concatenation, rule by rule, of the
    flag of every rule that triggers ([rule_flags]); the name tests find
    exactly the lower-cased names in which the word occurs; the result is
    the same for every image, random source and position in it, so that
    repeated calls on fixed file facts give the same flags in the same
    order; and [authentic] holds exactly when no flag was raised. *)
Theorem C6_metadata_rules :
  (forall file : File, flags (analyzeMetadata file) = rule_flags file)
  /\ (forall s p : string,
         includes s p = true <-> exists pre post, s = pre ++ p ++ post)
  /\ (forall (file : File) (img1 img2 : ImageData) (rnd1 rnd2 : nat -> R)
             (k1 k2 : nat),
         metadata (fst (runDetectors file img1 rnd1 k1))
         = metadata (fst (runDetectors file img2 rnd2 k2)))
  /\ (forall file : File,
         authentic (analyzeMetadata file) = true
         <-> flags (analyzeMetadata file) = []).
Proof.
  split; [| split; [| split]].
  - apply analyzeMetadata_flags.
  - apply includes_spec.
  - intros. now rewrite !runDetectors_eq.
  - apply analyzeMetadata_authentic.
Qed.

(** C7 (the claim as stated fails). The 1 by 1 image [one_pixel] has
    positive width and height and is handed to the detectors as decoded;
    every offset the pixel detectors sample in it is 0; none of the four
    neighbour offsets of its only pixel lies inside the buffer, so
    [getNeighborAverage] divides three zero sums by a count of zero and
    returns [NaN] in every channel. *)
Lemma C7_single_pixel_counterexample :
  well_formed one_pixel
  /\ loadImageData (browser_of one_pixel) vacation_jpg = Ok one_pixel
  /\ (forall u : R, 0 <= u < 1 ->
        (Zfloor (u * (IZR (array_length (data one_pixel)) / 4)) * 4)%Z = 0%Z)
  /\ filter (fun i => (0 <=? i)%Z && (i <? array_length (data one_pixel))%Z)
            [ (0 - width one_pixel * 4)%Z; (0 + width one_pixel * 4)%Z;
              (0 - 4)%Z; (0 + 4)%Z ]
     = []
  /\ getNeighborAverage (data one_pixel) 0 (width one_pixel)
     = {| r := NaN; g := NaN; b := NaN |}.
Proof.
  split; [apply one_pixel_well_formed |].
  split; [reflexivity |].
  split.
  { intros u Hu.
    change (array_length (data one_pixel)) with 4%Z.
    replace (u * (4 / 4)) with u by field.
    rewrite (@Zfloor_eq 0 u); [reflexivity | simpl; lra]. }
  split; [vm_compute; reflexivity |].
  unfold getNeighborAverage.
  replace (filter _ _) with (@nil Z) by (vm_compute; reflexivity).
  cbn [fold_left r g b List.length].
  change (ofNat 0) with (Num 0).
  now rewrite ndiv_zero.
Qed.

(** C7 (amended). The detectors are total functions of the decoded image
    and the file facts. [loadImageData] fails only without a canvas context
    or when the image does not load; it applies no check of its own to the
    decoded buffer and hands it to the detectors as it is. On a well-formed
    image the brightness loop of the lighting detector runs once per pixel,
    at least once, so its mean and variance are divided by a non-zero
    length; the severity, score and confidence that the detectors return
    are numbers, whatever the random source returns; and when the image has
    at least two pixels, every pixel offset the random sampling can draw
    has at least one neighbour offset inside the buffer, so
    [getNeighborAverage] divides by a non-zero count and returns a number
    in every channel. *)
Theorem C7_detector_divisors (img : ImageData) :
  well_formed img ->
  (forall (env : Browser) (file : File),
      loadImageData env file
      = if getContext env
        then match decode env file with
             | Some decoded => Ok decoded
             | None => Err (JsError "Failed to load image")
             end
        else Err (JsError "Could not get canvas context"))
  /\ List.length (range 0 (array_length (data img)) 4)
     = Z.to_nat (width img * height img)
  /\ (0 < List.length (range 0 (array_length (data img)) 4))%nat
  /\ (forall (file : File) (rnd : nat -> R) (k : nat),
         let d := fst (runDetectors file img rnd k) in
         is_num (severity (pixelAnomalies d))
         /\ is_num (ls_score (lightingShadows d))
         /\ is_num (confidence (aiArtifacts d))
         /\ is_num (sl_score (semanticLogic d)))
  /\ ((2 <= width img * height img)%Z ->
      forall u : R,
        0 <= u < 1 ->
        let index := (Zfloor (u * (IZR (array_length (data img)) / 4)) * 4)%Z in
        let avg := getNeighborAverage (data img) index (width img) in
        filter (fun i => (0 <=? i)%Z && (i <? array_length (data img))%Z)
               [ (index - width img * 4)%Z; (index + width img * 4)%Z;
                 (index - 4)%Z; (index + 4)%Z ]
        <> []
        /\ is_num (r avg) /\ is_num (g avg) /\ is_num (b avg)).
Proof.
  intros Hwf.
  destruct (well_formed_length Hwf) as (n & Hn & Hlen & Hwh).
  assert (Hrange : List.length (range 0 (array_length (data img)) 4) = n).
  { unfold array_length. rewrite Hlen.
    replace (Z.of_nat (4 * n)) with (4 * Z.of_nat n)%Z by lia.
    now rewrite range_0_4, length_map, length_seq. }
  split.
  { intros env file. unfold loadImageData. now destruct (getContext env). }
  split; [rewrite Hrange; lia |].
  split; [rewrite Hrange; exact Hn |].
  split.
  { intros file rnd k d.
    destruct (@runDetectors_between file img rnd k Hwf) as (B1 & B2 & B3 & B4).
    fold d in B1, B2, B3, B4. clearbody d.
    split; [| split; [| split]]; eapply between_is_num; eassumption. }
  intros H2 u Hu index avg.
  destruct (@sampled_index_in_buffer (data img) n u Hlen Hn Hu) as (I0 & I4 & _).
  fold index in I0, I4.
  assert (H8 : (8 <= array_length (data img))%Z)
    by (unfold array_length; rewrite Hlen; lia).
  split.
  - now apply neighbors_nonempty.
  - now apply getNeighborAverage_is_num.
Qed.

(** C7 (amended) holds of the image [two_tone]. *)
Lemma C7_detector_divisors_witness :
  well_formed two_tone
  /\ (0 < List.length (range 0 (array_length (data two_tone)) 4))%nat
  /\ (forall u : R,
         0 <= u < 1 ->
         is_num (r (getNeighborAverage
                      (data two_tone)
                      (Zfloor (u * (IZR (array_length (data two_tone)) / 4)) * 4)
                      (width two_tone)))).
Proof.
  assert (Hwf : well_formed two_tone) by (unfold well_formed; cbn; lia).
  split; [exact Hwf |].
  destruct (C7_detector_divisors Hwf) as (_ & _ & Hloop & _ & Havg).
  split; [exact Hloop |].
  intros u Hu.
  assert (H2 : (2 <= width two_tone * height two_tone)%Z) by (cbn; lia).
  exact (proj1 (proj2 (Havg H2 u Hu))).
Defined.

(** C8. In every result returned for a well-formed image the final
    manipulation score and the final trust score add up to exactly 100. *)
Theorem C8_scores_sum_to_100 (env : Browser) (file : File) (img : ImageData) :
  completes env file img ->
  well_formed img ->
  exists res : AnalysisResult,
    analyzeImage env file = Ok res
    /\ (manipulationScore res + trustScore res)%num = Num 100.
Proof.
  intros Hrun Hwf.
  destruct (analyzeImage_details Hrun) as (h & pt & Hres & _).
  eexists. split; [exact Hres |].
  destruct (aggregate_fields (fst (runDetectors file img (random env) O)) h
                             (isoString env (lastModified file)) pt)
    as (_ & Hm & Htr & _).
  rewrite Hm, Htr. apply clamp_complement.
  destruct (@runDetectors_between file img (random env) O Hwf)
    as (B1 & B2 & B3 & B4).
  apply weightedScore_is_num; eapply between_is_num; eassumption.
Qed.

(** C8 holds of [two_tone] decoded from [vacation_jpg]. *)
Lemma C8_scores_sum_to_100_witness :
  (completes (browser_of two_tone) vacation_jpg two_tone /\ well_formed two_tone)
  /\ exists res : AnalysisResult,
       analyzeImage (browser_of two_tone) vacation_jpg = Ok res
       /\ (manipulationScore res + trustScore res)%num = Num 100.
Proof.
  assert (Hrun : completes (browser_of two_tone) vacation_jpg two_tone)
    by (repeat split; cbn; lia).
  assert (Hwf : well_formed two_tone) by (unfold well_formed; cbn; lia).
  split; [split; assumption |].
  exact (C8_scores_sum_to_100 Hrun Hwf).
Defined.

(** C9. Every returned result has [hasExif = true] and a [dateTime] that is
    the ISO text of the file's [lastModified], whatever the file contains,
    and also when [lastModified] is zero and the metadata detector has
    flagged the modification time as missing. *)
Theorem C9_metadata_summary (env : Browser) (file : File) (img : ImageData) :
  completes env file img ->
  exists res : AnalysisResult,
    analyzeImage env file = Ok res
    /\ hasExif (metadataAnalysis res) = true
    /\ dateTime (metadataAnalysis res) = Some (isoString env (lastModified file))
    /\ ma_flags (metadataAnalysis res) = flags (analyzeMetadata file)
    /\ (lastModified file = 0%Z ->
        In "Missing modification timestamp" (ma_flags (metadataAnalysis res))).
Proof.
  intros Hrun.
  destruct (analyzeImage_details Hrun) as (h & pt & Hres & _).
  eexists. split; [exact Hres |].
  destruct (aggregate_fields (fst (runDetectors file img (random env) O)) h
                             (isoString env (lastModified file)) pt)
    as (_ & _ & _ & _ & _ & Hma & _).
  rewrite Hma, runDetectors_eq.
  cbn [hasExif dateTime ma_flags metadata].
  repeat split. apply missing_timestamp_flagged.
Qed.

(** C9 holds of the file [untimed_png], whose [lastModified] is 0. *)
Lemma C9_metadata_summary_witness :
  completes (browser_of two_tone) untimed_png two_tone
  /\ exists res : AnalysisResult,
       analyzeImage (browser_of two_tone) untimed_png = Ok res
       /\ hasExif (metadataAnalysis res) = true
       /\ dateTime (metadataAnalysis res)
          = Some (isoString (browser_of two_tone) (lastModified untimed_png))
       /\ ma_flags (metadataAnalysis res) = flags (analyzeMetadata untimed_png)
       /\ (lastModified untimed_png = 0%Z ->
           In "Missing modification timestamp" (ma_flags (metadataAnalysis res))).
Proof.
  assert (Hrun : completes (browser_of two_tone) untimed_png two_tone)
    by (repeat split; cbn; lia).
  split; [exact Hrun |].
  exact (C9_metadata_summary Hrun).
Defined.

(** C10. Heat map regions need not lie inside the image frame although
    every coordinate is a fraction: at most 8 regions are generated; when
    the random source returns values from 0 up to but excluding 1, each of
    [x], [y], [width], [height] and [intensity] of every region lies
    between 0 and 1, in the heat map of every returned result too; some
    random source gives a region with [x + width > 1]; and [x] comes as
    close to 0.8 and [width] as close to 0.25 as one likes. *)
Theorem C10_heatmap_regions :
  (forall (img : ImageData) (pa ai : number) (rnd : nat -> R) (k : nat),
      (List.length (fst (generateHeatmap img pa ai rnd k)) <= 8)%nat)
  /\ (forall (img : ImageData) (pa ai : number) (rnd : nat -> R) (k : nat),
         random_source rnd ->
         Forall region_in_unit_intervals (fst (generateHeatmap img pa ai rnd k)))
  /\ (forall (env : Browser) (file : File) (img : ImageData),
         completes env file img ->
         random_source (random env) ->
         exists res : AnalysisResult,
           analyzeImage env file = Ok res
           /\ (List.length (heatmapData res) <= 8)%nat
           /\ Forall region_in_unit_intervals (heatmapData res))
  /\ (exists (rnd : nat -> R) (reg : Region),
         random_source rnd
         /\ In reg (fst (generateHeatmap two_tone (Num 20) (Num 0) rnd O))
         /\ x reg + rwidth reg > 1)
  /\ (forall eps : R,
         0 < eps ->
         exists (rnd : nat -> R) (reg : Region),
           random_source rnd
           /\ In reg (fst (generateHeatmap two_tone (Num 20) (Num 0) rnd O))
           /\ 0.8 - eps < x reg < 0.8
           /\ 0.25 - eps < rwidth reg < 0.25).
Proof.
  split; [apply generateHeatmap_length |].
  split; [apply generateHeatmap_bounds |].
  split.
  { intros env file img Hrun Hrnd.
    destruct (analyzeImage_details Hrun) as (h & pt & Hres & Hh).
    eexists. split; [exact Hres |].
    destruct (aggregate_fields (fst (runDetectors file img (random env) O)) h
                               (isoString env (lastModified file)) pt)
      as (_ & _ & _ & _ & -> & _).
    rewrite Hh. split;
      [apply generateHeatmap_length | now apply generateHeatmap_bounds]. }
  split.
  - exists (constant_source 0.99), (region_of 0.99 0.99 0.99 0.99 0.99).
    split; [intros i; unfold constant_source; lra |].
    split; [rewrite generateHeatmap_one; now left |].
    cbn [region_of x rwidth]. lra.
  - intros eps Heps.
    set (c := 1 - Rmin eps 1 / 2).
    assert (Hc : 1 / 2 <= c < 1 /\ 1 - c < eps).
    { unfold c. case_minmax. lra. }
    exists (constant_source c), (region_of c c c c c).
    split; [intros i; unfold constant_source; lra |].
    split; [rewrite generateHeatmap_one; now left |].
    cbn [region_of x rwidth]. lra.
Qed.

(** * Further properties of the analyzer *)

(** ** Reading the pixels of a well-formed buffer *)

Lemma pixels_get (n : nat) :
  forall (d : list byte) (q : nat),
    List.length d = (4 * n)%nat -> (q < n)%nat ->
    exists r g b a : byte,
      nth_error (pixels d) q = Some (r, g, b, a)
      /\ get d (4 * Z.of_nat q) = Some r
      /\ get d (4 * Z.of_nat q + 1) = Some g
      /\ get d (4 * Z.of_nat q + 2) = Some b.
Proof.
  induction n as [| n IH]; intros d q Hlen Hq; [lia |].
  destruct d as [| a0 [| a1 [| a2 [| a3 rest]]]]; simpl in Hlen; try lia.
  destruct q as [| q].
  - exists a0, a1, a2, a3. repeat split.
  - destruct (IH rest q ltac:(lia) ltac:(lia)) as (r & g & b & a & Hn & Hr & Hg & Hb).
    exists r, g, b, a. cbn [pixels nth_error]. split; [exact Hn |].
    replace (4 * Z.of_nat (S q))%Z with (4 * Z.of_nat q + 4)%Z by lia.
    replace (4 * Z.of_nat q + 4 + 1)%Z with (4 * Z.of_nat q + 1 + 4)%Z by lia.
    replace (4 * Z.of_nat q + 4 + 2)%Z with (4 * Z.of_nat q + 2 + 4)%Z by lia.
    rewrite !get_skip4 by lia. auto.
Qed.

(** In an image of one colour every pixel offset reads that colour. *)
Lemma uniform_get (img : ImageData) (cr cg cb : byte) (i : Z) :
  well_formed img -> uniform img cr cg cb ->
  (0 <= i)%Z -> (i + 4 <= array_length (data img))%Z -> (i mod 4 = 0)%Z ->
  get (data img) i = Some cr
  /\ get (data img) (i + 1) = Some cg
  /\ get (data img) (i + 2) = Some cb.
Proof.
  intros Hwf Hu H0 H4 Hm.
  destruct (well_formed_length Hwf) as (n & Hn & Hlen & _).
  unfold array_length in H4. rewrite Hlen in H4.
  assert (Hi : i = (4 * Z.of_nat (Z.to_nat (i / 4)))%Z).
  { rewrite Z2Nat.id by (apply Z.div_pos; lia).
    pose proof (Z.div_mod i 4 ltac:(lia)). lia. }
  assert (Hq : (Z.to_nat (i / 4) < n)%nat).
  { pose proof (Z.div_mod i 4 ltac:(lia)). lia. }
  destruct (@pixels_get n (data img) _ Hlen Hq) as (r & g & b & a & Hnth & Hr & Hg & Hb).
  rewrite <- Hi in Hr, Hg, Hb.
  unfold uniform in Hu. rewrite Forall_forall in Hu.
  specialize (Hu _ (nth_error_In _ _ Hnth)). cbn in Hu.
  destruct Hu as (-> & -> & ->). auto.
Qed.

(** ** Images of one colour *)

Lemma Rsum_constant {A} (c : R) (l : list A) :
  Rsum (map (fun _ => c) l) = INR (List.length l) * c.
Proof.
  induction l as [| a l IH]; unfold Rsum in *; cbn [map fold_right List.length].
  - simpl. lra.
  - rewrite IH, S_INR. lra.
Qed.

(** The offsets that [getNeighborAverage] keeps for a pixel offset are
    pixel offsets inside the buffer. *)
Lemma neighbors_are_pixels (d : list byte) (n : nat) (index w i : Z) :
  List.length d = (4 * n)%nat -> (index mod 4 = 0)%Z ->
  In i (filter (fun i => (0 <=? i)%Z && (i <? array_length d)%Z)
               [ (index - w * 4)%Z; (index + w * 4)%Z; (index - 4)%Z; (index + 4)%Z ]) ->
  (0 <= i)%Z /\ (i + 4 <= array_length d)%Z /\ (i mod 4 = 0)%Z.
Proof.
  intros Hlen Hm Hi. apply filter_In in Hi. destruct Hi as [Hi Hb].
  apply andb_true_iff in Hb. destruct Hb as [B1%Z.leb_le B2%Z.ltb_lt].
  unfold array_length in *. rewrite Hlen in *.
  pose proof (Z.div_mod index 4 ltac:(lia)) as Hdm. rewrite Hm in Hdm.
  set (t := (index / 4)%Z) in *.
  assert (Ht : exists s : Z, i = (4 * s)%Z).
  { cbn [In] in Hi. destruct Hi as [<- | [<- | [<- | [<- | []]]]].
    - exists (t - w)%Z. lia.
    - exists (t + w)%Z. lia.
    - exists (t - 1)%Z. lia.
    - exists (t + 1)%Z. lia. }
  destruct Ht as [s ->]. repeat split; try lia.
  rewrite Z.mul_comm. apply Z_mod_mult.
Qed.

Lemma uniform_neighbor_average (img : ImageData) (cr cg cb : byte) (index : Z) :
  well_formed img -> uniform img cr cg cb ->
  (2 <= width img * height img)%Z ->
  (0 <= index)%Z -> (index + 4 <= array_length (data img))%Z -> (index mod 4 = 0)%Z ->
  getNeighborAverage (data img) index (width img)
  = {| r := ofZ (byteZ cr); g := ofZ (byteZ cg); b := ofZ (byteZ cb) |}.
Proof.
  intros Hwf Hu H2 H0 H4 Hm.
  destruct (well_formed_length Hwf) as (n & Hn & Hlen & Hwh).
  assert (H8 : (8 <= array_length (data img))%Z)
    by (unfold array_length; rewrite Hlen; lia).
  pose proof (@neighbors_nonempty (data img) index (width img) H8 H0 H4) as Hne.
  pose proof (fun i => @neighbors_are_pixels (data img) n index (width img) i Hlen Hm)
    as Hpix.
  unfold getNeighborAverage.
  set (ns := filter _ _) in *.
  rewrite neighbor_sum_channels. cbn [r g b].
  assert (Hc : forall c v,
             (forall i, In i ns -> get (data img) (i + c) = Some v) ->
             Rsum (map (fun i => channel (data img) i c) ns)
             = INR (List.length ns) * IZR (byteZ v)).
  { intros c v Hv. rewrite <- Rsum_constant. f_equal.
    apply map_ext_in. intros i Hi. unfold channel. now rewrite (Hv i Hi). }
  assert (Hg : forall i, In i ns ->
             get (data img) (i + 0) = Some cr
             /\ get (data img) (i + 1) = Some cg
             /\ get (data img) (i + 2) = Some cb).
  { intros i Hi. destruct (Hpix i Hi) as (I0 & I4 & Im).
    rewrite Z.add_0_r. now apply uniform_get. }
  rewrite (Hc 0%Z cr), (Hc 1%Z cg), (Hc 2%Z cb) by (intros i Hi; apply (Hg i Hi)).
  assert (Hlen0 : INR (List.length ns) <> 0).
  { apply not_0_INR. destruct ns; [contradiction | discriminate]. }
  unfold ofNat, ofZ. rewrite <- INR_IZR_INZ.
  rewrite !ndiv_Num by exact Hlen0.
  apply RGB_eq; field; exact Hlen0.
Qed.

Lemma uniform_neighborDiff (img : ImageData) (cr cg cb : byte) (index : Z) :
  well_formed img -> uniform img cr cg cb ->
  (2 <= width img * height img)%Z ->
  (0 <= index)%Z -> (index + 4 <= array_length (data img))%Z -> (index mod 4 = 0)%Z ->
  neighborDiff img index = Num 0.
Proof.
  intros Hwf Hu H2 H0 H4 Hm. unfold neighborDiff.
  rewrite (uniform_neighbor_average Hwf Hu H2 H0 H4 Hm).
  destruct (uniform_get Hwf Hu H0 H4 Hm) as (-> & -> & ->).
  cbn [toNumber r g b]. unfold ofZ. cbn [nsub nadd lift2 lift1 Math.abs].
  f_equal. rewrite !Rminus_diag, Rabs_R0. lra.
Qed.

Lemma repeat_loop_unchanged {A} (body : A -> Rand A) (rnd : nat -> R) (a : A) :
  (forall k, fst (body a rnd k) = a) ->
  forall n k, fst (repeat_loop n body a rnd k) = a.
Proof.
  intros Hbody n k.
  apply (repeat_loop_invariant (fun _ x => x = a) body rnd) with (i := O);
    [| reflexivity].
  intros _ x k0 ->. apply Hbody.
Qed.

Lemma repeat_loop_counts (body : nat -> Rand nat) (rnd : nat -> R) :
  (forall c k, fst (body c rnd k) = S c) ->
  forall n k, fst (repeat_loop n body O rnd k) = n.
Proof.
  intros Hbody n k.
  apply (repeat_loop_invariant (fun i x => x = i) body rnd) with (i := O);
    [| reflexivity].
  intros i x k0 ->. apply Hbody.
Qed.

Lemma fst_bind {A B} (c : Rand A) (f : A -> Rand B) (rnd0 : nat -> R) (k : nat) :
  fst (bind c f rnd0 k) = fst (f (fst (c rnd0 k)) rnd0 (snd (c rnd0 k))).
Proof. unfold bind. now destruct (c rnd0 k). Qed.

Lemma percent_none (n : nat) :
  (0 < n)%nat -> (ofNat 0 / ofNat n * Num 100)%num = Num 0.
Proof.
  intros Hn. destruct (@percent_between O n) as [E _]; [lia | exact Hn |].
  rewrite E. f_equal. change (INR 0) with 0. unfold Rdiv. lra.
Qed.

Lemma percent_all (n : nat) :
  (0 < n)%nat -> (ofNat n / ofNat n * Num 100)%num = Num 100.
Proof.
  intros Hn. destruct (@percent_between n n) as [E _]; [lia | exact Hn |].
  rewrite E. f_equal.
  assert (INR n <> 0) by (apply not_0_INR; lia). now field.
Qed.

Section OneColour.

Variable img : ImageData.
Variables cr cg cb : byte.
Hypothesis Hwf : well_formed img.
Hypothesis Hu : uniform img cr cg cb.
Variable rnd : nat -> R.
Hypothesis Hrnd : random_source rnd.

Lemma uniform_sampled_diff (k : nat) :
  (2 <= width img * height img)%Z ->
  neighborDiff img (fst (randomPixelIndex (data img) rnd k)) = Num 0.
Proof.
  intros H2.
  destruct (well_formed_length Hwf) as (n & Hn & Hlen & _).
  unfold randomPixelIndex, bind, Math_random, ret. cbn [fst].
  destruct (@sampled_index_in_buffer (data img) n (rnd k) Hlen Hn (Hrnd k))
    as (I0 & I4 & Im).
  now apply (uniform_neighborDiff Hwf Hu).
Qed.

Lemma uniform_anomalyCount (k : nat) :
  (2 <= width img * height img)%Z ->
  fst (repeat_loop sampleSize
         (fun anomalyCount =>
            randomIndex <- randomPixelIndex (data img) ;;
            let diff := neighborDiff img randomIndex in
            ret (if (diff >? Num 100)%num then S anomalyCount else anomalyCount))
         O rnd k) = O.
Proof.
  intros H2. apply repeat_loop_unchanged. intros k0.
  pose proof (uniform_sampled_diff k0 H2) as Hd.
  unfold bind at 1. destruct (randomPixelIndex (data img) rnd k0) as [i k1].
  cbn [fst] in Hd. cbv zeta. rewrite Hd. unfold ret. cbn [fst].
  replace (Num 0 >? Num 100)%num with false; [reflexivity |].
  symmetry. apply ngt_Num_false. lra.
Qed.

Lemma uniform_smoothnessScore (k : nat) :
  (2 <= width img * height img)%Z ->
  fst (repeat_loop 1000
         (fun smoothnessScore =>
            randomIndex <- randomPixelIndex (data img) ;;
            let smoothness := neighborDiff img randomIndex in
            ret (if (smoothness <? Num 20)%num
                 then S smoothnessScore else smoothnessScore))
         O rnd k) = 1000%nat.
Proof.
  intros H2. apply repeat_loop_counts. intros c k0.
  pose proof (uniform_sampled_diff k0 H2) as Hd.
  unfold bind at 1. destruct (randomPixelIndex (data img) rnd k0) as [i k1].
  cbn [fst] in Hd. cbv zeta. rewrite Hd. unfold ret. cbn [fst].
  replace (Num 0 <? Num 20)%num with true; [reflexivity |].
  symmetry. apply ngt_Num. lra.
Qed.

Lemma row_ends_in_buffer (u : R) :
  0 <= u < 1 ->
  let y := Zfloor (u * IZR (height img)) in
  let leftIndex := (y * width img * 4)%Z in
  let rightIndex := ((y * width img + width img - 1) * 4)%Z in
  ((0 <= leftIndex)%Z /\ (leftIndex + 4 <= array_length (data img))%Z
   /\ (leftIndex mod 4 = 0)%Z)
  /\ ((0 <= rightIndex)%Z /\ (rightIndex + 4 <= array_length (data img))%Z
      /\ (rightIndex mod 4 = 0)%Z).
Proof.
  intros Hu0 y leftIndex rightIndex.
  destruct Hwf as (Hw & Hh & Hlen).
  assert (HhR : 1 <= IZR (height img)) by (apply IZR_le; lia).
  assert (Hy0 : (0 <= y)%Z) by (apply Zfloor_lub; simpl; nra).
  assert (Hy1 : (y < height img)%Z).
  { apply lt_IZR. pose proof (Zfloor_bound (u * IZR (height img))) as [B _].
    fold y in B. nra. }
  assert (Hyw : (0 <= y * width img)%Z) by nia.
  assert (Hyw1 : (y * width img + width img <= width img * height img)%Z) by nia.
  unfold leftIndex, rightIndex. rewrite Hlen.
  repeat split; try lia; apply Z_mod_mult.
Qed.

Lemma uniform_symmetryScore (k : nat) :
  fst (repeat_loop sampleRows
         (fun symmetryScore =>
            u <- Math_random ;;
            let y := Zfloor (u * IZR (height img)) in
            let leftIndex := (y * width img * 4)%Z in
            let rightIndex := ((y * width img + width img - 1) * 4)%Z in
            let leftColor :=
              [ toNumber (get (data img) leftIndex);
                toNumber (get (data img) (leftIndex + 1));
                toNumber (get (data img) (leftIndex + 2)) ] in
            let rightColor :=
              [ toNumber (get (data img) rightIndex);
                toNumber (get (data img) (rightIndex + 1));
                toNumber (get (data img) (rightIndex + 2)) ] in
            let diff :=
              fold_left (fun sum vr => (sum + Math.abs (fst vr - snd vr))%num)
                        (combine leftColor rightColor) (Num 0) in
            ret (if (diff <? Num 30)%num then S symmetryScore else symmetryScore))
         O rnd k) = sampleRows.
Proof.
  apply repeat_loop_counts. intros c k0.
  unfold bind, Math_random, ret. cbn [fst]. cbv zeta.
  destruct (row_ends_in_buffer (Hrnd k0)) as ((L0 & L4 & Lm) & (R0 & R4 & Rm)).
  destruct (uniform_get Hwf Hu L0 L4 Lm) as (-> & -> & ->).
  destruct (uniform_get Hwf Hu R0 R4 Rm) as (-> & -> & ->).
  cbn [toNumber combine fold_left fst snd]. unfold ofZ.
  cbn [nsub nadd lift2 lift1 Math.abs].
  rewrite !Rminus_diag, Rabs_R0.
  replace (Num (0 + 0 + 0 + 0) <? Num 30)%num with true; [reflexivity |].
  symmetry. apply ngt_Num. lra.
Qed.

Lemma uniform_pixel_anomalies (k : nat) :
  (2 <= width img * height img)%Z ->
  severity (fst (analyzePixelAnomalies img rnd k)) = Num 0
  /\ pa_detected (fst (analyzePixelAnomalies img rnd k)) = false.
Proof.
  intros H2. unfold analyzePixelAnomalies.
  pose proof (uniform_anomalyCount k H2) as Hc. cbv zeta in Hc.
  rewrite fst_bind. cbv beta zeta. rewrite Hc.
  unfold ret. cbn [fst severity pa_detected].
  rewrite percent_none by (unfold sampleSize; lia).
  split.
  - cbn [Math.round]. rewrite (@round_R_eq _ 0) by lra. reflexivity.
  - apply (proj2 (ngt_Num_false _ _)). lra.
Qed.

Lemma uniform_ai_artifacts (k : nat) :
  (2 <= width img * height img)%Z ->
  confidence (fst (detectAIArtifacts img rnd k)) = Num 100
  /\ ai_detected (fst (detectAIArtifacts img rnd k)) = true.
Proof.
  intros H2. unfold detectAIArtifacts.
  pose proof (uniform_symmetryScore k) as Hs. cbv zeta in Hs.
  rewrite fst_bind. cbv beta zeta. rewrite Hs.
  rewrite fst_bind. cbv beta zeta.
  match goal with
  | |- context [repeat_loop 1000 _ O rnd ?k1] =>
      pose proof (uniform_smoothnessScore k1 H2) as Hm
  end.
  cbv zeta in Hm. rewrite Hm.
  unfold ret. cbn [fst confidence ai_detected].
  change (Num 1000) with (ofNat 1000).
  rewrite (@percent_all sampleRows) by (unfold sampleRows; lia).
  rewrite (@percent_all 1000) by lia.
  cbn [nmul nadd lift2]. split.
  - cbn [Math.round]. rewrite (@round_R_eq _ 100) by lra. reflexivity.
  - apply (proj2 (ngt_Num _ _)). lra.
Qed.

End OneColour.

(** ** The lighting of an image of one colour *)

Lemma uniform_brightness (img : ImageData) (cr cg cb : byte) :
  uniform img cr cg cb ->
  map pixel_brightness (pixels (data img))
  = map (fun _ => (IZR (byteZ cr) + IZR (byteZ cg) + IZR (byteZ cb)) / 3)
        (pixels (data img)).
Proof.
  intros Hu. apply map_ext_in. intros [[[r0 g0] b0] a0] Hin.
  unfold uniform in Hu. rewrite Forall_forall in Hu.
  destruct (Hu _ Hin) as (-> & -> & ->). reflexivity.
Qed.

Lemma constant_variance {A} (c : R) (l : list A) :
  l <> [] -> population_variance (map (fun _ => c) l) = 0.
Proof.
  intros Hl.
  assert (Hn : INR (List.length l) <> 0).
  { apply not_0_INR. destruct l; [contradiction | discriminate]. }
  unfold population_variance.
  assert (Hm : population_mean (map (fun _ => c) l) = c).
  { unfold population_mean. rewrite Rsum_constant, length_map. now field. }
  rewrite Hm, map_map, length_map.
  replace (map (fun _ : A => (c - c) ^ 2) l) with (map (fun _ : A => 0) l)
    by (apply map_ext; intros; ring).
  rewrite Rsum_constant. now field.
Qed.

Lemma uniform_consistencyScore (img : ImageData) (cr cg cb : byte) :
  well_formed img -> uniform img cr cg cb -> spec_consistencyScore img = 100.
Proof.
  intros Hwf Hu. unfold spec_consistencyScore.
  destruct (well_formed_length Hwf) as (n & Hn & Hlen & _).
  rewrite (uniform_brightness Hu), constant_variance.
  - rewrite sqrt_0. rewrite Rmax_right; lra.
  - pose proof (@pixels_length n _ Hlen) as Hp.
    destruct (pixels (data img)); [simpl in Hp; lia | discriminate].
Qed.

Lemma uniform_lighting (img : ImageData) (cr cg cb : byte) :
  well_formed img -> uniform img cr cg cb ->
  ls_score (analyzeLightingAndShadows img) = Num 100
  /\ consistent (analyzeLightingAndShadows img) = true.
Proof.
  intros Hwf Hu.
  destruct (analyzeLightingAndShadows_spec Hwf) as (Hc & Hs & _).
  rewrite (uniform_consistencyScore Hwf Hu) in Hc, Hs.
  rewrite Hc, Hs. split.
  - unfold ofZ. rewrite (@round_R_eq _ 100) by lra. reflexivity.
  - destruct (Rlt_dec 40 100) as [_ | N]; [reflexivity | exfalso; lra].
Qed.

(** ** The colour diversity of small and of one-colour images *)

Lemma range_bounds (lo hi step i : Z) :
  (0 < step)%Z -> In i (range lo hi step) ->
  (lo <= i < hi)%Z /\ ((i - lo) mod step = 0)%Z.
Proof.
  intros Hs Hi. unfold range in Hi. apply in_map_iff in Hi.
  destruct Hi as (k & <- & Hk). apply in_seq in Hk.
  assert (Hk' : (Z.of_nat k < (hi - lo + step - 1) / step)%Z) by lia.
  pose proof (Z.mul_div_le (hi - lo + step - 1) step Hs).
  split; [nia |].
  replace (lo + step * Z.of_nat k - lo)%Z with (Z.of_nat k * step)%Z by lia.
  apply Z_mod_mult.
Qed.

Lemma range_length (lo hi step : Z) :
  List.length (range lo hi step) = Z.to_nat ((hi - lo + step - 1) / step).
Proof. unfold range. now rewrite length_map, length_seq. Qed.

Lemma set_add_length (a : string) (s : set string) :
  (List.length (set_add string_dec a s) <= S (List.length s))%nat.
Proof.
  induction s as [| b s IH]; cbn [set_add List.length]; [lia |].
  destruct (string_dec a b); cbn [List.length]; lia.
Qed.

Lemma fold_set_add_length (f : Z -> string) (l : list Z) (s : set string) :
  (List.length (fold_left (fun colors i => set_add string_dec (f i) colors) l s)
   <= List.length s + List.length l)%nat.
Proof.
  revert s. induction l as [| i l IH]; intros s; cbn [fold_left List.length]; [lia |].
  specialize (IH (set_add string_dec (f i) s)).
  pose proof (set_add_length (f i) s). lia.
Qed.

Lemma fold_set_add_constant (f : Z -> string) (key : string) (l : list Z) :
  (forall i, In i l -> f i = key) -> l <> [] ->
  fold_left (fun colors i => set_add string_dec (f i) colors) l (empty_set string)
  = [key].
Proof.
  intros Hf Hl.
  assert (H : forall s, s = [] \/ s = [key] ->
                        fold_left (fun colors i => set_add string_dec (f i) colors) l s
                        = match l with [] => s | _ => [key] end).
  { clear Hl. induction l as [| i l IH]; intros s Hs; [reflexivity |].
    cbn [fold_left]. rewrite (Hf i) by now left.
    assert (Hadd : set_add string_dec key s = [key]).
    { destruct Hs as [-> | ->]; cbn [set_add]; [reflexivity |].
      destruct (string_dec key key); [reflexivity | contradiction]. }
    rewrite Hadd, IH; [destruct l; reflexivity | | now right].
    intros j Hj. apply Hf. now right. }
  rewrite H by now left. destruct l; [contradiction | reflexivity].
Qed.

Lemma analyzeSemanticLogic_colors (img : ImageData) :
  let diversity := INR (List.length (sampledColors (data img))) / 250 * 100 in
  sl_score (analyzeSemanticLogic img) = Math.round (Math.min (Num 100) (Num diversity))
  /\ logical (analyzeSemanticLogic img) = (Math.min (Num 100) (Num diversity) >? Num 30)%num.
Proof.
  intros diversity. unfold analyzeSemanticLogic. cbn [sl_score logical].
  change (fold_left _ _ _) with (sampledColors (data img)).
  unfold ofNat, ofZ. rewrite <- INR_IZR_INZ.
  rewrite ndiv_Num by lra. cbn [nmul lift2]. fold diversity. split; reflexivity.
Qed.

Lemma sampledColors_length (d : list byte) :
  (List.length (sampledColors d)
   <= Z.to_nat ((Z.min 10000 (array_length d) + 39) / 40))%nat.
Proof.
  unfold sampledColors.
  pose proof (fold_set_add_length (colorKey d)
                (range 0 (Z.min 10000 (array_length d)) 40) (empty_set string)) as H.
  rewrite range_length in H. cbn [empty_set List.length] in H.
  replace (Z.min 10000 (array_length d) - 0 + 40 - 1)%Z
    with (Z.min 10000 (array_length d) + 39)%Z in H by lia.
  exact H.
Qed.

(** X5. The colour diversity is counted over at most one sample per 40
    bytes, so an image of at most 750 pixels (3000 bytes) can reach at
    most 75 of the 250 colours that score 100: [analyzeSemanticLogic]
    returns [logical = false] and a score of at most 30 for every such
    image, whatever its colours. *)
Theorem X5_small_image_diversity (img : ImageData) :
  (array_length (data img) <= 3000)%Z ->
  logical (analyzeSemanticLogic img) = false
  /\ between 0 30 (sl_score (analyzeSemanticLogic img)).
Proof.
  intros Hsmall.
  destruct (analyzeSemanticLogic_colors img) as [Hs Hl]. rewrite Hs, Hl.
  pose proof (sampledColors_length (data img)) as Hc.
  assert (H75 : (List.length (sampledColors (data img)) <= 75)%nat).
  { assert ((Z.min 10000 (array_length (data img)) + 39) / 40 < 76)%Z.
    { apply Z.div_lt_upper_bound; lia. }
    lia. }
  apply le_INR in H75. rewrite (INR_IZR_INZ 75) in H75.
  change (Z.of_nat 75) with 75%Z in H75.
  pose proof (pos_INR (List.length (sampledColors (data img)))) as H0.
  set (n := INR _) in *. cbn [Math.min lift2].
  rewrite Rmin_right by lra. split.
  - apply (proj2 (ngt_Num_false _ _)). lra.
  - apply (round_between 0 30). cbn [between]. lra.
Qed.

Lemma X5_small_image_diversity_witness :
  (array_length (data four_pixels) <= 3000)%Z
  /\ logical (analyzeSemanticLogic four_pixels) = false
  /\ between 0 30 (sl_score (analyzeSemanticLogic four_pixels)).
Proof.
  assert (H : (array_length (data four_pixels) <= 3000)%Z) by (cbn; lia).
  split; [exact H |].
  exact (@X5_small_image_diversity four_pixels H).
Defined.

Lemma uniform_semantic (img : ImageData) (cr cg cb : byte) :
  well_formed img -> uniform img cr cg cb ->
  sl_score (analyzeSemanticLogic img) = Num 0
  /\ logical (analyzeSemanticLogic img) = false.
Proof.
  intros Hwf Hu.
  destruct (analyzeSemanticLogic_colors img) as [Hs Hl]. rewrite Hs, Hl.
  destruct (well_formed_length Hwf) as (n & Hn & Hlen & _).
  assert (Hone : List.length (sampledColors (data img)) = 1%nat).
  { unfold sampledColors.
    rewrite (@fold_set_add_constant (colorKey (data img))
               (colorKey (data img) 0)); [reflexivity | |].
    - intros i Hi. apply range_bounds in Hi; [| lia].
      destruct Hi as [[I0 I1] Im]. rewrite Z.sub_0_r in Im.
      assert (I4 : (i mod 4 = 0)%Z).
      { pose proof (Z.div_mod i 40 ltac:(lia)) as D. rewrite Im in D.
        replace i with ((i / 40 * 10) * 4)%Z by lia. apply Z_mod_mult. }
      assert (Ilen : (i + 4 <= array_length (data img))%Z).
      { pose proof (Z.div_mod i 4 ltac:(lia)) as D. rewrite I4 in D.
        unfold array_length in *. rewrite Hlen in *. lia. }
      assert (Z0 : (0 + 4 <= array_length (data img))%Z)
        by (unfold array_length; rewrite Hlen; lia).
      unfold colorKey.
      destruct (uniform_get Hwf Hu I0 Ilen I4) as (-> & -> & ->).
      destruct (@uniform_get img cr cg cb 0 Hwf Hu ltac:(lia) Z0 eq_refl)
        as (-> & -> & ->).
      reflexivity.
    - unfold range.
      assert (0 < (Z.min 10000 (array_length (data img)) - 0 + 40 - 1) / 40)%Z.
      { apply Z.div_str_pos. unfold array_length. rewrite Hlen. lia. }
      destruct (Z.to_nat _) eqn:E; [lia | discriminate]. }
  rewrite Hone. change (INR 1) with 1. cbn [Math.min lift2].
  rewrite Rmin_right by lra. split.
  - cbn [Math.round]. rewrite (@round_R_eq _ 0) by lra. reflexivity.
  - apply (proj2 (ngt_Num_false _ _)). lra.
Qed.

(** ** The colour diversity reads the first 10000 bytes only *)

Lemma get_firstn (d : list byte) (n : nat) (i : Z) :
  (i < Z.of_nat n)%Z -> get (firstn n d) i = get d i.
Proof.
  intros Hi. unfold get. destruct (Z.ltb_spec i 0); [reflexivity |].
  rewrite nth_error_firstn.
  destruct (Nat.ltb_spec (Z.to_nat i) n); [reflexivity | lia].
Qed.

Lemma firstn_length_min (d1 d2 : list byte) (n : nat) :
  firstn n d1 = firstn n d2 ->
  Z.min (Z.of_nat n) (array_length d1) = Z.min (Z.of_nat n) (array_length d2).
Proof.
  intros E. apply (f_equal (@List.length byte)) in E.
  rewrite !length_firstn in E. unfold array_length. lia.
Qed.

Lemma sampledColors_prefix (d1 d2 : list byte) :
  firstn (Z.to_nat 10000) d1 = firstn (Z.to_nat 10000) d2 ->
  sampledColors d1 = sampledColors d2.
Proof.
  intros E. unfold sampledColors.
  pose proof (firstn_length_min _ _ _ E) as Hmin.
  rewrite Z2Nat.id in Hmin by lia. rewrite <- Hmin.
  set (l := range 0 (Z.min 10000 (array_length d1)) 40).
  assert (Hl : forall i, In i l -> colorKey d1 i = colorKey d2 i).
  { intros i Hi. apply range_bounds in Hi; [| lia].
    destruct Hi as [[I0 I1] Im].
    assert (Hg : forall c, (0 <= c <= 2)%Z -> get d1 (i + c) = get d2 (i + c)).
    { intros c Hc.
      destruct (Z.le_gt_cases 10000 (array_length d1)) as [Hbig | Hsmall].
      - rewrite Z.sub_0_r in Im.
        pose proof (Z.div_mod i 40 ltac:(lia)) as D. rewrite Im in D.
        assert (i + c < Z.of_nat (Z.to_nat 10000))%Z by lia.
        rewrite <- (@get_firstn d1 (Z.to_nat 10000)),
                <- (@get_firstn d2 (Z.to_nat 10000)) by assumption.
        now rewrite E.
      - assert (d1 = d2); [| now subst].
        assert (L1 : (List.length d1 <= Z.to_nat 10000)%nat)
          by (unfold array_length in *; lia).
        assert (L2 : (List.length d2 <= Z.to_nat 10000)%nat)
          by (unfold array_length in *; lia).
        rewrite <- (@firstn_all2 _ _ d1 L1), E. apply (@firstn_all2 _ _ d2 L2). }
    pose proof (Hg 0%Z ltac:(lia)) as G0. rewrite Z.add_0_r in G0.
    unfold colorKey. rewrite G0, (Hg 1%Z), (Hg 2%Z) by lia. reflexivity. }
  generalize (empty_set string). clearbody l.
  induction l as [| i l IH]; intros s; [reflexivity |].
  cbn [fold_left]. rewrite (Hl i) by now left.
  apply IH. intros j Hj. apply Hl. now right.
Qed.

(** X6. [analyzeSemanticLogic] reads the first 10000 bytes of the buffer
    only: two images whose buffers agree on their first 10000 bytes get
    the same result, whatever their sizes and the rest of their pixels. *)
Theorem X6_diversity_reads_first_bytes (img1 img2 : ImageData) :
  firstn (Z.to_nat 10000) (data img1) = firstn (Z.to_nat 10000) (data img2) ->
  analyzeSemanticLogic img1 = analyzeSemanticLogic img2.
Proof.
  intros E. unfold analyzeSemanticLogic.
  repeat match goal with
         | |- context [fold_left ?f (range 0 (Z.min 10000 (array_length (data ?i))) 40) ?e] =>
             change (fold_left f (range 0 (Z.min 10000 (array_length (data i))) 40) e)
               with (sampledColors (data i))
         end.
  now rewrite (sampledColors_prefix _ _ E).
Qed.

Lemma X6_diversity_reads_first_bytes_witness :
  firstn (Z.to_nat 10000) (data (strip_ending x00))
  = firstn (Z.to_nat 10000) (data (strip_ending xff))
  /\ analyzeSemanticLogic (strip_ending x00) = analyzeSemanticLogic (strip_ending xff).
Proof.
  assert (H : firstn (Z.to_nat 10000) (data (strip_ending x00))
              = firstn (Z.to_nat 10000) (data (strip_ending xff)))
    by (vm_compute; reflexivity).
  split; [exact H |].
  exact (@X6_diversity_reads_first_bytes (strip_ending x00) (strip_ending xff) H).
Defined.

(** ** The alpha channel is never read *)

Lemma repeat_loop_ext {A} (body1 body2 : A -> Rand A) (rnd : nat -> R) :
  (forall a k, body1 a rnd k = body2 a rnd k) ->
  forall n a k, repeat_loop n body1 a rnd k = repeat_loop n body2 a rnd k.
Proof.
  intros Hb n. induction n as [| n IH]; intros a k; cbn [repeat_loop];
    [reflexivity |].
  unfold bind. rewrite Hb. destruct (body2 a rnd k) as [a' k']. apply IH.
Qed.

Lemma bind_ext {A B} (c1 c2 : Rand A) (f1 f2 : A -> Rand B) (rnd : nat -> R)
    (k : nat) :
  c1 rnd k = c2 rnd k ->
  (forall a k', f1 a rnd k' = f2 a rnd k') ->
  bind c1 f1 rnd k = bind c2 f2 rnd k.
Proof.
  intros Hc Hf. unfold bind. rewrite Hc. destruct (c2 rnd k). apply Hf.
Qed.

Lemma fold_left_ext_in {A B} (f g : A -> B -> A) (l : list B) :
  (forall a i, In i l -> f a i = g a i) ->
  forall a, fold_left f l a = fold_left g l a.
Proof.
  induction l as [| i l IH]; intros H a; cbn [fold_left]; [reflexivity |].
  rewrite H by now left. apply IH. intros a' j Hj. apply H. now right.
Qed.

Lemma get_outside (d : list byte) (j : Z) :
  (j < 0 \/ array_length d <= j)%Z -> get d j = None.
Proof.
  intros Hj. unfold get. destruct (Z.ltb_spec j 0); [reflexivity |].
  apply nth_error_None. unfold array_length in Hj. lia.
Qed.

(** Buffers of the same pixel count with the same colours agree at every
    offset that is not an alpha value. *)
Lemma colours_get (n : nat) (d1 d2 : list byte) (i c : Z) :
  List.length d1 = (4 * n)%nat -> List.length d2 = (4 * n)%nat ->
  colours d1 = colours d2 ->
  (i mod 4 = 0)%Z -> (0 <= c <= 2)%Z ->
  get d1 (i + c) = get d2 (i + c).
Proof.
  intros L1 L2 Hc Hi Hc2.
  pose proof (Z.div_mod i 4 ltac:(lia)) as D. rewrite Hi in D.
  destruct (Z.lt_ge_cases i 0) as [Hneg | Hpos].
  { rewrite !get_outside; [reflexivity | left; lia | left; lia]. }
  destruct (Z.lt_ge_cases i (4 * Z.of_nat n)) as [Hin | Hout].
  2:{ rewrite !get_outside; [reflexivity | |];
        right; unfold array_length; lia. }
  assert (Hq : (Z.to_nat (i / 4) < n)%nat) by lia.
  assert (Ei : i = (4 * Z.of_nat (Z.to_nat (i / 4)))%Z) by lia.
  destruct (@pixels_get n d1 _ L1 Hq) as (r1 & g1 & b1 & a1 & N1 & R1 & G1 & B1).
  destruct (@pixels_get n d2 _ L2 Hq) as (r2 & g2 & b2 & a2 & N2 & R2 & G2 & B2).
  rewrite <- Ei in R1, G1, B1, R2, G2, B2.
  assert (E : (r1, g1, b1) = (r2, g2, b2)).
  { unfold colours in Hc.
    apply (f_equal (fun l => nth_error l (Z.to_nat (i / 4)))) in Hc.
    rewrite !nth_error_map, N1, N2 in Hc. cbn in Hc. congruence. }
  injection E as -> -> ->.
  assert (Hcases : c = 0%Z \/ c = 1%Z \/ c = 2%Z) by lia.
  destruct Hcases as [-> | [-> | ->]];
    rewrite ?Z.add_0_r; congruence.
Qed.

Section SameColours.

Variables img1 img2 : ImageData.
Hypothesis Hwf1 : well_formed img1.
Hypothesis Hwf2 : well_formed img2.
Hypothesis Hwidth : width img1 = width img2.
Hypothesis Hheight : height img1 = height img2.
Hypothesis Hcolours : colours (data img1) = colours (data img2).

Lemma same_length : array_length (data img1) = array_length (data img2).
Proof.
  destruct Hwf1 as (_ & _ & L1). destruct Hwf2 as (_ & _ & L2).
  rewrite L1, L2, Hwidth, Hheight. reflexivity.
Qed.

Lemma same_get (i c : Z) :
  (i mod 4 = 0)%Z -> (0 <= c <= 2)%Z ->
  get (data img1) (i + c) = get (data img2) (i + c).
Proof.
  destruct (well_formed_length Hwf1) as (n & _ & L1 & _).
  pose proof same_length as L. unfold array_length in L.
  apply (@colours_get n); [exact L1 | lia | exact Hcolours].
Qed.

Lemma same_get0 (i : Z) :
  (i mod 4 = 0)%Z -> get (data img1) i = get (data img2) i.
Proof.
  intros Hi. pose proof (@same_get i 0%Z Hi ltac:(lia)) as H.
  now rewrite Z.add_0_r in H.
Qed.

Lemma same_getNeighborAverage (index : Z) :
  (index mod 4 = 0)%Z ->
  getNeighborAverage (data img1) index (width img1)
  = getNeighborAverage (data img2) index (width img2).
Proof.
  intros Hi. unfold getNeighborAverage.
  rewrite <- Hwidth, <- same_length.
  set (ns := filter _ _).
  assert (Hns : forall i, In i ns -> (i mod 4 = 0)%Z).
  { intros i Hin. apply filter_In in Hin. destruct Hin as [Hin _].
    pose proof (Z.div_mod index 4 ltac:(lia)) as D. rewrite Hi in D.
    set (t := (index / 4)%Z) in *.
    assert (exists s : Z, i = (s * 4)%Z) as [s ->].
    { cbn [In] in Hin. destruct Hin as [<- | [<- | [<- | [<- | []]]]].
      - exists (t - width img1)%Z. lia.
      - exists (t + width img1)%Z. lia.
      - exists (t - 1)%Z. lia.
      - exists (t + 1)%Z. lia. }
    apply Z_mod_mult. }
  rewrite (@fold_left_ext_in _ _
             (fun (acc : RGB) i =>
                {| r := (r acc + orZero (get (data img1) i))%num;
                   g := (g acc + orZero (get (data img1) (i + 1)))%num;
                   b := (b acc + orZero (get (data img1) (i + 2)))%num |})
             (fun (acc : RGB) i =>
                {| r := (r acc + orZero (get (data img2) i))%num;
                   g := (g acc + orZero (get (data img2) (i + 1)))%num;
                   b := (b acc + orZero (get (data img2) (i + 2)))%num |}) ns);
    [reflexivity |].
  intros acc i Hin. specialize (Hns i Hin).
  now rewrite (@same_get0 i Hns), (@same_get i 1 Hns), (@same_get i 2 Hns) by lia.
Qed.

Lemma same_neighborDiff (index : Z) :
  (index mod 4 = 0)%Z -> neighborDiff img1 index = neighborDiff img2 index.
Proof.
  intros Hi. unfold neighborDiff.
  now rewrite (@same_getNeighborAverage index Hi), (@same_get0 index Hi),
    (@same_get index 1 Hi), (@same_get index 2 Hi) by lia.
Qed.

Lemma same_randomPixelIndex (rnd : nat -> R) (k : nat) :
  randomPixelIndex (data img1) rnd k = randomPixelIndex (data img2) rnd k
  /\ (fst (randomPixelIndex (data img1) rnd k) mod 4 = 0)%Z.
Proof.
  unfold randomPixelIndex, bind, Math_random, ret. cbn [fst].
  rewrite same_length. split; [reflexivity | apply Z_mod_mult].
Qed.

Lemma same_analyzePixelAnomalies (rnd : nat -> R) (k : nat) :
  analyzePixelAnomalies img1 rnd k = analyzePixelAnomalies img2 rnd k.
Proof.
  unfold analyzePixelAnomalies.
  apply bind_ext; [| reflexivity].
  apply repeat_loop_ext. intros c k0. unfold bind.
  destruct (same_randomPixelIndex rnd k0) as [<- Hm].
  destruct (randomPixelIndex (data img1) rnd k0) as [i k1]. cbn [fst] in Hm.
  cbv zeta. now rewrite (@same_neighborDiff i Hm).
Qed.

Lemma same_analyzeLightingAndShadows :
  analyzeLightingAndShadows img1 = analyzeLightingAndShadows img2.
Proof.
  unfold analyzeLightingAndShadows. cbv zeta.
  rewrite <- same_length.
  assert (E : map (fun i => ((toNumber (get (data img1) i)
                              + toNumber (get (data img1) (i + 1))
                              + toNumber (get (data img1) (i + 2))) / Num 3)%num)
                  (range 0 (array_length (data img1)) 4)
              = map (fun i => ((toNumber (get (data img2) i)
                                + toNumber (get (data img2) (i + 1))
                                + toNumber (get (data img2) (i + 2))) / Num 3)%num)
                    (range 0 (array_length (data img1)) 4)).
  { apply map_ext_in. intros i Hi. apply range_bounds in Hi; [| lia].
    destruct Hi as [_ Hm]. rewrite Z.sub_0_r in Hm.
    now rewrite (@same_get0 i Hm), (@same_get i 1 Hm), (@same_get i 2 Hm) by lia. }
  now rewrite E.
Qed.

Lemma same_detectAIArtifacts (rnd : nat -> R) (k : nat) :
  detectAIArtifacts img1 rnd k = detectAIArtifacts img2 rnd k.
Proof.
  unfold detectAIArtifacts. cbv zeta. rewrite <- Hwidth, <- Hheight.
  apply bind_ext.
  - apply repeat_loop_ext. intros c k0. unfold bind, Math_random, ret.
    set (y := Zfloor _).
    assert (Hl : ((y * width img1 * 4) mod 4 = 0)%Z) by apply Z_mod_mult.
    assert (Hr : (((y * width img1 + width img1 - 1) * 4) mod 4 = 0)%Z)
      by apply Z_mod_mult.
    now rewrite (@same_get0 _ Hl), (@same_get _ 1 Hl), (@same_get _ 2 Hl),
      (@same_get0 _ Hr), (@same_get _ 1 Hr), (@same_get _ 2 Hr) by lia.
  - intros sym k1. apply bind_ext; [| reflexivity].
    apply repeat_loop_ext. intros c k0. unfold bind.
    destruct (same_randomPixelIndex rnd k0) as [<- Hm].
    destruct (randomPixelIndex (data img1) rnd k0) as [i k2]. cbn [fst] in Hm.
    now rewrite (@same_neighborDiff i Hm).
Qed.

Lemma same_sampledColors :
  sampledColors (data img1) = sampledColors (data img2).
Proof.
  unfold sampledColors. rewrite <- same_length.
  apply fold_left_ext_in. intros s i Hi. apply range_bounds in Hi; [| lia].
  destruct Hi as [_ Hm]. rewrite Z.sub_0_r in Hm.
  assert (H4 : (i mod 4 = 0)%Z).
  { pose proof (Z.div_mod i 40 ltac:(lia)) as D. rewrite Hm in D.
    replace i with ((i / 40 * 10) * 4)%Z by lia. apply Z_mod_mult. }
  unfold colorKey.
  now rewrite (@same_get0 i H4), (@same_get i 1 H4), (@same_get i 2 H4) by lia.
Qed.

Lemma same_analyzeSemanticLogic :
  analyzeSemanticLogic img1 = analyzeSemanticLogic img2.
Proof.
  unfold analyzeSemanticLogic.
  repeat match goal with
         | |- context [fold_left ?f (range 0 (Z.min 10000 (array_length (data ?i))) 40) ?e] =>
             change (fold_left f (range 0 (Z.min 10000 (array_length (data i))) 40) e)
               with (sampledColors (data i))
         end.
  now rewrite same_sampledColors.
Qed.

(** X7. No detector reads the alpha channel: two well-formed images of the
    same width and height whose pixels have the same red, green and blue
    values get the same detector results and the same heat map from the
    same file facts and random values. *)
Theorem X7_alpha_channel_ignored (file : File) (rnd : nat -> R) (k : nat) :
  runPipeline file img1 rnd k = runPipeline file img2 rnd k.
Proof.
  unfold runPipeline, runDetectors, bind.
  rewrite same_analyzePixelAnomalies.
  destruct (analyzePixelAnomalies img2 rnd k) as [pa k1].
  rewrite same_detectAIArtifacts.
  destruct (detectAIArtifacts img2 rnd k1) as [ai k2].
  rewrite same_analyzeLightingAndShadows, same_analyzeSemanticLogic.
  reflexivity.
Qed.

End SameColours.

Lemma X7_alpha_channel_ignored_witness :
  (well_formed gray_pair /\ well_formed gray_pair_transparent
   /\ width gray_pair = width gray_pair_transparent
   /\ height gray_pair = height gray_pair_transparent
   /\ colours (data gray_pair) = colours (data gray_pair_transparent))
  /\ runPipeline vacation_jpg gray_pair (constant_source 0) O
     = runPipeline vacation_jpg gray_pair_transparent (constant_source 0) O.
Proof.
  assert (Hwf1 : well_formed gray_pair) by (unfold well_formed; cbn; lia).
  assert (Hwf2 : well_formed gray_pair_transparent)
    by (unfold well_formed; cbn; lia).
  assert (Hw : width gray_pair = width gray_pair_transparent) by reflexivity.
  assert (Hh : height gray_pair = height gray_pair_transparent) by reflexivity.
  assert (Hc : colours (data gray_pair) = colours (data gray_pair_transparent))
    by reflexivity.
  split; [split; [| split; [| split; [| split]]]; assumption |].
  exact (@X7_alpha_channel_ignored gray_pair gray_pair_transparent
           Hwf1 Hwf2 Hw Hh Hc vacation_jpg (constant_source 0) O).
Defined.

(** ** Flags and scores of the sampled detectors *)

Lemma analyzePixelAnomalies_percent (img : ImageData) (rnd : nat -> R) (k : nat) :
  exists s : R,
    0 <= s <= 100
    /\ severity (fst (analyzePixelAnomalies img rnd k)) = ofZ (Math.round_R s)
    /\ pa_detected (fst (analyzePixelAnomalies img rnd k)) = (Num s >? Num 15)%num.
Proof.
  pose proof (anomalyCount_le img rnd k) as Hc. cbv zeta in Hc.
  unfold analyzePixelAnomalies. rewrite fst_bind. cbv beta zeta.
  set (c := fst (repeat_loop sampleSize _ O rnd k)) in *. clearbody c.
  unfold ret. cbn [fst severity pa_detected].
  destruct (@percent_between c sampleSize Hc) as [E B];
    [unfold sampleSize; lia |].
  rewrite E. exists (INR c / INR sampleSize * 100).
  split; [exact B |]. split; reflexivity.
Qed.

Lemma symmetryScore_le (img : ImageData) (rnd : nat -> R) (k : nat) :
  (fst (repeat_loop sampleRows
          (fun symmetryScore =>
             u <- Math_random ;;
             let y := Zfloor (u * IZR (height img)) in
             let leftIndex := (y * width img * 4)%Z in
             let rightIndex := ((y * width img + width img - 1) * 4)%Z in
             let leftColor :=
               [ toNumber (get (data img) leftIndex);
                 toNumber (get (data img) (leftIndex + 1));
                 toNumber (get (data img) (leftIndex + 2)) ] in
             let rightColor :=
               [ toNumber (get (data img) rightIndex);
                 toNumber (get (data img) (rightIndex + 1));
                 toNumber (get (data img) (rightIndex + 2)) ] in
             let diff :=
               fold_left (fun sum vr => (sum + Math.abs (fst vr - snd vr))%num)
                         (combine leftColor rightColor) (Num 0) in
             ret (if (diff <? Num 30)%num then S symmetryScore else symmetryScore))
          O rnd k) <= sampleRows)%nat.
Proof.
  apply repeat_loop_counter. intros c k0.
  unfold bind, Math_random, ret. cbv zeta. cbn [fst].
  match goal with |- context [if ?b then _ else _] => destruct b end; lia.
Qed.

Lemma smoothnessScore_le (img : ImageData) (rnd : nat -> R) (k : nat) :
  (fst (repeat_loop 1000
          (fun smoothnessScore =>
             randomIndex <- randomPixelIndex (data img) ;;
             let smoothness := neighborDiff img randomIndex in
             ret (if (smoothness <? Num 20)%num
                  then S smoothnessScore else smoothnessScore))
          O rnd k) <= 1000)%nat.
Proof.
  apply repeat_loop_counter. intros c k0.
  unfold randomPixelIndex, bind, Math_random, ret. cbv zeta. cbn [fst].
  match goal with |- context [if ?b then _ else _] => destruct b end; lia.
Qed.

Lemma detectAIArtifacts_percent (img : ImageData) (rnd : nat -> R) (k : nat) :
  exists c : R,
    0 <= c <= 100
    /\ confidence (fst (detectAIArtifacts img rnd k)) = ofZ (Math.round_R c)
    /\ ai_detected (fst (detectAIArtifacts img rnd k)) = (Num c >? Num 60)%num.
Proof.
  pose proof (symmetryScore_le img rnd k) as Hs. cbv zeta in Hs.
  unfold detectAIArtifacts. rewrite fst_bind. cbv beta zeta.
  set (sym := fst (repeat_loop sampleRows _ O rnd k)) in *. clearbody sym.
  rewrite fst_bind. cbv beta zeta.
  match goal with
  | |- context [repeat_loop 1000 _ O rnd ?k1] =>
      pose proof (smoothnessScore_le img rnd k1) as Hm
  end.
  cbv zeta in Hm.
  set (sm := fst (repeat_loop 1000 _ O rnd _)) in *. clearbody sm.
  unfold ret. cbn [fst confidence ai_detected].
  destruct (@percent_between sym sampleRows Hs) as [E1 B1];
    [unfold sampleRows; lia |].
  change (Num 1000) with (ofNat 1000).
  destruct (@percent_between sm 1000 Hm) as [E2 B2]; [lia |].
  rewrite E1, E2. clear E1 E2.
  generalize dependent (INR sym / INR sampleRows * 100).
  generalize dependent (INR sm / INR 1000 * 100).
  intros u Bu v Bv. cbn [nmul nadd lift2].
  exists (v * 0.3 + u * 0.7). split; [lra |]. split; reflexivity.
Qed.

(** ** The calls of [Math.random()] *)

Lemma repeat_loop_position {A} (body : A -> Rand A) (rnd : nat -> R) (c : nat) :
  (forall a k, snd (body a rnd k) = (k + c)%nat) ->
  forall n a k, snd (repeat_loop n body a rnd k) = (k + n * c)%nat.
Proof.
  intros Hb n. induction n as [| n IH]; intros a k; cbn [repeat_loop].
  - unfold ret. cbn [snd]. lia.
  - unfold bind. specialize (Hb a k). destruct (body a rnd k) as [a' k'].
    cbn [snd] in Hb. subst k'. rewrite IH. lia.
Qed.

Lemma snd_bind {A B} (c : Rand A) (f : A -> Rand B) (rnd0 : nat -> R) (k : nat) :
  snd (bind c f rnd0 k) = snd (f (fst (c rnd0 k)) rnd0 (snd (c rnd0 k))).
Proof. unfold bind. now destruct (c rnd0 k). Qed.

Lemma snd_ret {A} (a : A) (rnd0 : nat -> R) (k : nat) : snd (ret a rnd0 k) = k.
Proof. reflexivity. Qed.

Lemma analyzePixelAnomalies_position (img : ImageData) (rnd : nat -> R) (k : nat) :
  snd (analyzePixelAnomalies img rnd k) = (k + 1000)%nat.
Proof.
  unfold analyzePixelAnomalies. rewrite snd_bind. cbv beta zeta.
  rewrite snd_ret.
  rewrite (@repeat_loop_position _ _ rnd 1%nat).
  - unfold sampleSize. lia.
  - intros a k0. unfold randomPixelIndex, bind, Math_random, ret. cbn [snd]. lia.
Qed.

Lemma detectAIArtifacts_position (img : ImageData) (rnd : nat -> R) (k : nat) :
  snd (detectAIArtifacts img rnd k) = (k + 1050)%nat.
Proof.
  unfold detectAIArtifacts. cbv zeta. rewrite snd_bind. cbv beta.
  rewrite snd_bind. cbv beta. rewrite snd_ret.
  rewrite (@repeat_loop_position _ _ rnd 1%nat).
  - rewrite (@repeat_loop_position _ _ rnd 1%nat).
    + unfold sampleRows. lia.
    + intros a k0. unfold bind, Math_random, ret. cbn [snd]. lia.
  - intros a k0. unfold randomPixelIndex, bind, Math_random, ret. cbn [snd]. lia.
Qed.

Lemma runDetectors_position (file : File) (img : ImageData) (rnd : nat -> R)
    (k : nat) :
  snd (runDetectors file img rnd k) = (k + 2050)%nat.
Proof.
  unfold runDetectors. rewrite snd_bind. cbv beta zeta.
  rewrite snd_bind. cbv beta. rewrite snd_ret.
  rewrite detectAIArtifacts_position, analyzePixelAnomalies_position. lia.
Qed.

Lemma heatmap_loop (rnd : nat -> R) (n : nat) :
  forall (acc : list Region) (k : nat),
    repeat_loop n
      (fun regions =>
         u1 <- Math_random ;;
         u2 <- Math_random ;;
         u3 <- Math_random ;;
         u4 <- Math_random ;;
         u5 <- Math_random ;;
         ret (regions ++
              [ {| x := u1 * 0.8;
                   y := u2 * 0.8;
                   rwidth := 0.1 + u3 * 0.15;
                   rheight := 0.1 + u4 * 0.15;
                   intensity := 0.3 + u5 * 0.7 |} ])%list)
      acc rnd k
    = ((acc ++ regions_from rnd k n)%list, (k + 5 * n)%nat).
Proof.
  induction n as [| n IH]; intros acc k; cbn [repeat_loop].
  - unfold ret, regions_from. cbn [seq map]. rewrite app_nil_r. f_equal. lia.
  - unfold bind at 1. rewrite heatmap_step. rewrite IH.
    f_equal; [| lia]. rewrite <- app_assoc. f_equal.
    unfold regions_from. cbn [seq map app]. f_equal.
    + f_equal; f_equal; lia.
    + rewrite <- seq_shift, map_map. apply map_ext. intros j.
      f_equal; f_equal; lia.
Qed.

Lemma generateHeatmap_regions (img : ImageData) (s c : R) (rnd : nat -> R) (k : nat) :
  generateHeatmap img (Num s) (Num c) rnd k
  = (regions_from rnd k (regionCount s c), (k + 5 * regionCount s c)%nat).
Proof.
  unfold generateHeatmap. cbn [nadd lift2]. rewrite ndiv_Num by lra.
  cbn [Math.floor]. fold (regionCount s c).
  now rewrite heatmap_loop.
Qed.

Lemma regions_from_length (rnd : nat -> R) (k n : nat) :
  List.length (regions_from rnd k n) = n.
Proof. unfold regions_from. now rewrite length_map, length_seq. Qed.

(** ** Scores are whole numbers *)

Lemma ngt_ofZ (u v : Z) : (ofZ u >? ofZ v)%num = (v <? u)%Z.
Proof.
  unfold ofZ, ngt. destruct (Rlt_dec (IZR v) (IZR u)) as [H | H];
    destruct (Z.ltb_spec v u) as [L | L]; try reflexivity.
  - apply lt_IZR in H. lia.
  - exfalso. apply H. now apply IZR_lt.
Qed.

Lemma clamp_ofZ (m : Z) :
  (0 <= m)%Z ->
  clamp (ofZ m) = ofZ (Z.min 100 m)
  /\ clamp (Math.max (Num 0) (Num 100 - ofZ m)) = ofZ (100 - Z.min 100 m).
Proof.
  intros Hm. unfold clamp, ofZ. cbn [Math.min Math.max nsub lift2].
  assert (H0 : 0 <= IZR m) by (now apply IZR_le).
  destruct (Z.le_gt_cases m 100) as [Hle | Hgt].
  - assert (IZR m <= 100) by (now apply IZR_le).
    rewrite Z.min_r by lia. rewrite minus_IZR. split; f_equal.
    + rewrite (Rmax_right 0 (IZR m)) by lra. rewrite Rmin_right by lra. reflexivity.
    + rewrite (Rmax_right 0 (100 - IZR m)) by lra.
      rewrite (Rmax_right 0 (100 - IZR m)) by lra.
      rewrite Rmin_right by lra. reflexivity.
  - assert (100 < IZR m) by (now apply IZR_lt).
    rewrite Z.min_l by lia. split; f_equal.
    + rewrite (Rmax_right 0 (IZR m)) by lra. rewrite Rmin_left by lra. reflexivity.
    + rewrite (Rmax_left 0 (100 - IZR m)) by lra.
      rewrite (Rmax_left 0 0) by lra.
      rewrite Rmin_right by lra. reflexivity.
Qed.

Lemma runDetectors_integers (file : File) (img : ImageData) (rnd : nat -> R)
    (k : nat) :
  well_formed img ->
  let d := fst (runDetectors file img rnd k) in
  exists zs zl zc zm : Z,
    severity (pixelAnomalies d) = ofZ zs
    /\ ls_score (lightingShadows d) = ofZ zl
    /\ confidence (aiArtifacts d) = ofZ zc
    /\ sl_score (semanticLogic d) = ofZ zm
    /\ (0 <= zs <= 100)%Z /\ (0 <= zl <= 100)%Z
    /\ (0 <= zc <= 100)%Z /\ (0 <= zm <= 100)%Z.
Proof.
  intros Hwf d. unfold d. rewrite runDetectors_eq.
  cbn [pixelAnomalies lightingShadows aiArtifacts semanticLogic].
  destruct (analyzePixelAnomalies_percent img rnd k) as (s & Bs & Es & _).
  destruct (analyzeLightingAndShadows_spec Hwf) as (_ & El & Bl).
  destruct (detectAIArtifacts_percent img rnd (snd (analyzePixelAnomalies img rnd k)))
    as (c & Bc & Ec & _).
  destruct (analyzeSemanticLogic_colors img) as [Em _].
  exists (Math.round_R s), (Math.round_R (spec_consistencyScore img)),
    (Math.round_R c),
    (Math.round_R (Rmin 100 (INR (List.length (sampledColors (data img))) / 250 * 100))).
  split; [exact Es |]. split; [exact El |]. split; [exact Ec |].
  split; [exact Em |].
  split; [apply (round_R_between 0 100); exact Bs |].
  split; [apply (round_R_between 0 100); exact Bl |].
  split; [apply (round_R_between 0 100); exact Bc |].
  apply (round_R_between 0 100).
  pose proof (pos_INR (List.length (sampledColors (data img)))) as Hpos.
  unfold Rmin. destruct (Rle_dec 100 _); simpl; lra.
Qed.

Lemma flags_length (file : File) :
  (List.length (flags (analyzeMetadata file)) <= 5)%nat.
Proof.
  rewrite analyzeMetadata_flags. unfold rule_flags, flag_if.
  destruct (negb _ && negb _);
    destruct (Z.ltb_spec (size file) 1000);
    destruct (Z.ltb_spec (50 * 1024 * 1024) (size file));
    destruct (lastModified file =? 0)%Z;
    destruct (_ || includes _ "screen shot");
    destruct (_ || includes _ "dalle");
    cbn [app List.length]; lia.
Qed.

(** The weighted score of a run on a well-formed image is a whole number,
    not negative, and at least 25 when the AI confidence is above 70. *)
Lemma weightedScore_integer (file : File) (img : ImageData) (rnd : nat -> R)
    (k : nat) :
  well_formed img ->
  let d := fst (runDetectors file img rnd k) in
  exists m : Z,
    weightedScore d = ofZ m /\ (0 <= m)%Z
    /\ ((confidence (aiArtifacts d) >? Num 70)%num = true -> (25 <= m)%Z).
Proof.
  intros Hwf d.
  destruct (@runDetectors_integers file img rnd k Hwf)
    as (zs & zl & zc & zm & Es & El & Ec & Em & Bs & Bl & Bc & Bm).
  fold d in Es, El, Ec, Em. clearbody d.
  unfold weightedScore. rewrite Es, El, Ec, Em.
  set (n := List.length (flags (metadata d))). clearbody n.
  unfold ofNat, ofZ. cbn [nmul nadd nsub lift2 Math.round].
  eexists. split; [reflexivity |].
  assert (Hn : 0 <= IZR (Z.of_nat n)) by (apply IZR_le; lia).
  assert (R1 : 0 <= IZR zs <= 100) by (split; apply IZR_le; lia).
  assert (R2 : 0 <= IZR zl <= 100) by (split; apply IZR_le; lia).
  assert (R3 : 0 <= IZR zc <= 100) by (split; apply IZR_le; lia).
  assert (R4 : 0 <= IZR zm <= 100) by (split; apply IZR_le; lia).
  split.
  - unfold Math.round_R. apply Zfloor_lub. simpl. lra.
  - change (Num 70) with (ofZ 70). fold (ofZ zc). rewrite ngt_ofZ.
    intros H70%Z.ltb_lt.
    assert (71 <= IZR zc) by (apply IZR_le; lia).
    unfold Math.round_R. apply Zfloor_lub. simpl. lra.
Qed.

(** ** File names *)

Lemma toLowerCase_app (s t : string) :
  toLowerCase (s ++ t) = toLowerCase s ++ toLowerCase t.
Proof.
  induction s as [| c s IH]; cbn [toLowerCase append]; [reflexivity |].
  now rewrite IH.
Qed.

Lemma flag_if_length (c : bool) (f : string) : (List.length (flag_if c f) <= 1)%nat.
Proof. destruct c; simpl; lia. Qed.

(** ** Analysis of an image behind a URL *)

Lemma image_jpg_flags (net : Network) (blob : Blob) :
  flags (analyzeMetadata (fileOfBlob net blob))
  = (flag_if (negb (String.eqb (blob_type blob) "")
              && negb (String.prefix "image/" (blob_type blob)))
             "Invalid MIME type"
     ++ flag_if (blob_size blob <? 1000)%Z "Suspiciously small file size"
     ++ flag_if (50 * 1024 * 1024 <? blob_size blob)%Z "Unusually large file size"
     ++ flag_if (Date_now net =? 0)%Z "Missing modification timestamp")%list.
Proof.
  rewrite analyzeMetadata_flags. unfold rule_flags, fileOfBlob.
  cbn [name type size lastModified].
  replace (includes (toLowerCase "image.jpg") "screenshot"
           || includes (toLowerCase "image.jpg") "screen shot") with false
    by (vm_compute; reflexivity).
  replace (includes (toLowerCase "image.jpg") "ai"
           || includes (toLowerCase "image.jpg") "generated"
           || includes (toLowerCase "image.jpg") "midjourney"
           || includes (toLowerCase "image.jpg") "dalle") with false
    by (vm_compute; reflexivity).
  cbn [flag_if]. now rewrite !app_nil_r.
Qed.

(** ** The batch dialog *)

Section BatchAnalyzerFacts.

Variable toString36 : R -> string.

Lemma batchFiles_untouched (newFiles : list File) (rnd : nat -> R) :
  forall k, Forall untouched (fst (batchFiles toString36 newFiles rnd k)).
Proof.
  induction newFiles as [| file rest IH]; intros k; cbn [batchFiles].
  - constructor.
  - unfold bind, Math_random. specialize (IH (S k)).
    destruct (batchFiles toString36 rest rnd (S k)) as [tail k'].
    unfold ret. cbn [fst] in *. constructor; [split; reflexivity | exact IH].
Qed.

Lemma batchFiles_files (newFiles : list File) (rnd : nat -> R) :
  forall k, map bf_file (fst (batchFiles toString36 newFiles rnd k)) = newFiles.
Proof.
  induction newFiles as [| file rest IH]; intros k; cbn [batchFiles].
  - reflexivity.
  - unfold bind, Math_random. specialize (IH (S k)).
    destruct (batchFiles toString36 rest rnd (S k)) as [tail k'].
    unfold ret. cbn [fst map bf_file] in *. now rewrite IH.
Qed.

Lemma batchStep_untouched (e : BatchEvent) (st : BatchState) (rnd : nat -> R)
    (k : nat) :
  Forall untouched (files st) ->
  Forall untouched (files (fst (batchStep toString36 e st rnd k))).
Proof.
  intros Hst. destruct e as [[newFiles |] | id | | |]; cbn [batchStep].
  - unfold handleFilesAdd, bind.
    pose proof (batchFiles_untouched newFiles rnd k) as Hnew.
    destruct (batchFiles toString36 newFiles rnd k) as [added k'].
    unfold ret. cbn [fst files] in *. apply Forall_app. split; assumption.
  - exact Hst.
  - unfold ret, removeFile. cbn [fst files].
    apply Forall_forall. intros f Hf. apply filter_In in Hf.
    rewrite Forall_forall in Hst. apply Hst. tauto.
  - constructor.
  - unfold ret, handleAnalyze. cbn [fst].
    destruct (List.length (files st) =? 0)%nat; exact Hst.
  - exact Hst.
Qed.

Lemma batchRun_untouched (events : list BatchEvent) (rnd : nat -> R) :
  forall (st : BatchState) (k : nat),
    Forall untouched (files st) ->
    Forall untouched (files (fst (batchRun toString36 events st rnd k))).
Proof.
  induction events as [| e rest IH]; intros st k Hst; cbn [batchRun].
  - exact Hst.
  - unfold bind.
    pose proof (@batchStep_untouched e st rnd k Hst) as Hstep.
    destruct (batchStep toString36 e st rnd k) as [st' k']. cbn [fst] in Hstep.
    now apply IH.
Qed.

End BatchAnalyzerFacts.

(** ** Images of a single pixel *)

Section SinglePixel.

Variable img : ImageData.
Hypothesis Hwf : well_formed img.
Hypothesis Hone : (width img * height img = 1)%Z.
Variable rnd : nat -> R.
Hypothesis Hrnd : random_source rnd.

Lemma single_pixel_size :
  width img = 1%Z /\ height img = 1%Z /\ array_length (data img) = 4%Z.
Proof.
  destruct Hwf as (Hw & Hh & Hlen). rewrite Hlen, Hone.
  assert (width img = 1)%Z by nia. assert (height img = 1)%Z by nia. auto.
Qed.

Lemma single_pixel_index (k : nat) :
  fst (randomPixelIndex (data img) rnd k) = 0%Z.
Proof.
  destruct single_pixel_size as (_ & _ & Hlen).
  unfold randomPixelIndex, bind, Math_random, ret. cbn [fst]. rewrite Hlen.
  replace (rnd k * (4 / 4)) with (rnd k) by field.
  rewrite (@Zfloor_eq 0 (rnd k)); [reflexivity |].
  pose proof (Hrnd k). simpl. lra.
Qed.

Lemma single_pixel_neighborDiff : neighborDiff img 0 = NaN.
Proof.
  destruct single_pixel_size as (Hw & _ & Hlen).
  unfold neighborDiff, getNeighborAverage. rewrite Hw, Hlen.
  replace (filter _ _) with (@nil Z) by (vm_compute; reflexivity).
  cbn [fold_left r g b List.length].
  change (ofNat 0) with (Num 0). rewrite ndiv_zero.
  destruct (toNumber (get (data img) 0)); reflexivity.
Qed.

Lemma single_pixel_anomalyCount (k : nat) :
  fst (repeat_loop sampleSize
         (fun anomalyCount =>
            randomIndex <- randomPixelIndex (data img) ;;
            let diff := neighborDiff img randomIndex in
            ret (if (diff >? Num 100)%num then S anomalyCount else anomalyCount))
         O rnd k) = O.
Proof.
  apply repeat_loop_unchanged. intros k0.
  pose proof (single_pixel_index k0) as Hi.
  unfold bind at 1. destruct (randomPixelIndex (data img) rnd k0) as [i k1].
  cbn [fst] in Hi. subst i. cbv zeta. rewrite single_pixel_neighborDiff.
  reflexivity.
Qed.

Lemma single_pixel_smoothnessScore (k : nat) :
  fst (repeat_loop 1000
         (fun smoothnessScore =>
            randomIndex <- randomPixelIndex (data img) ;;
            let smoothness := neighborDiff img randomIndex in
            ret (if (smoothness <? Num 20)%num
                 then S smoothnessScore else smoothnessScore))
         O rnd k) = O.
Proof.
  apply repeat_loop_unchanged. intros k0.
  pose proof (single_pixel_index k0) as Hi.
  unfold bind at 1. destruct (randomPixelIndex (data img) rnd k0) as [i k1].
  cbn [fst] in Hi. subst i. cbv zeta. rewrite single_pixel_neighborDiff.
  reflexivity.
Qed.

Lemma single_pixel_symmetryScore (k : nat) :
  fst (repeat_loop sampleRows
         (fun symmetryScore =>
            u <- Math_random ;;
            let y := Zfloor (u * IZR (height img)) in
            let leftIndex := (y * width img * 4)%Z in
            let rightIndex := ((y * width img + width img - 1) * 4)%Z in
            let leftColor :=
              [ toNumber (get (data img) leftIndex);
                toNumber (get (data img) (leftIndex + 1));
                toNumber (get (data img) (leftIndex + 2)) ] in
            let rightColor :=
              [ toNumber (get (data img) rightIndex);
                toNumber (get (data img) (rightIndex + 1));
                toNumber (get (data img) (rightIndex + 2)) ] in
            let diff :=
              fold_left (fun sum vr => (sum + Math.abs (fst vr - snd vr))%num)
                        (combine leftColor rightColor) (Num 0) in
            ret (if (diff <? Num 30)%num then S symmetryScore else symmetryScore))
         O rnd k) = sampleRows.
Proof.
  destruct single_pixel_size as (Hw & Hh & Hlen).
  destruct (well_formed_length Hwf) as (n & Hn & Hlen4 & _).
  apply repeat_loop_counts. intros c k0.
  unfold bind, Math_random, ret. cbn [fst]. cbv zeta.
  rewrite Hw, Hh.
  replace (rnd k0 * 1) with (rnd k0) by ring.
  rewrite (@Zfloor_eq 0 (rnd k0)) by (pose proof (Hrnd k0); simpl; lra).
  change ((0 * 1 + 1 - 1) * 4)%Z with 0%Z. change (0 * 1 * 4)%Z with 0%Z.
  destruct (@pixels_get n (data img) O Hlen4 Hn)
    as (r0 & g0 & b0 & a0 & _ & R0 & G0 & B0).
  change (4 * Z.of_nat 0)%Z with 0%Z in R0, G0, B0. rewrite R0, G0, B0.
  cbn [toNumber combine fold_left fst snd]. unfold ofZ.
  cbn [nsub nadd lift2 lift1 Math.abs].
  rewrite !Rminus_diag, Rabs_R0.
  replace (Num (0 + 0 + 0 + 0) <? Num 30)%num with true; [reflexivity |].
  symmetry. apply (proj2 (ngt_Num _ _)). lra.
Qed.

Lemma single_pixel_anomalies (k : nat) :
  severity (fst (analyzePixelAnomalies img rnd k)) = Num 0
  /\ pa_detected (fst (analyzePixelAnomalies img rnd k)) = false.
Proof.
  unfold analyzePixelAnomalies.
  pose proof (single_pixel_anomalyCount k) as Hc. cbv zeta in Hc.
  rewrite fst_bind. cbv beta zeta. rewrite Hc.
  unfold ret. cbn [fst severity pa_detected].
  rewrite percent_none by (unfold sampleSize; lia).
  split.
  - cbn [Math.round]. rewrite (@round_R_eq _ 0) by lra. reflexivity.
  - apply (proj2 (ngt_Num_false _ _)). lra.
Qed.

Lemma single_pixel_ai_artifacts (k : nat) :
  confidence (fst (detectAIArtifacts img rnd k)) = Num 30
  /\ ai_detected (fst (detectAIArtifacts img rnd k)) = false.
Proof.
  unfold detectAIArtifacts.
  pose proof (single_pixel_symmetryScore k) as Hs. cbv zeta in Hs.
  rewrite fst_bind. cbv beta zeta. rewrite Hs.
  rewrite fst_bind. cbv beta zeta.
  match goal with
  | |- context [repeat_loop 1000 _ O rnd ?k1] =>
      pose proof (single_pixel_smoothnessScore k1) as Hm
  end.
  cbv zeta in Hm. rewrite Hm.
  unfold ret. cbn [fst confidence ai_detected].
  change (Num 1000) with (ofNat 1000).
  rewrite (@percent_all sampleRows) by (unfold sampleRows; lia).
  rewrite (@percent_none 1000) by lia.
  cbn [nmul nadd lift2]. split.
  - cbn [Math.round]. rewrite (@round_R_eq _ 30) by lra. reflexivity.
  - apply (proj2 (ngt_Num_false _ _)). lra.
Qed.

End SinglePixel.

(** * Further results *)

(** X1. In a well-formed image of one colour with at least two pixels the
    two sampling detectors find every sampled pixel equal to the average
    of its neighbours and every sampled row symmetric: for every sequence
    of random values, [analyzePixelAnomalies] returns severity 0 and
    [detected = false], and [detectAIArtifacts] returns confidence 100 and
    [detected = true]. *)
Theorem X1_one_colour_sampled_detectors (img : ImageData) (cr cg cb : byte)
    (rnd : nat -> R) (k : nat) :
  well_formed img -> uniform img cr cg cb ->
  (2 <= width img * height img)%Z -> random_source rnd ->
  (severity (fst (analyzePixelAnomalies img rnd k)) = Num 0
   /\ pa_detected (fst (analyzePixelAnomalies img rnd k)) = false)
  /\ (confidence (fst (detectAIArtifacts img rnd k)) = Num 100
      /\ ai_detected (fst (detectAIArtifacts img rnd k)) = true).
Proof.
  intros Hwf Hu H2 Hrnd. split.
  - exact (uniform_pixel_anomalies Hwf Hu Hrnd k H2).
  - exact (uniform_ai_artifacts Hwf Hu Hrnd k H2).
Qed.

Lemma X1_one_colour_sampled_detectors_witness :
  (well_formed gray_pair /\ uniform gray_pair x80 x80 x80
   /\ (2 <= width gray_pair * height gray_pair)%Z
   /\ random_source (constant_source 0))
  /\ (severity (fst (analyzePixelAnomalies gray_pair (constant_source 0) O)) = Num 0
      /\ pa_detected (fst (analyzePixelAnomalies gray_pair (constant_source 0) O))
         = false)
  /\ (confidence (fst (detectAIArtifacts gray_pair (constant_source 0) O)) = Num 100
      /\ ai_detected (fst (detectAIArtifacts gray_pair (constant_source 0) O)) = true).
Proof.
  assert (Hwf : well_formed gray_pair) by (unfold well_formed; cbn; lia).
  assert (Hu : uniform gray_pair x80 x80 x80)
    by (unfold uniform; cbn; repeat constructor).
  assert (H2 : (2 <= width gray_pair * height gray_pair)%Z) by (cbn; lia).
  assert (Hrnd : random_source (constant_source 0))
    by (intros i; unfold constant_source; lra).
  split; [split; [| split; [| split]]; assumption |].
  exact (@X1_one_colour_sampled_detectors gray_pair x80 x80 x80 (constant_source 0) O
           Hwf Hu H2 Hrnd).
Defined.

(** X2. In a well-formed image of one colour the brightness has no
    variance and one colour bucket is sampled: [analyzeLightingAndShadows]
    returns score 100 and [consistent = true], and [analyzeSemanticLogic]
    returns score 0 and [logical = false]. *)
Theorem X2_one_colour_scanning_detectors (img : ImageData) (cr cg cb : byte) :
  well_formed img -> uniform img cr cg cb ->
  (ls_score (analyzeLightingAndShadows img) = Num 100
   /\ consistent (analyzeLightingAndShadows img) = true)
  /\ (sl_score (analyzeSemanticLogic img) = Num 0
      /\ logical (analyzeSemanticLogic img) = false).
Proof.
  intros Hwf Hu. split.
  - exact (uniform_lighting Hwf Hu).
  - exact (uniform_semantic Hwf Hu).
Qed.

Lemma X2_one_colour_scanning_detectors_witness :
  (well_formed gray_pair /\ uniform gray_pair x80 x80 x80)
  /\ (ls_score (analyzeLightingAndShadows gray_pair) = Num 100
      /\ consistent (analyzeLightingAndShadows gray_pair) = true)
  /\ (sl_score (analyzeSemanticLogic gray_pair) = Num 0
      /\ logical (analyzeSemanticLogic gray_pair) = false).
Proof.
  assert (Hwf : well_formed gray_pair) by (unfold well_formed; cbn; lia).
  assert (Hu : uniform gray_pair x80 x80 x80)
    by (unfold uniform; cbn; repeat constructor).
  split; [split; assumption |].
  exact (@X2_one_colour_scanning_detectors gray_pair x80 x80 x80 Hwf Hu).
Defined.

(** The verdict and the scores of a run on a one-colour image. *)
Lemma uniform_run (file : File) (img : ImageData) (cr cg cb : byte)
    (rnd : nat -> R) (k : nat) :
  well_formed img -> uniform img cr cg cb ->
  (2 <= width img * height img)%Z -> random_source rnd ->
  let d := fst (runDetectors file img rnd k) in
  verdict d = ai_generated
  /\ weightedScore d
     = ofZ (55 + 5 * Z.of_nat (List.length (flags (analyzeMetadata file))))
  /\ severity (pixelAnomalies d) = Num 0
  /\ confidence (aiArtifacts d) = Num 100.
Proof.
  intros Hwf Hu H2 Hrnd d.
  destruct (uniform_pixel_anomalies Hwf Hu Hrnd k H2) as [Es _].
  destruct (uniform_ai_artifacts Hwf Hu Hrnd (snd (analyzePixelAnomalies img rnd k)) H2)
    as [Ec Ed].
  destruct (uniform_lighting Hwf Hu) as [El _].
  destruct (uniform_semantic Hwf Hu) as [Em _].
  assert (Hd : d = {| pixelAnomalies := fst (analyzePixelAnomalies img rnd k);
                      lightingShadows := analyzeLightingAndShadows img;
                      aiArtifacts :=
                        fst (detectAIArtifacts img rnd
                               (snd (analyzePixelAnomalies img rnd k)));
                      metadata := analyzeMetadata file;
                      semanticLogic := analyzeSemanticLogic img |})
    by apply runDetectors_eq.
  clearbody d. subst d.
  unfold verdict, weightedScore.
  cbn [pixelAnomalies lightingShadows aiArtifacts metadata semanticLogic].
  rewrite Es, El, Ec, Ed, Em.
  set (n := List.length (flags (analyzeMetadata file))). clearbody n.
  split.
  - replace (Num 100 >? Num 70)%num with true; [reflexivity |].
    symmetry. apply (proj2 (ngt_Num _ _)). lra.
  - split; [| split; reflexivity].
    unfold ofNat, ofZ. cbn [nmul nadd nsub lift2 Math.round]. unfold ofZ. f_equal.
    f_equal. apply round_R_eq.
    rewrite plus_IZR, mult_IZR. simpl (IZR 55). simpl (IZR 5). lra.
Qed.

(** X3. A well-formed image of one colour with at least two pixels is
    always reported as AI-generated: whatever the colour, the file facts
    and the random values, a run that returns has the verdict
    [ai_generated], manipulation score [55 + 5 * n] and trust score
    [45 - 5 * n] for [n] metadata flags, and five heat map regions. *)
Theorem X3_one_colour_verdict (env : Browser) (file : File) (img : ImageData)
    (cr cg cb : byte) :
  completes env file img -> well_formed img -> uniform img cr cg cb ->
  (2 <= width img * height img)%Z -> random_source (random env) ->
  exists res : AnalysisResult,
    analyzeImage env file = Ok res
    /\ resultType res = ai_generated
    /\ manipulationScore res
       = ofZ (55 + 5 * Z.of_nat (List.length (flags (analyzeMetadata file))))
    /\ trustScore res
       = ofZ (45 - 5 * Z.of_nat (List.length (flags (analyzeMetadata file))))
    /\ List.length (heatmapData res) = 5%nat.
Proof.
  intros Hrun Hwf Hu H2 Hrnd.
  destruct (analyzeImage_details Hrun) as (h & pt & Hres & Hh).
  destruct (@uniform_run file img cr cg cb (random env) O Hwf Hu H2 Hrnd)
    as (Hv & Hw & Hs & Hc).
  pose proof (flags_length file) as Hn.
  set (d := fst (runDetectors file img (random env) O)) in *. clearbody d.
  eexists. split; [exact Hres |].
  destruct (aggregate_fields d h (isoString env (lastModified file)) pt)
    as (Et & Em & Etr & _ & Eh & _).
  rewrite Et, Em, Etr, Eh, Hw.
  set (n := Z.of_nat (List.length (flags (analyzeMetadata file)))) in *.
  assert (Hn' : (0 <= n <= 5)%Z) by (unfold n; lia). clearbody n.
  destruct (@clamp_ofZ (55 + 5 * n)) as [C1 C2]; [lia |].
  rewrite C1, C2, Z.min_r by lia.
  split; [exact Hv |]. split; [reflexivity |].
  split; [f_equal; lia |].
  rewrite Hh, Hs, Hc, generateHeatmap_regions. cbn [fst].
  rewrite regions_from_length. unfold regionCount.
  rewrite (@Zfloor_eq 5) by (simpl; lra). reflexivity.
Qed.

Lemma X3_one_colour_verdict_witness :
  (completes (browser_of gray_pair) vacation_jpg gray_pair
   /\ well_formed gray_pair /\ uniform gray_pair x80 x80 x80
   /\ (2 <= width gray_pair * height gray_pair)%Z
   /\ random_source (random (browser_of gray_pair)))
  /\ exists res : AnalysisResult,
       analyzeImage (browser_of gray_pair) vacation_jpg = Ok res
       /\ resultType res = ai_generated
       /\ manipulationScore res
          = ofZ (55 + 5 * Z.of_nat (List.length (flags (analyzeMetadata vacation_jpg))))
       /\ trustScore res
          = ofZ (45 - 5 * Z.of_nat (List.length (flags (analyzeMetadata vacation_jpg))))
       /\ List.length (heatmapData res) = 5%nat.
Proof.
  assert (Hrun : completes (browser_of gray_pair) vacation_jpg gray_pair)
    by (repeat split; cbn; lia).
  assert (Hwf : well_formed gray_pair) by (unfold well_formed; cbn; lia).
  assert (Hu : uniform gray_pair x80 x80 x80)
    by (unfold uniform; cbn; repeat constructor).
  assert (H2 : (2 <= width gray_pair * height gray_pair)%Z) by (cbn; lia).
  assert (Hrnd : random_source (random (browser_of gray_pair)))
    by (intros i; cbn; unfold constant_source; lra).
  split; [split; [| split; [| split; [| split]]]; assumption |].
  exact (@X3_one_colour_verdict (browser_of gray_pair) vacation_jpg gray_pair
           x80 x80 x80 Hrun Hwf Hu H2 Hrnd).
Defined.

(** X4. In a well-formed image of a single pixel the pixel has no
    neighbour, its neighbour average is [NaN] and every comparison with it
    is false: for random values in [0, 1), [analyzePixelAnomalies] returns
    severity 0 and [detected = false], and [detectAIArtifacts] counts every
    row as symmetric and no pixel as smooth, which gives confidence 30 and
    [detected = false]. *)
Theorem X4_single_pixel_detectors (img : ImageData) (rnd : nat -> R) (k : nat) :
  well_formed img -> (width img * height img = 1)%Z -> random_source rnd ->
  (severity (fst (analyzePixelAnomalies img rnd k)) = Num 0
   /\ pa_detected (fst (analyzePixelAnomalies img rnd k)) = false)
  /\ (confidence (fst (detectAIArtifacts img rnd k)) = Num 30
      /\ ai_detected (fst (detectAIArtifacts img rnd k)) = false).
Proof.
  intros Hwf Hone Hrnd. split.
  - exact (single_pixel_anomalies Hwf Hone Hrnd k).
  - exact (single_pixel_ai_artifacts Hwf Hone Hrnd k).
Qed.

Lemma X4_single_pixel_detectors_witness :
  (well_formed one_pixel /\ (width one_pixel * height one_pixel = 1)%Z
   /\ random_source (constant_source 0))
  /\ (severity (fst (analyzePixelAnomalies one_pixel (constant_source 0) O)) = Num 0
      /\ pa_detected (fst (analyzePixelAnomalies one_pixel (constant_source 0) O))
         = false)
  /\ (confidence (fst (detectAIArtifacts one_pixel (constant_source 0) O)) = Num 30
      /\ ai_detected (fst (detectAIArtifacts one_pixel (constant_source 0) O))
         = false).
Proof.
  assert (Hwf : well_formed one_pixel) by (unfold well_formed; cbn; lia).
  assert (Hone : (width one_pixel * height one_pixel = 1)%Z) by reflexivity.
  assert (Hrnd : random_source (constant_source 0))
    by (intros i; unfold constant_source; lra).
  split; [split; [| split]; assumption |].
  exact (@X4_single_pixel_detectors one_pixel (constant_source 0) O Hwf Hone Hrnd).
Defined.


Lemma between_Num (lo hi : R) (a : number) :
  between lo hi a -> exists v : R, a = Num v /\ lo <= v <= hi.
Proof. destruct a as [| v]; [contradiction |]. intros H. now exists v. Qed.

Lemma runPipeline_position (file : File) (img : ImageData) (rnd : nat -> R)
    (k : nat) :
  snd (runPipeline file img rnd k)
  = let dk := runDetectors file img rnd k in
    snd (generateHeatmap img (severity (pixelAnomalies (fst dk)))
                         (confidence (aiArtifacts (fst dk))) rnd (snd dk)).
Proof.
  unfold runPipeline, bind.
  destruct (runDetectors file img rnd k) as [d k1]. cbn [fst snd].
  destruct (generateHeatmap img _ _ rnd k1) as [h k2].
  reflexivity.
Qed.

(** X8. An analysis calls [Math.random()] 1000 times for the pixel
    anomalies, 1050 times for the AI artifacts and five times for each
    heat map region, in this order: started at call number [k] it ends at
    call number [k + 2050 + 5 * n] for a heat map of [n] regions, and the
    regions are made from the calls after the first 2050, five each, and
    from nothing else. *)
Theorem X8_random_calls (file : File) (img : ImageData) (rnd : nat -> R) (k : nat) :
  snd (runPipeline file img rnd k)
  = (k + 2050 + 5 * List.length (snd (fst (runPipeline file img rnd k))))%nat
  /\ snd (fst (runPipeline file img rnd k))
     = regions_from rnd (k + 2050)
                    (List.length (snd (fst (runPipeline file img rnd k)))).
Proof.
  pose proof (severity_between img rnd k) as Hs.
  pose proof (confidence_between img rnd (snd (analyzePixelAnomalies img rnd k)))
    as Hc.
  apply between_Num in Hs. destruct Hs as (s & Es & Bs).
  apply between_Num in Hc. destruct Hc as (c & Ec & Bc).
  rewrite runPipeline_heatmap, runPipeline_position. cbv zeta.
  rewrite runDetectors_position, runDetectors_eq.
  cbn [pixelAnomalies aiArtifacts].
  rewrite Es, Ec.
  rewrite generateHeatmap_regions. cbn [fst snd].
  rewrite regions_from_length. split; reflexivity.
Qed.

(** X9. The heat map of a run has [floor((severity + confidence) / 20)]
    regions, and 8 when that is more: none when the rounded severity and
    confidence add up to less than 20, and between 3 and 8 in every run
    whose verdict is [ai_generated]. *)
Theorem X9_heatmap_region_count (file : File) (img : ImageData) (rnd : nat -> R)
    (k : nat) :
  exists s c : R,
    severity (pixelAnomalies (fst (fst (runPipeline file img rnd k)))) = Num s
    /\ confidence (aiArtifacts (fst (fst (runPipeline file img rnd k)))) = Num c
    /\ List.length (snd (fst (runPipeline file img rnd k))) = regionCount s c
    /\ (s + c < 20 -> snd (fst (runPipeline file img rnd k)) = [])
    /\ (verdict (fst (fst (runPipeline file img rnd k))) = ai_generated ->
        (3 <= List.length (snd (fst (runPipeline file img rnd k))) <= 8)%nat).
Proof.
  pose proof (severity_between img rnd k) as Hs.
  pose proof (confidence_between img rnd (snd (analyzePixelAnomalies img rnd k)))
    as Hc.
  apply between_Num in Hs. destruct Hs as (s & Es & Bs).
  apply between_Num in Hc. destruct Hc as (c & Ec & Bc).
  rewrite runPipeline_heatmap, runPipeline_details. cbv zeta.
  unfold verdict. rewrite runDetectors_eq.
  cbn [pixelAnomalies aiArtifacts].
  rewrite Es, Ec.
  exists s, c. split; [reflexivity |]. split; [reflexivity |].
  rewrite generateHeatmap_regions. cbn [fst].
  rewrite regions_from_length.
  split; [reflexivity |]. split.
  - intros Hlow. unfold regionCount.
    rewrite (@Zfloor_eq 0) by (simpl; lra). reflexivity.
  - intros Hv.
    destruct (ai_detected _ && (Num c >? Num 70)%num) eqn:Hai.
    + apply andb_true_iff in Hai. destruct Hai as [_ H70%ngt_Num].
      unfold regionCount.
      assert (3 <= Zfloor ((s + c) / 20))%Z by (apply Zfloor_lub; simpl; lra).
      lia.
    + destruct (weightedScore _ >? Num 50)%num; discriminate.
Qed.

(** X10. The [detected] flag adds nothing to the test for the AI verdict:
    the confidence is above 70 only when it was above 60 before rounding,
    so a run that returns has the verdict [ai_generated] exactly when the
    confidence it reports is above 70. *)
Theorem X10_ai_verdict_by_confidence (env : Browser) (file : File)
    (img : ImageData) :
  completes env file img ->
  exists res : AnalysisResult,
    analyzeImage env file = Ok res
    /\ (resultType res = ai_generated
        <-> (confidence (aiArtifacts (detectionDetails res)) >? Num 70)%num = true).
Proof.
  intros Hrun.
  destruct (analyzeImage_details Hrun) as (h & pt & Hres & _).
  eexists. split; [exact Hres |].
  destruct (aggregate_fields (fst (runDetectors file img (random env) O)) h
                             (isoString env (lastModified file)) pt)
    as (Et & _ & _ & Ed & _).
  rewrite Et, Ed. unfold verdict. rewrite runDetectors_eq.
  cbn [aiArtifacts].
  destruct (detectAIArtifacts_percent img (random env)
              (snd (analyzePixelAnomalies img (random env) O)))
    as (c & Bc & Ec & Edet).
  rewrite Ec, Edet. change (Num 70) with (ofZ 70). rewrite ngt_ofZ.
  destruct (Z.ltb_spec 70 (Math.round_R c)) as [H70 | H70].
  - assert (Hc : 60 < c).
    { unfold Math.round_R in H70.
      pose proof (Zfloor_bound (c + / 2)) as [B _].
      apply IZR_lt in H70. simpl in H70. lra. }
    apply ngt_Num in Hc. rewrite Hc. cbn [andb]. tauto.
  - rewrite andb_false_r.
    match goal with
    | |- context [if ?b then edited else real] => destruct b
    end; split; discriminate.
Qed.

Lemma X10_ai_verdict_by_confidence_witness :
  completes (browser_of gray_pair) vacation_jpg gray_pair
  /\ exists res : AnalysisResult,
       analyzeImage (browser_of gray_pair) vacation_jpg = Ok res
       /\ (resultType res = ai_generated
           <-> (confidence (aiArtifacts (detectionDetails res)) >? Num 70)%num
               = true).
Proof.
  assert (Hrun : completes (browser_of gray_pair) vacation_jpg gray_pair)
    by (repeat split; cbn; lia).
  split; [exact Hrun |].
  exact (@X10_ai_verdict_by_confidence (browser_of gray_pair) vacation_jpg
           gray_pair Hrun).
Defined.

(** X11. Both sampling detectors compare their percentage with the
    threshold before rounding it, so the flag and the reported number can
    disagree by one: [analyzePixelAnomalies] sets [detected] only with a
    severity of 15 or more and always with 16 or more, and
    [detectAIArtifacts] sets it only with a confidence of 60 or more and
    always with 61 or more. *)
Theorem X11_flags_and_rounded_scores (img : ImageData) (rnd : nat -> R) (k : nat) :
  (pa_detected (fst (analyzePixelAnomalies img rnd k)) = true ->
   between 15 100 (severity (fst (analyzePixelAnomalies img rnd k))))
  /\ (between 16 100 (severity (fst (analyzePixelAnomalies img rnd k))) ->
      pa_detected (fst (analyzePixelAnomalies img rnd k)) = true)
  /\ (ai_detected (fst (detectAIArtifacts img rnd k)) = true ->
      between 60 100 (confidence (fst (detectAIArtifacts img rnd k))))
  /\ (between 61 100 (confidence (fst (detectAIArtifacts img rnd k))) ->
      ai_detected (fst (detectAIArtifacts img rnd k)) = true).
Proof.
  destruct (analyzePixelAnomalies_percent img rnd k) as (s & Bs & Es & Eds).
  destruct (detectAIArtifacts_percent img rnd k) as (c & Bc & Ec & Edc).
  rewrite Es, Eds, Ec, Edc. unfold ofZ. cbn [between].
  pose proof (Zfloor_bound (s + / 2)) as [S1 S2].
  pose proof (Zfloor_bound (c + / 2)) as [C1 C2].
  assert (Rs : (0 <= Math.round_R s <= 100)%Z) by (now apply (round_R_between 0 100)).
  assert (Rc : (0 <= Math.round_R c <= 100)%Z) by (now apply (round_R_between 0 100)).
  unfold Math.round_R in *.
  split; [| split; [| split]].
  - intros H%ngt_Num. split; [| apply IZR_le; lia].
    apply IZR_le. apply Zfloor_lub. simpl. lra.
  - intros [H _]. apply ngt_Num. lra.
  - intros H%ngt_Num. split; [| apply IZR_le; lia].
    apply IZR_le. apply Zfloor_lub. simpl. lra.
  - intros [H _]. apply ngt_Num. lra.
Qed.

(** X12. On a well-formed image the two scores of a returned result are
    whole numbers [z] and [100 - z] with [0 <= z <= 100]; the verdict
    [real] comes with [z <= 50], the verdict [edited] with [z >= 51], and
    the verdict [ai_generated] with [z >= 25], so that an image reported
    as AI-generated can have a trust score of up to 75. *)
Theorem X12_verdict_and_scores (env : Browser) (file : File) (img : ImageData) :
  completes env file img -> well_formed img ->
  exists (res : AnalysisResult) (z : Z),
    analyzeImage env file = Ok res
    /\ manipulationScore res = ofZ z /\ trustScore res = ofZ (100 - z)
    /\ (0 <= z <= 100)%Z
    /\ (resultType res = real -> (z <= 50)%Z)
    /\ (resultType res = edited -> (51 <= z)%Z)
    /\ (resultType res = ai_generated -> (25 <= z)%Z).
Proof.
  intros Hrun Hwf.
  destruct (analyzeImage_details Hrun) as (h & pt & Hres & _).
  destruct (@weightedScore_integer file img (random env) O Hwf)
    as (m & Hm & Hm0 & Hm25).
  set (d := fst (runDetectors file img (random env) O)) in *. clearbody d.
  destruct (aggregate_fields d h (isoString env (lastModified file)) pt)
    as (Et & Em & Etr & _).
  destruct (clamp_ofZ Hm0) as [C1 C2].
  eexists. exists (Z.min 100 m). split; [exact Hres |].
  rewrite Et, Em, Etr, Hm, C1, C2.
  split; [reflexivity |]. split; [reflexivity |]. split; [lia |].
  unfold verdict. rewrite Hm. change (Num 50) with (ofZ 50). rewrite ngt_ofZ.
  destruct (confidence (aiArtifacts d) >? Num 70)%num.
  - specialize (Hm25 eq_refl).
    destruct (ai_detected (aiArtifacts d)); cbn [andb].
    + repeat split; try discriminate. intros _. lia.
    + destruct (Z.ltb_spec 50 m); repeat split; try discriminate; intros _; lia.
  - rewrite andb_false_r.
    destruct (Z.ltb_spec 50 m); repeat split; try discriminate; intros _; lia.
Qed.

Lemma X12_verdict_and_scores_witness :
  (completes (browser_of two_tone) vacation_jpg two_tone /\ well_formed two_tone)
  /\ exists (res : AnalysisResult) (z : Z),
       analyzeImage (browser_of two_tone) vacation_jpg = Ok res
       /\ manipulationScore res = ofZ z /\ trustScore res = ofZ (100 - z)
       /\ (0 <= z <= 100)%Z
       /\ (resultType res = real -> (z <= 50)%Z)
       /\ (resultType res = edited -> (51 <= z)%Z)
       /\ (resultType res = ai_generated -> (25 <= z)%Z).
Proof.
  assert (Hrun : completes (browser_of two_tone) vacation_jpg two_tone)
    by (repeat split; cbn; lia).
  assert (Hwf : well_formed two_tone) by (unfold well_formed; cbn; lia).
  split; [split; assumption |].
  exact (@X12_verdict_and_scores (browser_of two_tone) vacation_jpg two_tone
           Hrun Hwf).
Defined.

(** X13. [analyzeMetadata] raises at most five of its six flags, because a
    file cannot be both below 1000 bytes and above 50 MiB; the metadata
    term of the manipulation score is therefore at most 25. *)
Theorem X13_metadata_flag_count (file : File) :
  (List.length (flags (analyzeMetadata file)) <= 5)%nat
  /\ ~ (In "Suspiciously small file size" (flags (analyzeMetadata file))
        /\ In "Unusually large file size" (flags (analyzeMetadata file))).
Proof.
  split; [apply flags_length |].
  rewrite analyzeMetadata_flags. unfold rule_flags, flag_if.
  destruct (negb _ && negb _);
    destruct (Z.ltb_spec (size file) 1000);
    destruct (Z.ltb_spec (50 * 1024 * 1024) (size file));
    destruct (lastModified file =? 0)%Z;
    destruct (_ || includes _ "screen shot");
    destruct (_ || includes _ "dalle");
    try lia; cbn [app In]; intros [H1 H2];
    repeat match goal with
           | H : _ \/ _ |- _ => destruct H
           | H : False |- _ => contradiction
           | H : _ = _ |- _ => discriminate H
           end.
Qed.

(** X14. The file name test for "ai" is a plain substring test on the
    lower-cased name: every file whose name has the letters a and i next
    to each other, in either case and anywhere in the name, gets the flag
    "AI-related filename" and loses [authentic]. *)
Theorem X14_ai_letters_in_name (file : File) (pre post : string) (c1 c2 : ascii) :
  name file = pre ++ String c1 (String c2 post) ->
  lower_ascii c1 = "a"%char -> lower_ascii c2 = "i"%char ->
  In "AI-related filename" (flags (analyzeMetadata file))
  /\ authentic (analyzeMetadata file) = false.
Proof.
  intros Hname H1 H2.
  assert (Hin : In "AI-related filename" (flags (analyzeMetadata file))).
  { rewrite analyzeMetadata_flags. unfold rule_flags.
    assert (Hai : includes (toLowerCase (name file)) "ai" = true).
    { apply includes_spec.
      exists (toLowerCase pre), (toLowerCase post).
      rewrite Hname, toLowerCase_app. cbn [toLowerCase]. now rewrite H1, H2. }
    rewrite Hai. cbn [orb flag_if].
    repeat (apply in_or_app; right). now left. }
  split; [exact Hin |].
  destruct (authentic (analyzeMetadata file)) eqn:Ha; [| reflexivity].
  apply analyzeMetadata_authentic in Ha. rewrite Ha in Hin. contradiction.
Qed.

Lemma X14_ai_letters_in_name_witness :
  (name mountain_jpg = "Mount" ++ String "a" (String "i" "n.JPG")
   /\ lower_ascii "a" = "a"%char /\ lower_ascii "i" = "i"%char)
  /\ In "AI-related filename" (flags (analyzeMetadata mountain_jpg))
  /\ authentic (analyzeMetadata mountain_jpg) = false.
Proof.
  assert (Hname : name mountain_jpg = "Mount" ++ String "a" (String "i" "n.JPG"))
    by reflexivity.
  assert (H1 : lower_ascii "a" = "a"%char) by reflexivity.
  assert (H2 : lower_ascii "i" = "i"%char) by reflexivity.
  split; [split; [| split]; assumption |].
  exact (@X14_ai_letters_in_name mountain_jpg "Mount" "n.JPG" "a" "i" Hname H1 H2).
Defined.

(** X15. [analyzeFromUrl] analyzes the fetched bytes under the fixed name
    [image.jpg]: when the fetch succeeds and the run returns, the result
    is that of [analyzeImage] on that file, and its metadata flags are
    those of the MIME type and the size of the fetched blob and of the
    clock, in this order; no URL leads to the flags "Screenshot detected"
    or "AI-related filename". *)
Theorem X15_analyzeFromUrl_flags (env : Browser) (net : Network) (url : string)
    (blob : Blob) (img : ImageData) :
  fetch net url = Ok blob ->
  completes env (fileOfBlob net blob) img ->
  exists res : AnalysisResult,
    analyzeFromUrl env net url = Ok res
    /\ analyzeImage env (fileOfBlob net blob) = Ok res
    /\ ma_flags (metadataAnalysis res)
       = (flag_if (negb (String.eqb (blob_type blob) "")
                   && negb (String.prefix "image/" (blob_type blob)))
                  "Invalid MIME type"
          ++ flag_if (blob_size blob <? 1000)%Z "Suspiciously small file size"
          ++ flag_if (50 * 1024 * 1024 <? blob_size blob)%Z
                     "Unusually large file size"
          ++ flag_if (Date_now net =? 0)%Z "Missing modification timestamp")%list.
Proof.
  intros Hfetch Hrun.
  destruct (analyzeImage_details Hrun) as (h & pt & Hres & _).
  unfold analyzeFromUrl. rewrite Hfetch.
  eexists. split; [exact Hres |]. split; [exact Hres |].
  destruct (aggregate_fields
              (fst (runDetectors (fileOfBlob net blob) img (random env) O)) h
              (isoString env (lastModified (fileOfBlob net blob))) pt)
    as (_ & _ & _ & _ & _ & Ema & _).
  rewrite Ema. cbn [ma_flags]. rewrite runDetectors_eq. cbn [metadata].
  apply image_jpg_flags.
Qed.

Lemma X15_analyzeFromUrl_flags_witness :
  (fetch jpeg_server "https://example.org/midjourney-ai.png"
   = Ok {| blob_type := "image/jpeg"; blob_size := 50000 |}
   /\ completes (browser_of gray_pair)
                (fileOfBlob jpeg_server
                            {| blob_type := "image/jpeg"; blob_size := 50000 |})
                gray_pair)
  /\ exists res : AnalysisResult,
       analyzeFromUrl (browser_of gray_pair) jpeg_server
                      "https://example.org/midjourney-ai.png" = Ok res
       /\ analyzeImage (browser_of gray_pair)
                       (fileOfBlob jpeg_server
                                   {| blob_type := "image/jpeg"; blob_size := 50000 |})
          = Ok res
       /\ ma_flags (metadataAnalysis res)
          = (flag_if (negb (String.eqb "image/jpeg" "")
                      && negb (String.prefix "image/" "image/jpeg"))
                     "Invalid MIME type"
             ++ flag_if (50000 <? 1000)%Z "Suspiciously small file size"
             ++ flag_if (50 * 1024 * 1024 <? 50000)%Z "Unusually large file size"
             ++ flag_if (1700000000000 =? 0)%Z "Missing modification timestamp")%list.
Proof.
  assert (Hfetch : fetch jpeg_server "https://example.org/midjourney-ai.png"
                   = Ok {| blob_type := "image/jpeg"; blob_size := 50000 |})
    by reflexivity.
  assert (Hrun : completes (browser_of gray_pair)
                   (fileOfBlob jpeg_server
                               {| blob_type := "image/jpeg"; blob_size := 50000 |})
                   gray_pair)
    by (repeat split; cbn; lia).
  split; [split; assumption |].
  exact (@X15_analyzeFromUrl_flags (browser_of gray_pair) jpeg_server
           "https://example.org/midjourney-ai.png"
           {| blob_type := "image/jpeg"; blob_size := 50000 |} gray_pair
           Hfetch Hrun).
Defined.

(** X16. No handler of the batch dialog writes the [status] or the
    [result] of an entry: after every sequence of adding files, removing a
    file, clearing the list, starting an analysis and finishing it, every
    entry of the list still has status [pending] and no result. *)
Theorem X16_batch_entries_stay_pending (toString36 : R -> string)
    (events : list BatchEvent) (rnd : nat -> R) (k : nat) :
  Forall untouched
         (files (fst (batchRun toString36 events initialBatchState rnd k))).
Proof.
  apply batchRun_untouched. constructor.
Qed.


(** The witness of X17, on the second of three pixels in a row. *)
Lemma getNeighborAverage_inside_row_witness :
  (well_formed three_in_a_row
   /\ (0 <= 1 < width three_in_a_row * height three_in_a_row)%Z
   /\ (0 < 1 mod width three_in_a_row)%Z
   /\ (1 mod width three_in_a_row + 1 < width three_in_a_row)%Z)
  /\ getNeighborAverage (data three_in_a_row) (4 * 1) (width three_in_a_row)
     = neighborAverage2D three_in_a_row (4 * 1).
Proof.
  assert (Hwf : well_formed three_in_a_row) by (unfold well_formed; cbn; lia).
  assert (Hp : (0 <= 1 < width three_in_a_row * height three_in_a_row)%Z)
    by (cbn; lia).
  assert (Hl : (0 < 1 mod width three_in_a_row)%Z) by (cbn; lia).
  assert (Hr : (1 mod width three_in_a_row + 1 < width three_in_a_row)%Z)
    by (cbn; lia).
  split; [split; [| split; [| split]]; assumption |].
  exact (@getNeighborAverage_inside_row three_in_a_row 1 Hwf Hp Hl Hr).
Defined.
